(** * Lab-companion: row-level policies, cascades and the submission /
      evaluation workflow

    A shallow embedding of
    - the schema, helper functions, provisioning trigger and row-level
      security policies of [supabase/migrations/*.sql],
    - the [submitCode] and [submitEvaluation] handlers of the student editor
      and the faculty evaluation page,
    - the [execute-code] edge function.

    Tables are lists of rows (a table is a bag: the uniqueness constraints
    are checks made by the write operations, not a property of the type).
    UUIDs are natural numbers.  Timestamps ([created_at], [updated_at], ...)
    are left out: no policy, constraint or handler modelled here reads them. *)

From Stdlib Require Import List Bool Arith ZArith String Ascii Lia.
Import ListNotations.

Local Open Scope string_scope.
Local Open Scope nat_scope.

(* ===================================================================== *)
(** ** Schema *)
(* ===================================================================== *)

Module Schema.

Definition uuid := nat.

(** [CREATE TYPE public.app_role AS ENUM ('admin', 'faculty', 'student')] *)
Inductive app_role : Type := admin | faculty | student.

Definition app_role_eqb (a b : app_role) : bool :=
  match a, b with
  | admin, admin | faculty, faculty | student, student => true
  | _, _ => false
  end.

Record profile : Type := mk_profile {
  p_id : uuid;
  p_full_name : option string;
  p_role : app_role;
  p_department : option string
}.

Record subject : Type := mk_subject {
  sj_id : uuid;
  sj_name : string;
  sj_code : option string;
  sj_department : option string;
  sj_description : option string
}.

Record experiment : Type := mk_experiment {
  ex_id : uuid;
  ex_subject_id : uuid;
  ex_title : string;
  ex_description : option string;
  ex_experiment_number : option Z
}.

Record student_subject : Type := mk_student_subject {
  ss_id : uuid;
  ss_student_id : uuid;
  ss_subject_id : uuid
}.

Record faculty_subject : Type := mk_faculty_subject {
  fs_id : uuid;
  fs_faculty_id : uuid;
  fs_subject_id : uuid
}.

Record submission : Type := mk_submission {
  es_id : uuid;
  es_experiment_id : uuid;
  es_student_id : uuid;
  es_code : option string;
  es_language : option string;
  es_file_url : option string;
  es_status : string
}.

Record evaluation : Type := mk_evaluation {
  ev_id : uuid;
  ev_submission_id : uuid;
  ev_faculty_id : uuid;
  ev_marks : option Z;
  ev_feedback : option string
}.

(** The database: [auth.users] (only the key matters here) and the seven
    public tables. *)
Record db : Type := mk_db {
  auth_users : list uuid;
  profiles : list profile;
  subjects : list subject;
  experiments : list experiment;
  student_subjects : list student_subject;
  faculty_subjects : list faculty_subject;
  experiment_submissions : list submission;
  evaluations : list evaluation
}.

Definition empty_db : db := mk_db [] [] [] [] [] [] [] [].

Definition mem (x : uuid) (l : list uuid) : bool := existsb (Nat.eqb x) l.

(** *** Column constraints *)

(** [department TEXT CHECK (department IN ('CSE', 'IT', 'AIDS'))]: a NULL
    passes a CHECK. *)
Definition department_check (d : option string) : bool :=
  match d with
  | None => true
  | Some s => String.eqb s "CSE" || String.eqb s "IT" || String.eqb s "AIDS"
  end.

(** [status TEXT NOT NULL ... CHECK (status IN ('draft', 'submitted', 'evaluated'))] *)
Definition status_check (s : string) : bool :=
  String.eqb s "draft" || String.eqb s "submitted" || String.eqb s "evaluated".

(** [marks INT CHECK (marks >= 0 AND marks <= 100)] *)
Definition marks_check (m : option Z) : bool :=
  match m with
  | None => true
  | Some z => (0 <=? z)%Z && (z <=? 100)%Z
  end.

(** *** Helper functions (SECURITY DEFINER: they read the tables directly) *)

Definition is_admin (d : db) (uid : uuid) : bool :=
  existsb (fun p => Nat.eqb (p_id p) uid && app_role_eqb (p_role p) admin)
          (profiles d).

Definition is_faculty_for_subject (d : db) (uid _subject_id : uuid) : bool :=
  existsb (fun fs => Nat.eqb (fs_faculty_id fs) uid
                     && Nat.eqb (fs_subject_id fs) _subject_id)
          (faculty_subjects d).

Definition is_student_for_subject (d : db) (uid _subject_id : uuid) : bool :=
  existsb (fun ss => Nat.eqb (ss_student_id ss) uid
                     && Nat.eqb (ss_subject_id ss) _subject_id)
          (student_subjects d).

End Schema.

Export Schema.

(* ===================================================================== *)
(** ** Row-level security *)
(* ===================================================================== *)

Module Rls.

Inductive table : Type :=
  | t_profiles | t_subjects | t_experiments | t_student_subjects
  | t_faculty_subjects | t_experiment_submissions | t_evaluations.

Inductive command : Type := SELECT | INSERT | UPDATE | DELETE.

Inductive row : Type :=
  | RProfile (p : profile)
  | RSubject (s : subject)
  | RExperiment (e : experiment)
  | RStudentSubject (ss : student_subject)
  | RFacultySubject (fs : faculty_subject)
  | RSubmission (es : submission)
  | REvaluation (ev : evaluation).

Definition table_of (r : row) : table :=
  match r with
  | RProfile _ => t_profiles
  | RSubject _ => t_subjects
  | RExperiment _ => t_experiments
  | RStudentSubject _ => t_student_subjects
  | RFacultySubject _ => t_faculty_subjects
  | RSubmission _ => t_experiment_submissions
  | REvaluation _ => t_evaluations
  end.

Definition table_eqb (a b : table) : bool :=
  match a, b with
  | t_profiles, t_profiles | t_subjects, t_subjects
  | t_experiments, t_experiments | t_student_subjects, t_student_subjects
  | t_faculty_subjects, t_faculty_subjects
  | t_experiment_submissions, t_experiment_submissions
  | t_evaluations, t_evaluations => true
  | _, _ => false
  end.

Definition command_eqb (a b : command) : bool :=
  match a, b with
  | SELECT, SELECT | INSERT, INSERT | UPDATE, UPDATE | DELETE, DELETE => true
  | _, _ => false
  end.

(** *** Policy expressions

    Every policy is [TO authenticated]: the caller is a [uuid], the value of
    [auth.uid()].  A sub-select inside a policy expression runs as the
    caller, so it only sees the rows of the other table that the caller's
    own SELECT policy lets through ([visible_*] below). *)

Definition profiles_select (d : db) (uid : uuid) (p : profile) : bool := true.

Definition profiles_update_own (d : db) (uid : uuid) (p : profile) : bool :=
  Nat.eqb (p_id p) uid || is_admin d uid.

Definition subjects_select (d : db) (uid : uuid) (s : subject) : bool := true.
Definition subjects_insert_admin (d : db) (uid : uuid) (s : subject) : bool :=
  is_admin d uid.
Definition subjects_update_admin (d : db) (uid : uuid) (s : subject) : bool :=
  is_admin d uid.
Definition subjects_delete_admin (d : db) (uid : uuid) (s : subject) : bool :=
  is_admin d uid.

Definition experiments_select (d : db) (uid : uuid) (e : experiment) : bool :=
  true.
Definition experiments_insert (d : db) (uid : uuid) (e : experiment) : bool :=
  is_admin d uid || is_faculty_for_subject d uid (ex_subject_id e).
Definition experiments_update (d : db) (uid : uuid) (e : experiment) : bool :=
  is_admin d uid || is_faculty_for_subject d uid (ex_subject_id e).
Definition experiments_delete (d : db) (uid : uuid) (e : experiment) : bool :=
  is_admin d uid.

Definition student_subjects_select (d : db) (uid : uuid) (ss : student_subject)
  : bool :=
  is_admin d uid || Nat.eqb (ss_student_id ss) uid
  || is_faculty_for_subject d uid (ss_subject_id ss).

(** First migration: admin only. *)
Definition student_subjects_insert_v1 (d : db) (uid : uuid)
  (ss : student_subject) : bool :=
  is_admin d uid.

(** Second migration: [WITH CHECK (student_id = auth.uid() OR is_admin())]. *)
Definition student_subjects_insert_v2 (d : db) (uid : uuid)
  (ss : student_subject) : bool :=
  Nat.eqb (ss_student_id ss) uid || is_admin d uid.

Definition student_subjects_delete (d : db) (uid : uuid) (ss : student_subject)
  : bool :=
  is_admin d uid.

Definition faculty_subjects_select (d : db) (uid : uuid) (fs : faculty_subject)
  : bool :=
  is_admin d uid || Nat.eqb (fs_faculty_id fs) uid.
Definition faculty_subjects_insert (d : db) (uid : uuid) (fs : faculty_subject)
  : bool :=
  is_admin d uid.
Definition faculty_subjects_delete (d : db) (uid : uuid) (fs : faculty_subject)
  : bool :=
  is_admin d uid.

Definition visible_experiments (d : db) (uid : uuid) : list experiment :=
  filter (experiments_select d uid) (experiments d).

Definition visible_faculty_subjects (d : db) (uid : uuid)
  : list faculty_subject :=
  filter (faculty_subjects_select d uid) (faculty_subjects d).

(** [is_admin() OR student_id = auth.uid() OR EXISTS (SELECT 1 FROM
    experiments e JOIN faculty_subjects fs ON e.subject_id = fs.subject_id
    WHERE e.id = experiment_id AND fs.faculty_id = auth.uid())] *)
Definition submissions_select (d : db) (uid : uuid) (es : submission) : bool :=
  is_admin d uid || Nat.eqb (es_student_id es) uid
  || existsb (fun e =>
       existsb (fun fs =>
         Nat.eqb (ex_subject_id e) (fs_subject_id fs)
         && Nat.eqb (ex_id e) (es_experiment_id es)
         && Nat.eqb (fs_faculty_id fs) uid)
         (visible_faculty_subjects d uid))
       (visible_experiments d uid).

Definition submissions_insert (d : db) (uid : uuid) (es : submission) : bool :=
  Nat.eqb (es_student_id es) uid.

Definition submissions_update (d : db) (uid : uuid) (es : submission) : bool :=
  is_admin d uid || Nat.eqb (es_student_id es) uid.

Definition visible_submissions (d : db) (uid : uuid) : list submission :=
  filter (submissions_select d uid) (experiment_submissions d).

(** [is_admin() OR faculty_id = auth.uid() OR EXISTS (SELECT 1 FROM
    experiment_submissions es WHERE es.id = submission_id
    AND es.student_id = auth.uid())] *)
Definition evaluations_select (d : db) (uid : uuid) (ev : evaluation) : bool :=
  is_admin d uid || Nat.eqb (ev_faculty_id ev) uid
  || existsb (fun es => Nat.eqb (es_id es) (ev_submission_id ev)
                        && Nat.eqb (es_student_id es) uid)
             (visible_submissions d uid).

(** [is_admin() OR (faculty_id = auth.uid() AND EXISTS (SELECT 1
    FROM experiment_submissions es
    JOIN experiments e ON es.experiment_id = e.id
    JOIN faculty_subjects fs ON e.subject_id = fs.subject_id
    WHERE es.id = submission_id AND fs.faculty_id = auth.uid()))] *)
Definition evaluations_insert (d : db) (uid : uuid) (ev : evaluation) : bool :=
  is_admin d uid
  || (Nat.eqb (ev_faculty_id ev) uid
      && existsb (fun es =>
           existsb (fun e =>
             existsb (fun fs =>
               Nat.eqb (es_experiment_id es) (ex_id e)
               && Nat.eqb (ex_subject_id e) (fs_subject_id fs)
               && Nat.eqb (es_id es) (ev_submission_id ev)
               && Nat.eqb (fs_faculty_id fs) uid)
               (visible_faculty_subjects d uid))
             (visible_experiments d uid))
           (visible_submissions d uid)).

Definition evaluations_update (d : db) (uid : uuid) (ev : evaluation) : bool :=
  is_admin d uid || Nat.eqb (ev_faculty_id ev) uid.

(** *** The policy catalogue and the two migrations *)

Record policy : Type := mk_policy {
  pol_name : string;
  pol_table : table;
  pol_cmd : command;
  pol_expr : db -> uuid -> row -> bool
}.

Definition on_profile (f : db -> uuid -> profile -> bool) d uid r :=
  match r with RProfile p => f d uid p | _ => false end.
Definition on_subject (f : db -> uuid -> subject -> bool) d uid r :=
  match r with RSubject p => f d uid p | _ => false end.
Definition on_experiment (f : db -> uuid -> experiment -> bool) d uid r :=
  match r with RExperiment p => f d uid p | _ => false end.
Definition on_student_subject (f : db -> uuid -> student_subject -> bool)
  d uid r :=
  match r with RStudentSubject p => f d uid p | _ => false end.
Definition on_faculty_subject (f : db -> uuid -> faculty_subject -> bool)
  d uid r :=
  match r with RFacultySubject p => f d uid p | _ => false end.
Definition on_submission (f : db -> uuid -> submission -> bool) d uid r :=
  match r with RSubmission p => f d uid p | _ => false end.
Definition on_evaluation (f : db -> uuid -> evaluation -> bool) d uid r :=
  match r with REvaluation p => f d uid p | _ => false end.

(** [CREATE POLICY] adds a policy to the catalogue. *)
Definition create_policy (p : policy) (cat : list policy) : list policy :=
  cat ++ [p].

(** [DROP POLICY IF EXISTS name ON table] *)
Definition drop_policy_if_exists (name : string) (t : table)
  (cat : list policy) : list policy :=
  filter (fun p => negb (String.eqb (pol_name p) name
                         && table_eqb (pol_table p) t)) cat.

Definition migration_20260210140845 (cat : list policy) : list policy :=
  fold_left (fun c p => create_policy p c)
    [ mk_policy "profiles_select" t_profiles SELECT (on_profile profiles_select);
      mk_policy "profiles_update_own" t_profiles UPDATE
                (on_profile profiles_update_own);
      mk_policy "subjects_select" t_subjects SELECT (on_subject subjects_select);
      mk_policy "subjects_insert_admin" t_subjects INSERT
                (on_subject subjects_insert_admin);
      mk_policy "subjects_update_admin" t_subjects UPDATE
                (on_subject subjects_update_admin);
      mk_policy "subjects_delete_admin" t_subjects DELETE
                (on_subject subjects_delete_admin);
      mk_policy "experiments_select" t_experiments SELECT
                (on_experiment experiments_select);
      mk_policy "experiments_insert" t_experiments INSERT
                (on_experiment experiments_insert);
      mk_policy "experiments_update" t_experiments UPDATE
                (on_experiment experiments_update);
      mk_policy "experiments_delete" t_experiments DELETE
                (on_experiment experiments_delete);
      mk_policy "student_subjects_select" t_student_subjects SELECT
                (on_student_subject student_subjects_select);
      mk_policy "student_subjects_insert" t_student_subjects INSERT
                (on_student_subject student_subjects_insert_v1);
      mk_policy "student_subjects_delete" t_student_subjects DELETE
                (on_student_subject student_subjects_delete);
      mk_policy "faculty_subjects_select" t_faculty_subjects SELECT
                (on_faculty_subject faculty_subjects_select);
      mk_policy "faculty_subjects_insert" t_faculty_subjects INSERT
                (on_faculty_subject faculty_subjects_insert);
      mk_policy "faculty_subjects_delete" t_faculty_subjects DELETE
                (on_faculty_subject faculty_subjects_delete);
      mk_policy "submissions_select" t_experiment_submissions SELECT
                (on_submission submissions_select);
      mk_policy "submissions_insert" t_experiment_submissions INSERT
                (on_submission submissions_insert);
      mk_policy "submissions_update" t_experiment_submissions UPDATE
                (on_submission submissions_update);
      mk_policy "evaluations_select" t_evaluations SELECT
                (on_evaluation evaluations_select);
      mk_policy "evaluations_insert" t_evaluations INSERT
                (on_evaluation evaluations_insert);
      mk_policy "evaluations_update" t_evaluations UPDATE
                (on_evaluation evaluations_update) ]
    cat.

Definition migration_20260217173141 (cat : list policy) : list policy :=
  create_policy
    (mk_policy "student_subjects_insert" t_student_subjects INSERT
               (on_student_subject student_subjects_insert_v2))
    (drop_policy_if_exists "student_subjects_insert" t_student_subjects cat).

Definition policies_v1 : list policy := migration_20260210140845 [].
Definition policies : list policy := migration_20260217173141 policies_v1.

(** Row-level security is enabled on all seven tables: a command on a row is
    allowed when some (permissive) policy of that table and command accepts
    the row, and refused when there is none. *)
Definition authorize_with (cat : list policy) (d : db) (uid : uuid)
  (c : command) (r : row) : bool :=
  existsb (fun p => table_eqb (pol_table p) (table_of r)
                    && command_eqb (pol_cmd p) c
                    && pol_expr p d uid r) cat.

Definition Authorize : db -> uuid -> command -> row -> bool :=
  authorize_with policies.

Definition Authorize_v1 : db -> uuid -> command -> row -> bool :=
  authorize_with policies_v1.

End Rls.

Export Rls.

(* ===================================================================== *)
(** ** The datastore: constraint-checked writes and cascading deletes *)
(* ===================================================================== *)

Module Store.

Inductive pg_error : Type :=
  | RlsViolation          (* new row violates row-level security policy *)
  | CheckViolation
  | UniqueViolation       (* duplicate key: the Conflict of the workflow *)
  | ForeignKeyViolation
  | InvalidEnumValue.     (* invalid input value for enum *)

Inductive result (A : Type) : Type :=
  | Ok (a : A)
  | Err (e : pg_error).
Arguments Ok {A} a.
Arguments Err {A} e.

Definition set_profiles (d : db) (l : list profile) : db :=
  mk_db (auth_users d) l (subjects d) (experiments d) (student_subjects d)
        (faculty_subjects d) (experiment_submissions d) (evaluations d).

Definition set_experiment_submissions (d : db) (l : list submission) : db :=
  mk_db (auth_users d) (profiles d) (subjects d) (experiments d)
        (student_subjects d) (faculty_subjects d) l (evaluations d).

Definition set_evaluations (d : db) (l : list evaluation) : db :=
  mk_db (auth_users d) (profiles d) (subjects d) (experiments d)
        (student_subjects d) (faculty_subjects d) (experiment_submissions d) l.

(** *** Reads through the data API: the WHERE clause and the SELECT policy *)

Definition select_submissions (d : db) (uid : uuid)
  (where_ : submission -> bool) : list submission :=
  filter (fun es => where_ es && Authorize d uid SELECT (RSubmission es))
         (experiment_submissions d).

Definition select_evaluations (d : db) (uid : uuid)
  (where_ : evaluation -> bool) : list evaluation :=
  filter (fun ev => where_ ev && Authorize d uid SELECT (REvaluation ev))
         (evaluations d).

(** *** Inserts: WITH CHECK policy, then CHECK, keys and foreign keys *)

Definition insert_submission (d : db) (uid : uuid) (es : submission)
  : result db :=
  if negb (Authorize d uid INSERT (RSubmission es)) then Err RlsViolation
  else if negb (status_check (es_status es)) then Err CheckViolation
  else if mem (es_id es) (map es_id (experiment_submissions d))
    then Err UniqueViolation
  else if existsb (fun s => Nat.eqb (es_experiment_id s) (es_experiment_id es)
                            && Nat.eqb (es_student_id s) (es_student_id es))
                  (experiment_submissions d)
    then Err UniqueViolation
  else if negb (mem (es_experiment_id es) (map ex_id (experiments d))
                && mem (es_student_id es) (auth_users d))
    then Err ForeignKeyViolation
  else Ok (set_experiment_submissions d (experiment_submissions d ++ [es])).

Definition insert_evaluation (d : db) (uid : uuid) (ev : evaluation)
  : result db :=
  if negb (Authorize d uid INSERT (REvaluation ev)) then Err RlsViolation
  else if negb (marks_check (ev_marks ev)) then Err CheckViolation
  else if mem (ev_id ev) (map ev_id (evaluations d)) then Err UniqueViolation
  else if mem (ev_submission_id ev) (map ev_submission_id (evaluations d))
    then Err UniqueViolation
  else if negb (mem (ev_submission_id ev) (map es_id (experiment_submissions d))
                && mem (ev_faculty_id ev) (auth_users d))
    then Err ForeignKeyViolation
  else Ok (set_evaluations d (evaluations d ++ [ev])).

(** The provisioning trigger is SECURITY DEFINER: its insert is not subject
    to row-level security, only to the constraints of [profiles]. *)
Definition insert_profile_definer (d : db) (p : profile) : result db :=
  if negb (department_check (p_department p)) then Err CheckViolation
  else if mem (p_id p) (map p_id (profiles d)) then Err UniqueViolation
  else if negb (mem (p_id p) (auth_users d)) then Err ForeignKeyViolation
  else Ok (set_profiles d (profiles d ++ [p])).

(** *** Updates

    A row is touched when it matches the WHERE clause, is visible to the
    caller and passes the UPDATE policy's USING expression; the new row must
    pass it again (no separate WITH CHECK is declared), and the constraints
    of the table.  The new row must also be visible to the caller; on both
    tables updated here the UPDATE policy implies the SELECT policy
    ([submissions_update_visible], [evaluations_update_visible]), so that
    check is left out. *)

Definition pairs_unique (l : list (uuid * uuid)) : bool :=
  (fix go (l : list (uuid * uuid)) : bool :=
     match l with
     | [] => true
     | (a, b) :: r =>
         negb (existsb (fun q => Nat.eqb (fst q) a && Nat.eqb (snd q) b) r)
         && go r
     end) l.

Definition ids_unique (l : list uuid) : bool :=
  (fix go (l : list uuid) : bool :=
     match l with
     | [] => true
     | a :: r => negb (mem a r) && go r
     end) l.

Definition update_submissions (d : db) (uid : uuid)
  (where_ : submission -> bool) (set : submission -> submission) : result db :=
  let hit es := where_ es && Authorize d uid SELECT (RSubmission es)
                && Authorize d uid UPDATE (RSubmission es) in
  let rows' := map (fun es => if hit es then set es else es)
                   (experiment_submissions d) in
  let news := map set (filter hit (experiment_submissions d)) in
  if negb (forallb (fun es => Authorize d uid UPDATE (RSubmission es)) news)
    then Err RlsViolation
  else if negb (forallb (fun es => status_check (es_status es)) news)
    then Err CheckViolation
  else if negb (ids_unique (map es_id rows')
                && pairs_unique (map (fun es => (es_experiment_id es,
                                                 es_student_id es)) rows'))
    then Err UniqueViolation
  else if negb (forallb (fun es =>
                  mem (es_experiment_id es) (map ex_id (experiments d))
                  && mem (es_student_id es) (auth_users d)) news)
    then Err ForeignKeyViolation
  else Ok (set_experiment_submissions d rows').

Definition update_evaluations (d : db) (uid : uuid)
  (where_ : evaluation -> bool) (set : evaluation -> evaluation) : result db :=
  let hit ev := where_ ev && Authorize d uid SELECT (REvaluation ev)
                && Authorize d uid UPDATE (REvaluation ev) in
  let rows' := map (fun ev => if hit ev then set ev else ev) (evaluations d) in
  let news := map set (filter hit (evaluations d)) in
  if negb (forallb (fun ev => Authorize d uid UPDATE (REvaluation ev)) news)
    then Err RlsViolation
  else if negb (forallb (fun ev => marks_check (ev_marks ev)) news)
    then Err CheckViolation
  else if negb (ids_unique (map ev_id rows')
                && ids_unique (map ev_submission_id rows'))
    then Err UniqueViolation
  else if negb (forallb (fun ev =>
                  mem (ev_submission_id ev) (map es_id (experiment_submissions d))
                  && mem (ev_faculty_id ev) (auth_users d)) news)
    then Err ForeignKeyViolation
  else Ok (set_evaluations d rows').

(** *** Deletes and [ON DELETE CASCADE]

    [delete_T_where P] removes the rows of [T] that satisfy [P] and, for
    every foreign key declared [REFERENCES T(id) ON DELETE CASCADE], the
    referencing rows, recursively. *)

Definition delete_evaluations_where (P : evaluation -> bool) (d : db) : db :=
  set_evaluations d (filter (fun ev => negb (P ev)) (evaluations d)).

Definition delete_submissions_where (P : submission -> bool) (d : db) : db :=
  let gone := map es_id (filter P (experiment_submissions d)) in
  delete_evaluations_where (fun ev => mem (ev_submission_id ev) gone)
    (set_experiment_submissions d
       (filter (fun es => negb (P es)) (experiment_submissions d))).

Definition delete_experiments_where (P : experiment -> bool) (d : db) : db :=
  let gone := map ex_id (filter P (experiments d)) in
  delete_submissions_where (fun es => mem (es_experiment_id es) gone)
    (mk_db (auth_users d) (profiles d) (subjects d)
           (filter (fun e => negb (P e)) (experiments d))
           (student_subjects d) (faculty_subjects d)
           (experiment_submissions d) (evaluations d)).

Definition delete_student_subjects_where (P : student_subject -> bool)
  (d : db) : db :=
  mk_db (auth_users d) (profiles d) (subjects d) (experiments d)
        (filter (fun ss => negb (P ss)) (student_subjects d))
        (faculty_subjects d) (experiment_submissions d) (evaluations d).

Definition delete_faculty_subjects_where (P : faculty_subject -> bool)
  (d : db) : db :=
  mk_db (auth_users d) (profiles d) (subjects d) (experiments d)
        (student_subjects d)
        (filter (fun fs => negb (P fs)) (faculty_subjects d))
        (experiment_submissions d) (evaluations d).

Definition delete_profiles_where (P : profile -> bool) (d : db) : db :=
  set_profiles d (filter (fun p => negb (P p)) (profiles d)).

Definition delete_subjects_where (P : subject -> bool) (d : db) : db :=
  let gone := map sj_id (filter P (subjects d)) in
  delete_faculty_subjects_where (fun fs => mem (fs_subject_id fs) gone)
    (delete_student_subjects_where (fun ss => mem (ss_subject_id ss) gone)
       (delete_experiments_where (fun e => mem (ex_subject_id e) gone)
          (mk_db (auth_users d) (profiles d)
                 (filter (fun s => negb (P s)) (subjects d))
                 (experiments d) (student_subjects d) (faculty_subjects d)
                 (experiment_submissions d) (evaluations d)))).

(** Removing identities from [auth.users]: [profiles.id],
    [student_subjects.student_id], [faculty_subjects.faculty_id],
    [experiment_submissions.student_id] and [evaluations.faculty_id] all
    cascade. *)
Definition delete_users_where (P : uuid -> bool) (d : db) : db :=
  let gone := filter P (auth_users d) in
  delete_evaluations_where (fun ev => mem (ev_faculty_id ev) gone)
    (delete_submissions_where (fun es => mem (es_student_id es) gone)
       (delete_faculty_subjects_where (fun fs => mem (fs_faculty_id fs) gone)
          (delete_student_subjects_where (fun ss => mem (ss_student_id ss) gone)
             (delete_profiles_where (fun p => mem (p_id p) gone)
                (mk_db (filter (fun u => negb (P u)) (auth_users d))
                       (profiles d) (subjects d) (experiments d)
                       (student_subjects d) (faculty_subjects d)
                       (experiment_submissions d) (evaluations d)))))).

(** Deleting a subject by key, as the admin page does
    ([supabase.from("subjects").delete().eq("id", id)]), without the policy. *)
Definition delete_subject (id : uuid) (d : db) : db :=
  delete_subjects_where (fun s => Nat.eqb (sj_id s) id) d.

(** A DELETE statement on any table, with an arbitrary row filter (the WHERE
    clause together with whatever the DELETE and SELECT policies let
    through). *)
Inductive delete_op : Type :=
  | DeleteUsers (P : uuid -> bool)
  | DeleteProfiles (P : profile -> bool)
  | DeleteSubjects (P : subject -> bool)
  | DeleteExperiments (P : experiment -> bool)
  | DeleteStudentSubjects (P : student_subject -> bool)
  | DeleteFacultySubjects (P : faculty_subject -> bool)
  | DeleteSubmissions (P : submission -> bool)
  | DeleteEvaluations (P : evaluation -> bool).

Definition run_delete (op : delete_op) (d : db) : db :=
  match op with
  | DeleteUsers P => delete_users_where P d
  | DeleteProfiles P => delete_profiles_where P d
  | DeleteSubjects P => delete_subjects_where P d
  | DeleteExperiments P => delete_experiments_where P d
  | DeleteStudentSubjects P => delete_student_subjects_where P d
  | DeleteFacultySubjects P => delete_faculty_subjects_where P d
  | DeleteSubmissions P => delete_submissions_where P d
  | DeleteEvaluations P => delete_evaluations_where P d
  end.

(** A DELETE issued by caller [uid] through the data API: the rows that match
    the WHERE clause, are visible to the caller and pass a DELETE policy. *)
Definition api_delete_subjects (d : db) (uid : uuid) (where_ : subject -> bool)
  : db :=
  delete_subjects_where
    (fun s => where_ s && Authorize d uid SELECT (RSubject s)
              && Authorize d uid DELETE (RSubject s)) d.

Definition api_delete_experiments (d : db) (uid : uuid)
  (where_ : experiment -> bool) : db :=
  delete_experiments_where
    (fun e => where_ e && Authorize d uid SELECT (RExperiment e)
              && Authorize d uid DELETE (RExperiment e)) d.

Definition api_delete_submissions (d : db) (uid : uuid)
  (where_ : submission -> bool) : db :=
  delete_submissions_where
    (fun es => where_ es && Authorize d uid SELECT (RSubmission es)
               && Authorize d uid DELETE (RSubmission es)) d.

(** *** Referential integrity: every foreign key value has its parent row *)

Definition ref_integrity (d : db) : bool :=
  forallb (fun p => mem (p_id p) (auth_users d)) (profiles d)
  && forallb (fun e => mem (ex_subject_id e) (map sj_id (subjects d)))
             (experiments d)
  && forallb (fun ss => mem (ss_student_id ss) (auth_users d)
                        && mem (ss_subject_id ss) (map sj_id (subjects d)))
             (student_subjects d)
  && forallb (fun fs => mem (fs_faculty_id fs) (auth_users d)
                        && mem (fs_subject_id fs) (map sj_id (subjects d)))
             (faculty_subjects d)
  && forallb (fun es => mem (es_experiment_id es) (map ex_id (experiments d))
                        && mem (es_student_id es) (auth_users d))
             (experiment_submissions d)
  && forallb (fun ev => mem (ev_submission_id ev)
                            (map es_id (experiment_submissions d))
                        && mem (ev_faculty_id ev) (auth_users d))
             (evaluations d).

(** Referential integrity, one foreign key at a time. *)
Definition RI (d : db) : Prop :=
  (forall p, In p (profiles d) -> mem (p_id p) (auth_users d) = true)
  /\ (forall e, In e (experiments d) ->
        mem (ex_subject_id e) (map sj_id (subjects d)) = true)
  /\ (forall ss, In ss (student_subjects d) ->
        mem (ss_student_id ss) (auth_users d) = true)
  /\ (forall ss, In ss (student_subjects d) ->
        mem (ss_subject_id ss) (map sj_id (subjects d)) = true)
  /\ (forall fs, In fs (faculty_subjects d) ->
        mem (fs_faculty_id fs) (auth_users d) = true)
  /\ (forall fs, In fs (faculty_subjects d) ->
        mem (fs_subject_id fs) (map sj_id (subjects d)) = true)
  /\ (forall es, In es (experiment_submissions d) ->
        mem (es_experiment_id es) (map ex_id (experiments d)) = true)
  /\ (forall es, In es (experiment_submissions d) ->
        mem (es_student_id es) (auth_users d) = true)
  /\ (forall ev, In ev (evaluations d) ->
        mem (ev_submission_id ev) (map es_id (experiment_submissions d))
        = true)
  /\ (forall ev, In ev (evaluations d) ->
        mem (ev_faculty_id ev) (auth_users d) = true).

(** The keys and foreign keys of [experiment_submissions] hold. *)
Definition submissions_consistent (d : db) : bool :=
  ids_unique (map es_id (experiment_submissions d))
  && pairs_unique (map (fun es => (es_experiment_id es, es_student_id es))
                       (experiment_submissions d))
  && forallb (fun es => mem (es_experiment_id es) (map ex_id (experiments d))
                        && mem (es_student_id es) (auth_users d))
             (experiment_submissions d).

End Store.

Export Store.

(* ===================================================================== *)
(** ** JavaScript strings as the handlers use them *)
(* ===================================================================== *)

Module Js.

(** Strings are sequences of code units below 256.  In that range the
    white space of [String.prototype.trim] and of [parseInt] is TAB, LF, VT,
    FF, CR, SPACE and NBSP. *)
Definition is_ws (c : ascii) : bool :=
  let n := nat_of_ascii c in
  (Nat.leb 9 n && Nat.leb n 13) || Nat.eqb n 32 || Nat.eqb n 160.

Fixpoint trim_start (s : string) : string :=
  match s with
  | EmptyString => EmptyString
  | String c r => if is_ws c then trim_start r else s
  end.

Fixpoint trim_end (s : string) : string :=
  match s with
  | EmptyString => EmptyString
  | String c r =>
      match trim_end r with
      | EmptyString => if is_ws c then EmptyString else String c EmptyString
      | r' => String c r'
      end
  end.

Definition trim (s : string) : string := trim_end (trim_start s).

Definition digit_value (c : ascii) : option Z :=
  let n := nat_of_ascii c in
  if Nat.leb 48 n && Nat.leb n 57 then Some (Z.of_nat (n - 48))
  else if Nat.leb 97 n && Nat.leb n 122 then Some (Z.of_nat (n - 87))
  else if Nat.leb 65 n && Nat.leb n 90 then Some (Z.of_nat (n - 55))
  else None.

(** The longest prefix of radix-[radix] digits, as a number; [None] when the
    prefix is empty. *)
Fixpoint parse_digits (radix : Z) (s : string) (acc : option Z) : option Z :=
  match s with
  | EmptyString => acc
  | String c r =>
      match digit_value c with
      | Some v =>
          if (v <? radix)%Z
          then parse_digits radix r
                 (Some (match acc with
                        | None => v
                        | Some a => a * radix + v
                        end)%Z)
          else acc
      | None => acc
      end
  end.

(** [parseInt(s)] with no radix argument; [None] is NaN.  The result is the
    exact integer: where the engine would round a long digit string to a
    double the value is far above 100 either way, and -0 is 0. *)
Definition parseInt (s : string) : option Z :=
  let s1 := trim_start s in
  let '(sign, s2) :=
    match s1 with
    | String "-"%char r => ((-1)%Z, r)
    | String "+"%char r => (1%Z, r)
    | _ => (1%Z, s1)
    end in
  let '(radix, s3) :=
    match s2 with
    | String "0"%char (String "x"%char r) => (16%Z, r)
    | String "0"%char (String "X"%char r) => (16%Z, r)
    | _ => (10%Z, s2)
    end in
  match parse_digits radix s3 None with
  | None => None
  | Some m => Some (sign * m)%Z
  end.

(** [String.prototype.toLowerCase] on code units below 256: A-Z and the
    Latin-1 capitals (0xC0-0xDE except the multiplication sign 0xD7). *)
Definition lower_char (c : ascii) : ascii :=
  let n := nat_of_ascii c in
  if (Nat.leb 65 n && Nat.leb n 90)
     || (Nat.leb 192 n && Nat.leb n 222 && negb (Nat.eqb n 215))
  then ascii_of_nat (n + 32) else c.

Fixpoint toLowerCase (s : string) : string :=
  match s with
  | EmptyString => EmptyString
  | String c r => String (lower_char c) (toLowerCase r)
  end.

(** PostgREST's [.maybeSingle()]: the row when exactly one matches, [null]
    when none does, and an error (so [data] is [null]) when several do. *)
Definition maybeSingle {A : Type} (l : list A) : option A :=
  match l with
  | [x] => Some x
  | _ => None
  end.

End Js.

Export Js.

(* ===================================================================== *)
(** ** Submission / evaluation workflow (the page handlers) *)
(* ===================================================================== *)

Module Workflow.

Inductive outcome : Type :=
  | NotReady                       (* [if (!user || !selected...) return] *)
  | ValidationError (msg : string) (* rejected before any request is sent *)
  | Failed (e : pg_error)          (* a request returned an error: thrown *)
  | Success (msg : string).

(** The body [{ code, language, status: "submitted" }] of the update. *)
Definition resubmit (code language : string) (es : submission) : submission :=
  mk_submission (es_id es) (es_experiment_id es) (es_student_id es)
                (Some code) (Some language) (es_file_url es) "submitted".

(** [submitCode] of the student's editor page.  [new_id] is the key that
    [gen_random_uuid()] draws if a row is inserted. *)
Definition submitCode (d : db) (user : option uuid)
  (selectedExperiment : option experiment) (code language : string)
  (new_id : uuid) : db * outcome :=
  match user, selectedExperiment with
  | Some u, Some e =>
      let existing :=
        maybeSingle
          (select_submissions d u
             (fun es => Nat.eqb (es_student_id es) u
                        && Nat.eqb (es_experiment_id es) (ex_id e))) in
      match existing with
      | Some ex =>
          match update_submissions d u (fun es => Nat.eqb (es_id es) (es_id ex))
                  (resubmit code language) with
          | Ok d' => (d', Success "Submission updated!")
          | Err err => (d, Failed err)
          end
      | None =>
          match insert_submission d u
                  (mk_submission new_id (ex_id e) u (Some code) (Some language)
                                 None "submitted") with
          | Ok d' => (d', Success "Code submitted for evaluation!")
          | Err err => (d, Failed err)
          end
      end
  | _, _ => (d, NotReady)
  end.

(** The body [{ marks: marksNum, feedback: feedback.trim() }]. *)
Definition regrade (marksNum : Z) (feedback : string) (ev : evaluation)
  : evaluation :=
  mk_evaluation (ev_id ev) (ev_submission_id ev) (ev_faculty_id ev)
                (Some marksNum) (Some (trim feedback)).

(** The body [{ status: "evaluated" }]. *)
Definition mark_evaluated (es : submission) : submission :=
  mk_submission (es_id es) (es_experiment_id es) (es_student_id es)
                (es_code es) (es_language es) (es_file_url es) "evaluated".

(** The second write of [submitEvaluation]; its result is not inspected, so
    an error leaves the store as it was and the handler goes on. *)
Definition flip_status (d : db) (u : uuid) (submission_id : uuid) : db :=
  match update_submissions d u (fun es => Nat.eqb (es_id es) submission_id)
          mark_evaluated with
  | Ok d' => d'
  | Err _ => d
  end.

(** [submitEvaluation] of the faculty evaluation page.  [marks] and
    [feedback] are the two form fields. *)
Definition submitEvaluation (d : db) (user : option uuid)
  (selectedSubmission : option submission) (marks feedback : string)
  (new_id : uuid) : db * outcome :=
  match user, selectedSubmission with
  | Some u, Some sel =>
      match parseInt marks with
      | None => (d, ValidationError "Marks must be between 0 and 100")
      | Some marksNum =>
          if (marksNum <? 0)%Z || (100 <? marksNum)%Z
          then (d, ValidationError "Marks must be between 0 and 100")
          else if String.eqb (trim feedback) ""
          then (d, ValidationError "Please provide feedback")
          else
            let existing :=
              maybeSingle
                (select_evaluations d u
                   (fun ev => Nat.eqb (ev_submission_id ev) (es_id sel))) in
            let written :=
              match existing with
              | Some ex =>
                  update_evaluations d u
                    (fun ev => Nat.eqb (ev_id ev) (ev_id ex))
                    (regrade marksNum feedback)
              | None =>
                  insert_evaluation d u
                    (mk_evaluation new_id (es_id sel) u (Some marksNum)
                                   (Some (trim feedback)))
              end in
            match written with
            | Err err => (d, Failed err)
            | Ok d1 =>
                (flip_status d1 u (es_id sel),
                 Success "Evaluation submitted successfully!")
            end
      end
  | _, _ => (d, NotReady)
  end.

(** Number of evaluation rows keyed by a submission. *)
Definition evaluations_for (d : db) (submission_id : uuid) : nat :=
  List.length (filter (fun ev => Nat.eqb (ev_submission_id ev) submission_id)
                 (evaluations d)).


Definition is_success (o : outcome) : bool :=
  match o with Success _ => true | _ => false end.

Definition status_of (d : db) (submission_id : uuid) : option string :=
  option_map es_status
    (find (fun es => Nat.eqb (es_id es) submission_id)
          (experiment_submissions d)).

(** The writes a signed-in caller can make that reach
    [experiment_submissions]: the data API on the table itself, deletes on
    the tables it cascades from, and the two page handlers. *)
Inductive request : Type :=
  | InsertSubmission (es : submission)
  | UpdateSubmissions (where_ : submission -> bool)
                      (set : submission -> submission)
  | DeleteSubmissionRows (where_ : submission -> bool)
  | DeleteExperimentRows (where_ : experiment -> bool)
  | DeleteSubjectRows (where_ : subject -> bool)
  | SubmitCode (selectedExperiment : option experiment)
               (code language : string) (new_id : uuid)
  | SubmitEvaluation (selectedSubmission : option submission)
                     (marks feedback : string) (new_id : uuid).

Definition or_unchanged (d : db) (r : result db) : db :=
  match r with Ok d' => d' | Err _ => d end.

Definition run (d : db) (uid : uuid) (rq : request) : db :=
  match rq with
  | InsertSubmission es => or_unchanged d (insert_submission d uid es)
  | UpdateSubmissions w s => or_unchanged d (update_submissions d uid w s)
  | DeleteSubmissionRows w => api_delete_submissions d uid w
  | DeleteExperimentRows w => api_delete_experiments d uid w
  | DeleteSubjectRows w => api_delete_subjects d uid w
  | SubmitCode e code lang new_id =>
      fst (submitCode d (Some uid) e code lang new_id)
  | SubmitEvaluation sel marks feedback new_id =>
      fst (submitEvaluation d (Some uid) sel marks feedback new_id)
  end.

(** The submissions that belong to somebody else than [uid]. *)
Definition others_submissions (d : db) (uid : uuid) : list submission :=
  filter (fun es => negb (Nat.eqb (es_student_id es) uid))
         (experiment_submissions d).

End Workflow.

Export Workflow.

(* ===================================================================== *)
(** ** Provisioning trigger *)
(* ===================================================================== *)

Module Provisioning.

(** A JSON object as [->>] sees it: each key with the text of its value, or
    [None] for a JSON null. *)
Definition jsonb := list (string * option string).

(** The row of [auth.users] being inserted ([NEW]). *)
Record new_user : Type := mk_new_user {
  nu_id : uuid;
  raw_user_meta_data : option jsonb
}.

(** [j ->> key]: NULL when [j] is NULL, the key is absent or its value is
    null; for a repeated key the last one counts. *)
Definition get_text (j : option jsonb) (key : string) : option string :=
  match j with
  | None => None
  | Some fields =>
      match find (fun kv => String.eqb (fst kv) key) (rev fields) with
      | Some (_, v) => v
      | None => None
      end
  end.

Definition COALESCE {A : Type} (x : option A) (dflt : A) : A :=
  match x with Some v => v | None => dflt end.

(** [(text)::app_role]: NULL stays NULL, a label of the enum is that value,
    anything else raises. *)
Definition cast_app_role (t : option string) : result (option app_role) :=
  match t with
  | None => Ok None
  | Some s =>
      if String.eqb s "admin" then Ok (Some admin)
      else if String.eqb s "faculty" then Ok (Some faculty)
      else if String.eqb s "student" then Ok (Some student)
      else Err InvalidEnumValue
  end.

Definition handle_new_user (d : db) (NEW : new_user) : result db :=
  match cast_app_role (get_text (raw_user_meta_data NEW) "role") with
  | Err e => Err e
  | Ok r =>
      insert_profile_definer d
        (mk_profile (nu_id NEW)
           (Some (COALESCE (get_text (raw_user_meta_data NEW) "full_name") ""))
           (COALESCE r student)
           (Some (COALESCE (get_text (raw_user_meta_data NEW) "department")
                           "CSE")))
  end.

(** [on_auth_user_created]: AFTER INSERT ON auth.users FOR EACH ROW.  The
    identity row is inserted, then the trigger runs in the same transaction:
    an error in the trigger undoes the insert. *)
Definition on_auth_user_created (d : db) (NEW : new_user) : result db :=
  if mem (nu_id NEW) (auth_users d) then Err UniqueViolation
  else
    handle_new_user
      (mk_db (auth_users d ++ [nu_id NEW]) (profiles d) (subjects d)
             (experiments d) (student_subjects d) (faculty_subjects d)
             (experiment_submissions d) (evaluations d))
      NEW.

Definition profiles_of (d : db) (id : uuid) : list profile :=
  filter (fun p => Nat.eqb (p_id p) id) (profiles d).

(** The metadata names a role of the enum, or none. *)
Definition role_well_formed (NEW : new_user) : bool :=
  match cast_app_role (get_text (raw_user_meta_data NEW) "role") with
  | Ok _ => true
  | Err _ => false
  end.

(** The metadata names a department of the CHECK list, or none. *)
Definition department_well_formed (NEW : new_user) : bool :=
  match get_text (raw_user_meta_data NEW) "department" with
  | None => true
  | Some s => department_check (Some s)
  end.

End Provisioning.

Export Provisioning.

(* ===================================================================== *)
(** ** The execute-code edge function *)
(* ===================================================================== *)

Module ExecuteCode.

(** A value of the parsed request body or of the sandbox's reply, or
    [undefined] for a property that is not there.  A number is only tested
    for being zero and passed on as it is; arrays and nested objects are
    [JComposite]. *)
Inductive jsval : Type :=
  | JUndefined
  | JNull
  | JBool (b : bool)
  | JNum (z : Z)
  | JStr (s : string)
  | JComposite.

Definition truthy (v : jsval) : bool :=
  match v with
  | JUndefined | JNull => false
  | JBool b => b
  | JNum z => negb (z =? 0)%Z
  | JStr s => negb (String.eqb s "")
  | JComposite => true
  end.

(** What [await req.json()] gives. *)
Inductive body : Type :=
  | BodyUnparsable                               (* json() rejects *)
  | BodyNull                                     (* the literal null *)
  | BodyObject (fields : list (string * jsval))
  | BodyOther.                                   (* number, string, array, ... *)

Record request : Type := mk_request {
  method : string;
  req_body : body
}.

Inductive exception : Type :=
  | SyntaxError
  | TypeError (msg : string)
  | UpstreamError (msg : string).

(** Property read on the parsed body: the last occurrence of a repeated
    key wins in [JSON.parse]. *)
Definition get_field (fields : list (string * jsval)) (key : string) : jsval :=
  match find (fun kv => String.eqb (fst kv) key) (rev fields) with
  | Some (_, v) => v
  | None => JUndefined
  end.

Record lang_config : Type := mk_lang_config {
  language : string;
  version : string
}.

(** The own properties of [LANGUAGE_MAP]. *)
Definition LANGUAGE_MAP : list (string * lang_config) :=
  [ ("python", mk_lang_config "python" "3.10.0");
    ("javascript", mk_lang_config "javascript" "18.15.0");
    ("java", mk_lang_config "java" "15.0.2");
    ("c", mk_lang_config "c" "10.2.0");
    ("cpp", mk_lang_config "c++" "10.2.0");
    ("c++", mk_lang_config "c++" "10.2.0") ].

(** [LANGUAGE_MAP] is an object literal, so a property read that finds no
    own property goes on to [Object.prototype], whose properties are all
    functions (the [__proto__] accessor is not among them: the Deno runtime
    deletes it). *)
Definition Object_prototype : list string :=
  [ "constructor"; "hasOwnProperty"; "isPrototypeOf"; "propertyIsEnumerable";
    "toLocaleString"; "toString"; "valueOf";
    "__defineGetter__"; "__defineSetter__";
    "__lookupGetter__"; "__lookupSetter__" ].

Inductive property : Type :=
  | Own (cfg : lang_config)
  | Inherited (name : string)     (* a function of [Object.prototype] *)
  | Absent.                       (* undefined *)

(** [LANGUAGE_MAP[key]] *)
Definition LANGUAGE_MAP_get (key : string) : property :=
  match find (fun kv => String.eqb (fst kv) key) LANGUAGE_MAP with
  | Some (_, cfg) => Own cfg
  | None =>
      if existsb (String.eqb key) Object_prototype then Inherited key
      else Absent
  end.

Definition property_truthy (p : property) : bool :=
  match p with
  | Own _ | Inherited _ => true
  | Absent => false
  end.

(** The tags the proxy is meant to accept. *)
Definition supported (tag : string) : bool :=
  existsb (fun kv => String.eqb (fst kv) (toLowerCase tag)) LANGUAGE_MAP.

(** The body posted to the sandbox.  [JSON.stringify] leaves out a property
    whose value is [undefined]. *)
Record piston_request : Type := mk_piston_request {
  pr_language : option string;
  pr_version : option string;
  pr_file_name : string;
  pr_file_content : jsval;
  pr_stdin : jsval;
  pr_run_timeout : Z;
  pr_compile_timeout : Z
}.

(** The [run] and [compile] sections of the sandbox's reply: the values of
    the properties the handler reads, [JUndefined] for one that is not
    there. *)
Record piston_run : Type := mk_piston_run {
  run_output : jsval;
  run_stderr : jsval;
  run_stdout : jsval;
  run_code : jsval
}.

Record piston_compile : Type := mk_piston_compile {
  compile_output : jsval;
  compile_stderr : jsval
}.

(** A reply that is an object.  A section is [None] when the property is
    absent or null (where [?.] stops), and also when it is a number, a
    string, a boolean or an array: reading [output], [stderr], [stdout] or
    [code] on one of those gives [undefined], as on a section with none of
    them. *)
Record piston_reply : Type := mk_piston_reply {
  run : option piston_run;
  compile : option piston_compile
}.

(** What [await pistonResponse.json()] gives. *)
Inductive piston_json : Type :=
  | ReplyNull                          (* the literal null *)
  | ReplyObject (reply : piston_reply)
  | ReplyOther.                        (* number, string, boolean, array *)

(** The body of the 200 answer; [JSON.stringify] writes each value as it
    is. *)
Record exec_result : Type := mk_exec_result {
  output : jsval;
  stderr : jsval;
  stdout : jsval;
  exitCode : jsval;
  compileOutput : jsval;
  compileError : jsval
}.

Inductive payload : Type :=
  | NoBody
  | ErrorMessage (msg : string)          (* [{ error: msg }] *)
  | ErrorThrown (e : exception)          (* [{ error: error.message }] *)
  | Result (r : exec_result).

Record response : Type := mk_response {
  status : nat;
  resp_payload : payload
}.

(** [x?.f || ""] *)
Definition or_empty {A : Type} (x : option A) (f : A -> jsval) : jsval :=
  match x with
  | Some a => if truthy (f a) then f a else JStr ""
  | None => JStr ""
  end.

(** [x?.f ?? -1] *)
Definition or_minus_one {A : Type} (x : option A) (f : A -> jsval) : jsval :=
  match x with
  | Some a =>
      match f a with
      | JUndefined | JNull => JNum (-1)
      | v => v
      end
  | None => JNum (-1)
  end.

(** The answer built from a reply on which [result.run] and
    [result.compile] can be read. *)
Definition exec_result_of (result : piston_reply) : exec_result :=
  mk_exec_result
    (or_empty (run result) run_output)
    (or_empty (run result) run_stderr)
    (or_empty (run result) run_stdout)
    (or_minus_one (run result) run_code)
    (or_empty (compile result) compile_output)
    (or_empty (compile result) compile_stderr).

(** The request the proxy sends for a tag whose lower-case form is a key of
    the table. *)
Definition forwarded_request (fields : list (string * jsval)) (tag : string)
  (cfg : lang_config) : piston_request :=
  mk_piston_request (Some (language cfg)) (Some (version cfg))
    (if String.eqb tag "java" then "Main.java" else "main")
    (get_field fields "code")
    (if truthy (get_field fields "stdin") then get_field fields "stdin"
     else JStr "")
    10000 10000.

Section Handler.

(** The sandbox behind [fetch]: its parsed reply, or the exception raised by
    [fetch] or by [pistonResponse.json()]. *)
Variable piston : piston_request -> exception + piston_json.

(** The handler passed to [serve]: the response, and the requests that were
    forwarded to the sandbox. *)
Definition serve (req : request) : response * list piston_request :=
  if String.eqb (method req) "OPTIONS" then (mk_response 200 NoBody, [])
  else
    match req_body req with
    | BodyUnparsable => (mk_response 500 (ErrorThrown SyntaxError), [])
    | BodyNull =>
        (mk_response 500
           (ErrorThrown (TypeError "Cannot destructure 'null'")), [])
    | (BodyObject _ | BodyOther) as b =>
        let fields := match b with BodyObject f => f | _ => [] end in
        let code := get_field fields "code" in
        let language_ := get_field fields "language" in
        let stdin := get_field fields "stdin" in
        if negb (truthy code) || negb (truthy language_)
        then (mk_response 400 (ErrorMessage "Code and language are required"),
              [])
        else
          match language_ with
          | JStr tag =>
              let langConfig := LANGUAGE_MAP_get (toLowerCase tag) in
              if negb (property_truthy langConfig)
              then (mk_response 400
                      (ErrorMessage ("Unsupported language: " ++ tag)), [])
              else
                let out :=
                  mk_piston_request
                    (match langConfig with
                     | Own cfg => Some (language cfg) | _ => None end)
                    (match langConfig with
                     | Own cfg => Some (version cfg) | _ => None end)
                    (if String.eqb tag "java" then "Main.java" else "main")
                    code
                    (if truthy stdin then stdin else JStr "")
                    10000 10000 in
                match piston out with
                | inl e => (mk_response 500 (ErrorThrown e), [out])
                | inr ReplyNull =>
                    (* [result.run] on null throws, inside the [try] *)
                    (mk_response 500
                       (ErrorThrown
                          (TypeError
                             "Cannot read properties of null (reading 'run')")),
                     [out])
                | inr (ReplyObject result) =>
                    (mk_response 200 (Result (exec_result_of result)), [out])
                | inr ReplyOther =>
                    (* [result.run] and [result.compile] are undefined *)
                    (mk_response 200
                       (Result (exec_result_of (mk_piston_reply None None))),
                     [out])
                end
          | _ =>
              (mk_response 500
                 (ErrorThrown
                    (TypeError "language.toLowerCase is not a function")), [])
          end
    end.

Definition forwarded (req : request) : bool :=
  match snd (serve req) with [] => false | _ => true end.

End Handler.

(** A sandbox that answers every request with an empty object. *)
Definition silent_piston (_ : piston_request) : exception + piston_json :=
  inr (ReplyObject (mk_piston_reply None None)).


End ExecuteCode.

(* ===================================================================== *)
(** ** A concrete store: the scenario of the specification *)
(* ===================================================================== *)

Module Scenario.

Definition adm : uuid := 1.
Definition fac1 : uuid := 2.
Definition fac2 : uuid := 3.
Definition stu1 : uuid := 4.
Definition stu2 : uuid := 5.

Definition CS101 : subject :=
  mk_subject 10 "Problem Solving and Python Programming" (Some "CS101")
             (Some "CSE") None.
Definition CS102 : subject :=
  mk_subject 11 "Programming in C Laboratory" (Some "CS102") (Some "CSE") None.

Definition exp1 : experiment := mk_experiment 20 10 "Hello" None (Some 1%Z).
Definition exp2 : experiment := mk_experiment 21 11 "Pointers" None (Some 1%Z).

Definition sub1 : submission :=
  mk_submission 50 20 stu1 (Some "print(1)") (Some "python") None "submitted".

(** [stu1] is enrolled in CS101, [fac1] is assigned to CS101 and [fac2] to
    CS102; [stu1] has submitted code for [exp1]. *)
Definition base : db :=
  mk_db [adm; fac1; fac2; stu1; stu2]
        [ mk_profile adm (Some "Root") admin (Some "CSE");
          mk_profile fac1 (Some "F. One") faculty (Some "CSE");
          mk_profile fac2 (Some "F. Two") faculty (Some "CSE");
          mk_profile stu1 (Some "S. One") student (Some "CSE");
          mk_profile stu2 (Some "S. Two") student (Some "IT") ]
        [CS101; CS102]
        [exp1; exp2]
        [mk_student_subject 30 stu1 10]
        [mk_faculty_subject 40 fac1 10; mk_faculty_subject 41 fac2 11]
        [sub1]
        [].

(** [fac1] has graded [sub1] ... *)
Definition graded_by_fac1 : db :=
  fst (submitEvaluation base (Some fac1) (Some sub1) "85" "Good" 60).

(** ... and the admin then moves CS101 from [fac1] to [fac2]. *)
Definition reassigned : db :=
  mk_db (auth_users graded_by_fac1) (profiles graded_by_fac1)
        (subjects graded_by_fac1) (experiments graded_by_fac1)
        (student_subjects graded_by_fac1)
        [mk_faculty_subject 42 fac2 10; mk_faculty_subject 41 fac2 11]
        (experiment_submissions graded_by_fac1) (evaluations graded_by_fac1).

(** The admin has graded [sub1]: the status flip goes through. *)
Definition graded_by_admin : db :=
  fst (submitEvaluation base (Some adm) (Some sub1) "85" "Good" 60).

End Scenario.

(* ===================================================================== *)
(** ** The specification's vocabulary *)
(* ===================================================================== *)

Module Spec.

(** The subjects reached from a submission key by the chain
    Submission -> Experiment -> Subject: for every submission row with that
    key, the [subject_id] of every experiment row it points to.  The list is
    empty when a link of the chain cannot be resolved. *)
Definition chain_subjects (d : db) (submission_id : uuid) : list uuid :=
  flat_map
    (fun es =>
       map ex_subject_id
           (filter (fun e => Nat.eqb (ex_id e) (es_experiment_id es))
                   (experiments d)))
    (filter (fun es => Nat.eqb (es_id es) submission_id)
            (experiment_submissions d)).

(** The caller owns the submission an evaluation belongs to. *)
Definition owns_submission (d : db) (uid submission_id : uuid) : bool :=
  existsb (fun es => Nat.eqb (es_id es) submission_id
                     && Nat.eqb (es_student_id es) uid)
          (experiment_submissions d).

(** What the policy catalogue grants an admin: every command for which the
    table has a policy, except that a submission can only be inserted under
    the caller's own [student_id]. *)
Definition admin_allowed (uid : uuid) (c : command) (r : row) : bool :=
  match r, c with
  | RProfile _, (SELECT | UPDATE) => true
  | RProfile _, (INSERT | DELETE) => false
  | RSubject _, _ => true
  | RExperiment _, _ => true
  | RStudentSubject _, (SELECT | INSERT | DELETE) => true
  | RStudentSubject _, UPDATE => false
  | RFacultySubject _, (SELECT | INSERT | DELETE) => true
  | RFacultySubject _, UPDATE => false
  | RSubmission _, (SELECT | UPDATE) => true
  | RSubmission es, INSERT => Nat.eqb (es_student_id es) uid
  | RSubmission _, DELETE => false
  | REvaluation _, (SELECT | INSERT | UPDATE) => true
  | REvaluation _, DELETE => false
  end.

(** The actions for which the catalogue is said to have no policy: insert
    and delete on profiles, update on enrollments and assignments, delete on
    submissions and evaluations. *)
Definition without_policy (t : table) (c : command) : bool :=
  match t, c with
  | t_profiles, (INSERT | DELETE) => true
  | (t_student_subjects | t_faculty_subjects), UPDATE => true
  | (t_experiment_submissions | t_evaluations), DELETE => true
  | _, _ => false
  end.

(** A text value that is absent, or one of the listed labels. *)
Definition absent_or_one_of (labels : list string) (x : option string) : bool :=
  match x with
  | None => true
  | Some s => existsb (String.eqb s) labels
  end.

(** The label of a role in the enum. *)
Definition role_label (r : app_role) : string :=
  match r with
  | admin => "admin"
  | faculty => "faculty"
  | student => "student"
  end.

End Spec.

Export Spec.

(* ===================================================================== *)
(** ** Enrollment, assignment and profile writes *)
(* ===================================================================== *)

Module Relations.

Definition set_student_subjects (d : db) (l : list student_subject) : db :=
  mk_db (auth_users d) (profiles d) (subjects d) (experiments d) l
        (faculty_subjects d) (experiment_submissions d) (evaluations d).

Definition set_faculty_subjects (d : db) (l : list faculty_subject) : db :=
  mk_db (auth_users d) (profiles d) (subjects d) (experiments d)
        (student_subjects d) l (experiment_submissions d) (evaluations d).

Definition is_ok {A : Type} (r : result A) : bool :=
  match r with Ok _ => true | Err _ => false end.

(** *** Reads through the data API *)

Definition select_student_subjects (d : db) (uid : uuid)
  (where_ : student_subject -> bool) : list student_subject :=
  filter (fun ss => where_ ss && Authorize d uid SELECT (RStudentSubject ss))
         (student_subjects d).

Definition select_subjects (d : db) (uid : uuid) (where_ : subject -> bool)
  : list subject :=
  filter (fun s => where_ s && Authorize d uid SELECT (RSubject s))
         (subjects d).

Definition select_experiments (d : db) (uid : uuid)
  (where_ : experiment -> bool) : list experiment :=
  filter (fun e => where_ e && Authorize d uid SELECT (RExperiment e))
         (experiments d).

(** *** [faculty_subjects]: one-row insert, delete *)

Definition insert_faculty_subject (d : db) (uid : uuid) (fs : faculty_subject)
  : result db :=
  if negb (Authorize d uid INSERT (RFacultySubject fs)) then Err RlsViolation
  else if mem (fs_id fs) (map fs_id (faculty_subjects d))
    then Err UniqueViolation
  else if existsb (fun r => Nat.eqb (fs_faculty_id r) (fs_faculty_id fs)
                            && Nat.eqb (fs_subject_id r) (fs_subject_id fs))
                  (faculty_subjects d)
    then Err UniqueViolation
  else if negb (mem (fs_faculty_id fs) (auth_users d)
                && mem (fs_subject_id fs) (map sj_id (subjects d)))
    then Err ForeignKeyViolation
  else Ok (set_faculty_subjects d (faculty_subjects d ++ [fs])).

Definition api_delete_faculty_subjects (d : db) (uid : uuid)
  (where_ : faculty_subject -> bool) : db :=
  delete_faculty_subjects_where
    (fun fs => where_ fs && Authorize d uid SELECT (RFacultySubject fs)
               && Authorize d uid DELETE (RFacultySubject fs)) d.

(** Two rows carry the same (student, subject) pair. *)
Definition same_pair (a b : student_subject) : bool :=
  Nat.eqb (ss_student_id b) (ss_student_id a)
  && Nat.eqb (ss_subject_id b) (ss_subject_id a).

(** *** [student_subjects]: the multi-row insert

    One INSERT statement: the rows go in one after the other, each against
    the policy and the keys (the rows already inserted by the statement
    count); the foreign keys are checked when the statement ends; any error
    undoes the whole statement. *)

Fixpoint insert_student_subject_rows (d : db) (uid : uuid)
  (rows : list student_subject) : result db :=
  match rows with
  | [] => Ok d
  | ss :: rest =>
      if negb (Authorize d uid INSERT (RStudentSubject ss))
      then Err RlsViolation
      else if mem (ss_id ss) (map ss_id (student_subjects d))
      then Err UniqueViolation
      else if existsb (fun r => Nat.eqb (ss_student_id r) (ss_student_id ss)
                                && Nat.eqb (ss_subject_id r) (ss_subject_id ss))
                      (student_subjects d)
      then Err UniqueViolation
      else insert_student_subject_rows
             (set_student_subjects d (student_subjects d ++ [ss])) uid rest
  end.

Definition insert_student_subjects (d : db) (uid : uuid)
  (rows : list student_subject) : result db :=
  match insert_student_subject_rows d uid rows with
  | Err e => Err e
  | Ok d' =>
      if forallb (fun ss => mem (ss_student_id ss) (auth_users d)
                            && mem (ss_subject_id ss) (map sj_id (subjects d)))
                 rows
      then Ok d'
      else Err ForeignKeyViolation
  end.

(** *** [profiles]: update *)

Definition update_profiles (d : db) (uid : uuid)
  (where_ : profile -> bool) (set : profile -> profile) : result db :=
  let hit p := where_ p && Authorize d uid SELECT (RProfile p)
               && Authorize d uid UPDATE (RProfile p) in
  let rows' := map (fun p => if hit p then set p else p) (profiles d) in
  let news := map set (filter hit (profiles d)) in
  if negb (forallb (fun p => Authorize d uid UPDATE (RProfile p)) news)
    then Err RlsViolation
  else if negb (forallb (fun p => department_check (p_department p)) news)
    then Err CheckViolation
  else if negb (ids_unique (map p_id rows')) then Err UniqueViolation
  else if negb (forallb (fun p => mem (p_id p) (auth_users d)) news)
    then Err ForeignKeyViolation
  else Ok (set_profiles d rows').

(** Errors of the data API: those of the database, a request body that
    names a column the table does not have, and a text that is not a UUID. *)
Inductive api_error : Type :=
  | Pg (e : pg_error)
  | UnknownColumn (column : string)
  | InvalidUuid.

Inductive api_result (A : Type) : Type :=
  | ApiOk (a : A)
  | ApiErr (e : api_error).
Arguments ApiOk {A} a.
Arguments ApiErr {A} e.

(** The columns of [public.profiles]. *)
Definition profiles_columns : list string :=
  ["id"; "full_name"; "role"; "department"; "created_at"; "updated_at"].

(** An update through the data API: [columns] are the keys of the request
    body, [set] what the body does to a row.  A key that is not a column of
    the table fails the request before any row is touched. *)
Definition postgrest_update_profiles (d : db) (uid : uuid)
  (columns : list string) (where_ : profile -> bool)
  (set : profile -> profile) : api_result db :=
  match find (fun c => negb (existsb (String.eqb c) profiles_columns))
             columns with
  | Some c => ApiErr (UnknownColumn c)
  | None =>
      match update_profiles d uid where_ set with
      | Ok d' => ApiOk d'
      | Err e => ApiErr (Pg e)
      end
  end.

(** The keys and constraints of [profiles] hold. *)
Definition profiles_consistent (d : db) : bool :=
  ids_unique (map p_id (profiles d))
  && forallb (fun p => department_check (p_department p)
                       && mem (p_id p) (auth_users d)) (profiles d).

(** The body [{ role: r }] of a profile update. *)
Definition with_role (r : app_role) (p : profile) : profile :=
  mk_profile (p_id p) (p_full_name p) r (p_department p).

Definition submissions_for (d : db) (experiment_id student_id : uuid) : nat :=
  List.length
    (filter (fun es => Nat.eqb (es_experiment_id es) experiment_id
                       && Nat.eqb (es_student_id es) student_id)
            (experiment_submissions d)).

End Relations.

Export Relations.

(* ===================================================================== *)
(** ** The admin, enrollment and progress pages *)
(* ===================================================================== *)

Module Pages.

(** [prev.includes(id) ? prev.filter((s) => s !== id) : [...prev, id]]:
    [toggleSubject] of the enrollment page and [toggleStudent] of the bulk
    enrollment tab. *)
Definition toggle (id : uuid) (prev : list uuid) : list uuid :=
  if mem id prev then filter (fun s => negb (Nat.eqb s id)) prev
  else (prev ++ [id])%list.

(** [s.split(/[\n,]/)] *)
Definition is_separator (c : ascii) : bool :=
  Nat.eqb (nat_of_ascii c) 10 || Nat.eqb (nat_of_ascii c) 44.

Fixpoint split (s : string) : list string :=
  match s with
  | EmptyString => [EmptyString]
  | String c r =>
      if is_separator c then EmptyString :: split r
      else match split r with
           | h :: t => String c h :: t
           | [] => [String c EmptyString]
           end
  end.

(** [csvText.split(/[\n,]/).map(s => s.trim()).filter(Boolean)] *)
Definition parse_ids (csvText : string) : list string :=
  filter (fun s => negb (String.eqb s "")) (map trim (split csvText)).

Fixpoint no_separator (s : string) : bool :=
  match s with
  | EmptyString => true
  | String c r => negb (is_separator c) && no_separator r
  end.

(** An id as it comes out of [parse_ids]: not empty, no white space at
    either end, no comma and no line break. *)
Definition clean_id (s : string) : bool :=
  negb (String.eqb s "") && String.eqb (trim s) s && no_separator s.

(** The rows of a multi-row insert, keyed by the ids [gen] draws. *)
Fixpoint enrollment_rows (gen : nat -> uuid) (k : nat)
  (pairs : list (uuid * uuid)) : list student_subject :=
  match pairs with
  | [] => []
  | (student_id, subject_id) :: rest =>
      mk_student_subject (gen k) student_id subject_id
      :: enrollment_rows gen (S k) rest
  end.

(** [handleSubmit] of the enrollment page.  The profile update names the
    column [year]; its result is not inspected. *)
Definition SubjectEnrollment_handleSubmit (d : db) (user : option uuid)
  (year department : string) (selectedSubjects : list uuid)
  (gen : nat -> uuid) : db * outcome :=
  match user, selectedSubjects with
  | None, _ | _, [] =>
      (d, ValidationError "Please select at least one subject")
  | Some u, _ =>
      let d1 :=
        match postgrest_update_profiles d u ["year"; "department"]
                (fun p => Nat.eqb (p_id p) u)
                (fun p => mk_profile (p_id p) (p_full_name p) (p_role p)
                                     (Some department)) with
        | ApiOk d' => d'
        | ApiErr _ => d
        end in
      match insert_student_subjects d1 u
              (enrollment_rows gen 0
                 (map (fun subject_id => (u, subject_id)) selectedSubjects)) with
      | Ok d' => (d', Success "Subjects enrolled successfully!")
      | Err e => (d1, Failed e)
      end
  end.

Inductive enroll_mode : Type := select_mode | csv_mode.

Inductive bulk_outcome : Type :=
  | BulkRejected (msg : string)
  | BulkFailed (e : api_error)
  | BulkEnrolled (n : nat).          (* "n student(s) enrolled successfully" *)

Fixpoint all_some {A : Type} (l : list (option A)) : option (list A) :=
  match l with
  | [] => Some []
  | None :: _ => None
  | Some a :: r => option_map (cons a) (all_some r)
  end.

(** [handleAssign], [handleRemove] of the faculty assignment tab and
    [handleDelete] of the subject tab. *)
Inductive assign_outcome : Type :=
  | AssignRejected             (* "Select both faculty and subject" *)
  | AlreadyAssigned            (* the error message includes "duplicate" *)
  | AssignFailed (e : pg_error)
  | Assigned.

Definition handleAssign (d : db) (uid : uuid)
  (selectedFaculty selectedSubject : option uuid) (new_id : uuid)
  : db * assign_outcome :=
  match selectedFaculty, selectedSubject with
  | Some f, Some s =>
      match insert_faculty_subject d uid (mk_faculty_subject new_id f s) with
      | Ok d' => (d', Assigned)
      | Err UniqueViolation => (d, AlreadyAssigned)
      | Err e => (d, AssignFailed e)
      end
  | _, _ => (d, AssignRejected)
  end.

Definition handleRemove (d : db) (uid : uuid) (id : uuid) : db :=
  api_delete_faculty_subjects d uid (fun fs => Nat.eqb (fs_id fs) id).

Definition handleDelete (d : db) (uid : uuid) (id : uuid) : db :=
  api_delete_subjects d uid (fun s => Nat.eqb (sj_id s) id).

Section BulkEnroll.

(** The input function of the [uuid] type: the key a text denotes, if it is
    a UUID at all. *)
Variable uuid_in : string -> option uuid.

(** [handleBulkEnroll] of the bulk enrollment tab. *)
Definition handleBulkEnroll (d : db) (uid : uuid) (mode : enroll_mode)
  (csvText : string) (selectedStudents : list uuid)
  (selectedSubject : option uuid) (gen : nat -> uuid) : db * bulk_outcome :=
  match selectedSubject with
  | None => (d, BulkRejected "Select a subject")
  | Some subject_id =>
      let ids : list (option uuid) :=
        match mode with
        | csv_mode => map uuid_in (parse_ids csvText)
        | select_mode => map Some selectedStudents
        end in
      match ids with
      | [] => (d, BulkRejected "No students selected")
      | _ =>
          match all_some ids with
          | None => (d, BulkFailed InvalidUuid)
          | Some students =>
              match insert_student_subjects d uid
                      (enrollment_rows gen 0
                         (map (fun student_id => (student_id, subject_id))
                              students)) with
              | Ok d' => (d', BulkEnrolled (List.length ids))
              | Err e => (d, BulkFailed (Pg e))
              end
          end
      end
  end.

(** The ids the bulk tab sends, before they are read as UUIDs. *)
Definition bulk_ids (mode : enroll_mode) (csvText : string)
  (selectedStudents : list uuid) : list (option uuid) :=
  match mode with
  | csv_mode => map uuid_in (parse_ids csvText)
  | select_mode => map Some selectedStudents
  end.

(** What a signed-in caller can do through the pages. *)
Inductive page_action : Type :=
  | DoSubmitCode (selectedExperiment : option experiment)
                 (code language : string) (new_id : uuid)
  | DoSubmitEvaluation (selectedSubmission : option submission)
                       (marks feedback : string) (new_id : uuid)
  | DoEnroll (year department : string) (selectedSubjects : list uuid)
             (gen : nat -> uuid)
  | DoBulkEnroll (mode : enroll_mode) (csvText : string)
                 (selectedStudents : list uuid)
                 (selectedSubject : option uuid) (gen : nat -> uuid)
  | DoAssign (selectedFaculty selectedSubject : option uuid) (new_id : uuid)
  | DoRemoveAssignment (id : uuid)
  | DoDeleteSubject (id : uuid).

Definition perform (d : db) (uid : uuid) (a : page_action) : db :=
  match a with
  | DoSubmitCode e code lang new_id =>
      fst (submitCode d (Some uid) e code lang new_id)
  | DoSubmitEvaluation sel marks feedback new_id =>
      fst (submitEvaluation d (Some uid) sel marks feedback new_id)
  | DoEnroll year department selected gen =>
      fst (SubjectEnrollment_handleSubmit d (Some uid) year department
             selected gen)
  | DoBulkEnroll mode csv students subject gen =>
      fst (handleBulkEnroll d uid mode csv students subject gen)
  | DoAssign f s new_id => fst (handleAssign d uid f s new_id)
  | DoRemoveAssignment id => handleRemove d uid id
  | DoDeleteSubject id => handleDelete d uid id
  end.

End BulkEnroll.

(** *** The student's progress page *)

Record SubjectWithProgress : Type := mk_progress {
  sp_id : uuid;
  sp_name : string;
  sp_code : option string;
  sp_department : option string;
  totalExperiments : nat;
  submitted : nat;
  evaluated : nat
}.

(** [fetchData] of the progress page: what [setSubjects] receives (the
    state stays empty when there is no user or no enrollment). *)
Definition MySubjects_fetchData (d : db) (user : option uuid)
  : list SubjectWithProgress :=
  match user with
  | None => []
  | Some u =>
      let enrollments :=
        select_student_subjects d u
          (fun ss => Nat.eqb (ss_student_id ss) u) in
      match enrollments with
      | [] => []
      | _ =>
          let subjectIds := map ss_subject_id enrollments in
          let subjectsData :=
            select_subjects d u (fun s => mem (sj_id s) subjectIds) in
          let experiments_ :=
            select_experiments d u
              (fun e => mem (ex_subject_id e) subjectIds) in
          let submissions :=
            select_submissions d u
              (fun es => Nat.eqb (es_student_id es) u) in
          map (fun s =>
                 let subExps :=
                   filter (fun e => Nat.eqb (ex_subject_id e) (sj_id s))
                          experiments_ in
                 let subExpIds := map ex_id subExps in
                 let relevantSubs :=
                   filter (fun sub => mem (es_experiment_id sub) subExpIds)
                          submissions in
                 mk_progress (sj_id s) (sj_name s) (sj_code s)
                   (sj_department s)
                   (List.length subExps)
                   (List.length
                      (filter (fun sub => String.eqb (es_status sub)
                                                     "submitted")
                              relevantSubs))
                   (List.length
                      (filter (fun sub => String.eqb (es_status sub)
                                                     "evaluated")
                              relevantSubs)))
              subjectsData
      end
  end.

(** [subjects.reduce((a, s) => a + s.totalExperiments, 0)] and
    [subjects.reduce((a, s) => a + s.submitted + s.evaluated, 0)] *)
Definition totalExps (subjects_ : list SubjectWithProgress) : nat :=
  fold_left (fun a s => a + totalExperiments s) subjects_ 0.

Definition totalDone (subjects_ : list SubjectWithProgress) : nat :=
  fold_left (fun a s => a + submitted s + evaluated s) subjects_ 0.

End Pages.

Export Pages.

(* ===================================================================== *)
(** * Properties *)
(* ===================================================================== *)

(** ** Lists and booleans *)

Lemma existsb_filter {A : Type} (f g : A -> bool) (l : list A) :
  existsb f (filter g l) = existsb (fun x => g x && f x) l.
Proof.
  induction l as [|a l IH]; simpl; [reflexivity|].
  destruct (g a); simpl; rewrite IH; reflexivity.
Qed.

Lemma existsb_false_iff {A : Type} (f : A -> bool) (l : list A) :
  existsb f l = false <-> forall x, In x l -> f x = false.
Proof.
  split.
  - intros H x Hx. destruct (f x) eqn:E; [|reflexivity].
    assert (existsb f l = true) by (apply existsb_exists; eauto). congruence.
  - intros H. destruct (existsb f l) eqn:E; [|reflexivity].
    apply existsb_exists in E. destruct E as [x [Hx Hf]].
    rewrite (H x Hx) in Hf. discriminate.
Qed.

Lemma existsb_ext_in {A : Type} (f g : A -> bool) (l : list A) :
  (forall x, In x l -> f x = g x) -> existsb f l = existsb g l.
Proof.
  induction l as [|a l IH]; simpl; intros H; [reflexivity|].
  rewrite (H a (or_introl eq_refl)), IH; auto.
Qed.

Lemma existsb_flat_map {A B : Type} (f : B -> bool) (g : A -> list B)
  (l : list A) :
  existsb f (flat_map g l) = existsb (fun a => existsb f (g a)) l.
Proof.
  induction l as [|a l IH]; simpl; [reflexivity|].
  rewrite existsb_app, IH. reflexivity.
Qed.

Lemma existsb_map {A B : Type} (f : B -> bool) (g : A -> B) (l : list A) :
  existsb f (map g l) = existsb (fun a => f (g a)) l.
Proof.
  induction l as [|a l IH]; simpl; [reflexivity|]. rewrite IH. reflexivity.
Qed.

Lemma mem_In (x : uuid) (l : list uuid) : mem x l = true <-> In x l.
Proof.
  unfold mem. rewrite existsb_exists. split.
  - intros [y [Hy E]]. apply Nat.eqb_eq in E. subst. exact Hy.
  - intros H. exists x. split; [exact H|apply Nat.eqb_refl].
Qed.

Lemma mem_map_In {A : Type} (f : A -> uuid) (x : uuid) (l : list A) :
  mem x (map f l) = true <-> exists a, In a l /\ f a = x.
Proof.
  rewrite mem_In, in_map_iff. split; intros [a [H1 H2]]; exists a; tauto.
Qed.

(** ** What [Authorize] computes, policy by policy *)

Section AuthorizeUnfolded.

Variables (d : db) (uid : uuid).

Lemma Authorize_select_submission es :
  Authorize d uid SELECT (RSubmission es) = submissions_select d uid es.
Proof. cbn. apply orb_false_r. Qed.

Lemma Authorize_insert_submission es :
  Authorize d uid INSERT (RSubmission es) = submissions_insert d uid es.
Proof. cbn. apply orb_false_r. Qed.

Lemma Authorize_update_submission es :
  Authorize d uid UPDATE (RSubmission es) = submissions_update d uid es.
Proof. cbn. apply orb_false_r. Qed.

Lemma Authorize_select_evaluation ev :
  Authorize d uid SELECT (REvaluation ev) = evaluations_select d uid ev.
Proof. cbn. apply orb_false_r. Qed.

Lemma Authorize_insert_evaluation ev :
  Authorize d uid INSERT (REvaluation ev) = evaluations_insert d uid ev.
Proof. cbn. apply orb_false_r. Qed.

Lemma Authorize_update_evaluation ev :
  Authorize d uid UPDATE (REvaluation ev) = evaluations_update d uid ev.
Proof. cbn. apply orb_false_r. Qed.

Lemma Authorize_insert_student_subject ss :
  Authorize d uid INSERT (RStudentSubject ss)
  = student_subjects_insert_v2 d uid ss.
Proof. cbn. apply orb_false_r. Qed.

Lemma Authorize_delete_student_subject ss :
  Authorize d uid DELETE (RStudentSubject ss)
  = student_subjects_delete d uid ss.
Proof. cbn. apply orb_false_r. Qed.

Lemma Authorize_v1_insert_student_subject ss :
  Authorize_v1 d uid INSERT (RStudentSubject ss)
  = student_subjects_insert_v1 d uid ss.
Proof. cbn. apply orb_false_r. Qed.

End AuthorizeUnfolded.

(** ** The string helpers on a few inputs *)

Example parseInt_examples :
  parseInt "85" = Some 85%Z /\ parseInt " 100" = Some 100%Z
  /\ parseInt "-1" = Some (-1)%Z /\ parseInt "+7" = Some 7%Z
  /\ parseInt "12px" = Some 12%Z /\ parseInt "0x1F" = Some 31%Z
  /\ parseInt "" = None /\ parseInt "abc" = None /\ parseInt "-" = None.
Proof. repeat split. Qed.

Example trim_examples :
  trim "  Good work " = "Good work" /\ trim "   " = "" /\ trim "" = "".
Proof. repeat split. Qed.

Example toLowerCase_examples :
  toLowerCase "Python" = "python" /\ toLowerCase "C++" = "c++".
Proof. repeat split. Qed.

(** ** Policies read other tables through the caller's own visibility;
       for these policies that changes nothing *)

Lemma bool_eq_iff (a b : bool) : (a = true <-> b = true) -> a = b.
Proof. destruct a, b; intuition congruence. Qed.

Ltac to_prop :=
  repeat match goal with
  | H : _ && _ = true |- _ => apply andb_true_iff in H; destruct H
  | H : Nat.eqb _ _ = true |- _ => apply Nat.eqb_eq in H
  | H : existsb _ _ = true |- _ =>
      apply existsb_exists in H; destruct H as [? [? ?]]
  | H : In _ (filter _ _) |- _ => apply filter_In in H; destruct H
  | H : In _ (visible_faculty_subjects _ _) |- _ =>
      apply filter_In in H; destruct H
  | H : In _ (visible_experiments _ _) |- _ =>
      apply filter_In in H; destruct H
  | H : In _ (visible_submissions _ _) |- _ =>
      apply filter_In in H; destruct H
  end.

Lemma is_faculty_for_subject_iff (d : db) (uid sid : uuid) :
  is_faculty_for_subject d uid sid = true
  <-> exists fs, In fs (faculty_subjects d)
                 /\ fs_faculty_id fs = uid /\ fs_subject_id fs = sid.
Proof.
  unfold is_faculty_for_subject. rewrite existsb_exists. split.
  - intros [fs [Hin H]]. to_prop. eauto.
  - intros [fs [Hin [H1 H2]]]. exists fs. split; [exact Hin|].
    subst. rewrite !Nat.eqb_refl. reflexivity.
Qed.

Lemma visible_faculty_subjects_own (d : db) (uid : uuid) (fs : faculty_subject) :
  In fs (faculty_subjects d) -> fs_faculty_id fs = uid ->
  In fs (visible_faculty_subjects d uid).
Proof.
  intros Hin E. apply filter_In. split; [exact Hin|].
  unfold faculty_subjects_select. subst. rewrite Nat.eqb_refl.
  apply orb_true_r.
Qed.

Lemma submissions_select_plain (d : db) (uid : uuid) (es : submission) :
  submissions_select d uid es
  = is_admin d uid || Nat.eqb (es_student_id es) uid
    || existsb (fun e => Nat.eqb (ex_id e) (es_experiment_id es)
                         && is_faculty_for_subject d uid (ex_subject_id e))
               (experiments d).
Proof.
  unfold submissions_select. f_equal.
  unfold visible_experiments. rewrite existsb_filter.
  apply existsb_ext_in. intros e _. unfold experiments_select. simpl.
  apply bool_eq_iff. split; intros H.
  - to_prop. apply andb_true_iff. split; [apply Nat.eqb_eq; assumption|].
    apply is_faculty_for_subject_iff.
    match goal with x : faculty_subject |- _ => exists x end. auto.
  - to_prop.
    match goal with
    | H : is_faculty_for_subject _ _ _ = true |- _ =>
        apply is_faculty_for_subject_iff in H; destruct H as [fs [Hin [E1 E2]]]
    end.
    apply existsb_exists. exists fs. split.
    + apply visible_faculty_subjects_own; assumption.
    + rewrite E2, E1. rewrite !Nat.eqb_refl.
      match goal with H : ex_id e = _ |- _ => rewrite H end.
      rewrite Nat.eqb_refl. reflexivity.
Qed.

Lemma evaluations_select_plain (d : db) (uid : uuid) (ev : evaluation) :
  evaluations_select d uid ev
  = is_admin d uid || Nat.eqb (ev_faculty_id ev) uid
    || owns_submission d uid (ev_submission_id ev).
Proof.
  unfold evaluations_select, owns_submission. f_equal.
  unfold visible_submissions. rewrite existsb_filter.
  apply existsb_ext_in. intros es _.
  rewrite submissions_select_plain.
  destruct (Nat.eqb (es_student_id es) uid);
    [rewrite orb_true_r; reflexivity | rewrite !andb_false_r; reflexivity].
Qed.

Lemma submissions_update_visible (d : db) (uid : uuid) (es : submission) :
  submissions_update d uid es = true -> submissions_select d uid es = true.
Proof.
  rewrite submissions_select_plain. unfold submissions_update.
  intros H. rewrite H. reflexivity.
Qed.

Lemma evaluations_update_visible (d : db) (uid : uuid) (ev : evaluation) :
  evaluations_update d uid ev = true -> evaluations_select d uid ev = true.
Proof.
  rewrite evaluations_select_plain. unfold evaluations_update.
  intros H. rewrite H. reflexivity.
Qed.

Lemma chain_subjects_iff (d : db) (uid sid : uuid) :
  existsb (is_faculty_for_subject d uid) (chain_subjects d sid) = true
  <-> exists es e fs,
        In es (experiment_submissions d) /\ In e (experiments d)
        /\ In fs (faculty_subjects d)
        /\ es_id es = sid /\ ex_id e = es_experiment_id es
        /\ fs_subject_id fs = ex_subject_id e /\ fs_faculty_id fs = uid.
Proof.
  unfold chain_subjects. rewrite existsb_exists. split.
  - intros [subj [Hin Hf]]. apply in_flat_map in Hin.
    destruct Hin as [es [Hes Hin]]. apply in_map_iff in Hin.
    destruct Hin as [e [Esub He]]. to_prop.
    apply is_faculty_for_subject_iff in Hf. destruct Hf as [fs [Hfs [F1 F2]]].
    exists es, e, fs. subst. auto 10.
  - intros [es [e [fs [Hes [He [Hfs [E1 [E2 [E3 E4]]]]]]]]].
    exists (ex_subject_id e). split.
    + apply in_flat_map. exists es. split.
      * apply filter_In. split; [exact Hes|]. apply Nat.eqb_eq. exact E1.
      * apply in_map. apply filter_In. split; [exact He|].
        apply Nat.eqb_eq. exact E2.
    + apply is_faculty_for_subject_iff. exists fs. auto.
Qed.

Lemma evaluations_insert_plain (d : db) (uid : uuid) (ev : evaluation) :
  evaluations_insert d uid ev
  = is_admin d uid
    || (Nat.eqb (ev_faculty_id ev) uid
        && existsb (is_faculty_for_subject d uid)
                   (chain_subjects d (ev_submission_id ev))).
Proof.
  unfold evaluations_insert. f_equal. f_equal.
  apply bool_eq_iff. rewrite chain_subjects_iff. split.
  - intros H. to_prop.
    match goal with
    | a : submission, b : experiment, c : faculty_subject |- _ =>
        exists a, b, c
    end. auto 10.
  - intros [es [e [fs [Hes [He [Hfs [E1 [E2 [E3 E4]]]]]]]]].
    apply existsb_exists. exists es. split.
    + apply filter_In. split; [exact Hes|].
      rewrite submissions_select_plain.
      assert (existsb (fun e0 => Nat.eqb (ex_id e0) (es_experiment_id es)
                && is_faculty_for_subject d uid (ex_subject_id e0))
                (experiments d) = true) as ->.
      { apply existsb_exists. exists e. split; [exact He|].
        rewrite E2, Nat.eqb_refl. simpl.
        apply is_faculty_for_subject_iff. exists fs. auto. }
      apply orb_true_r.
    + apply existsb_exists. exists e. split.
      * apply filter_In. split; [exact He|reflexivity].
      * apply existsb_exists. exists fs. split.
        -- apply visible_faculty_subjects_own; assumption.
        -- rewrite E1, E2, E3, E4, !Nat.eqb_refl. reflexivity.
Qed.

(* ===================================================================== *)
(** ** Evaluation insert: the chain Evaluation -> Submission -> Experiment
       -> Subject -> Assignment *)
(* ===================================================================== *)

(** The same condition, with the rows of the chain named. *)
Lemma evaluation_insert_rows (d : db) (uid : uuid) (ev : evaluation) :
  Authorize d uid INSERT (REvaluation ev) = true
  <-> is_admin d uid = true
      \/ (ev_faculty_id ev = uid
          /\ exists es e fs,
               In es (experiment_submissions d) /\ In e (experiments d)
               /\ In fs (faculty_subjects d)
               /\ es_id es = ev_submission_id ev
               /\ ex_id e = es_experiment_id es
               /\ fs_subject_id fs = ex_subject_id e
               /\ fs_faculty_id fs = uid).
Proof.
  rewrite Authorize_insert_evaluation, evaluations_insert_plain.
  rewrite orb_true_iff, andb_true_iff, Nat.eqb_eq, chain_subjects_iff.
  reflexivity.
Qed.

(* ===================================================================== *)
(** ** What an admin may do *)
(* ===================================================================== *)

(** C3, counterexample.  The admin of the scenario store may not insert a
    submission under a student's key, and may not delete an evaluation. *)
Lemma C3_admin_refused :
  is_admin Scenario.base Scenario.adm = true
  /\ Authorize Scenario.base Scenario.adm INSERT
       (RSubmission (mk_submission 51 21 Scenario.stu1 None None None
                                   "submitted")) = false
  /\ Authorize Scenario.base Scenario.adm DELETE
       (REvaluation (mk_evaluation 60 50 Scenario.fac1 (Some 85%Z) None))
     = false.
Proof. repeat split. Qed.

(** C3, as amended.  For a caller whose role is admin, [Authorize] is true
    for every command for which the table has a policy (select and update on
    profiles; everything on subjects and experiments; select, insert and
    delete on enrollments and assignments; select and update on submissions;
    select, insert and update on evaluations) and true for the insert of a
    submission exactly when the row's student is the caller.  The actions
    with no policy (insert and delete on profiles, update on enrollments and
    assignments, delete on submissions and evaluations) are exactly those
    for which the catalogue holds no policy of that table and command, and
    they are refused for every caller, admin or not, in every store. *)
Theorem C3_admin_authorized (d : db) (uid : uuid) (c : command) (r : row) :
  (is_admin d uid = true -> Authorize d uid c r = admin_allowed uid c r)
  /\ (without_policy (table_of r) c = true -> Authorize d uid c r = false)
  /\ existsb (fun p => table_eqb (pol_table p) (table_of r)
                       && command_eqb (pol_cmd p) c) policies
     = negb (without_policy (table_of r) c).
Proof.
  split; [|split].
  - intros H.
    destruct r, c; cbn;
      unfold profiles_select, profiles_update_own, subjects_select,
        subjects_insert_admin, subjects_update_admin, subjects_delete_admin,
        experiments_select, experiments_insert, experiments_update,
        experiments_delete, student_subjects_select,
        student_subjects_insert_v2, student_subjects_delete,
        faculty_subjects_select, faculty_subjects_insert,
        faculty_subjects_delete, submissions_select, submissions_insert,
        submissions_update, evaluations_select, evaluations_insert,
        evaluations_update;
      rewrite ?H; rewrite ?orb_true_r; rewrite ?orb_false_r; reflexivity.
  - destruct r, c; cbn [table_of without_policy]; intros H;
      (discriminate H || reflexivity).
  - destruct r, c; reflexivity.
Qed.

Lemma C3_admin_authorized_witness :
  (is_admin Scenario.base Scenario.adm = true
   /\ Authorize Scenario.base Scenario.adm DELETE (RSubject Scenario.CS101)
      = true)
  /\ (without_policy t_evaluations DELETE = true
      /\ Authorize Scenario.graded_by_fac1 Scenario.fac1 DELETE
           (REvaluation (mk_evaluation 60 50 Scenario.fac1 (Some 85%Z)
                                       (Some "Good"))) = false).
Proof.
  split.
  - split; [reflexivity|].
    apply (proj1 (C3_admin_authorized Scenario.base Scenario.adm DELETE
                    (RSubject Scenario.CS101))). reflexivity.
  - split; [reflexivity|].
    apply (proj1 (proj2 (C3_admin_authorized Scenario.graded_by_fac1
                           Scenario.fac1 DELETE
                           (REvaluation
                              (mk_evaluation 60 50 Scenario.fac1 (Some 85%Z)
                                             (Some "Good")))))).
    reflexivity.
Defined.

(* ===================================================================== *)
(** ** Who sees an evaluation *)
(* ===================================================================== *)

(** C4, counterexample.  After [fac1] has graded [sub1] and subject 10 has
    been moved from [fac1] to [fac2]: [fac2] holds the Assignment edge to
    the subject of the submission and is refused the evaluation; [fac1]
    holds no edge at all and sees it. *)
Lemma C4_assignment_does_not_decide_visibility :
  let ev := mk_evaluation 60 50 Scenario.fac1 (Some 85%Z) (Some "Good") in
  evaluations Scenario.reassigned = [ev]
  /\ chain_subjects Scenario.reassigned (ev_submission_id ev) = [10]
  /\ is_faculty_for_subject Scenario.reassigned Scenario.fac2 10 = true
  /\ Authorize Scenario.reassigned Scenario.fac2 SELECT (REvaluation ev)
     = false
  /\ is_faculty_for_subject Scenario.reassigned Scenario.fac1 10 = false
  /\ Authorize Scenario.reassigned Scenario.fac1 SELECT (REvaluation ev)
     = true.
Proof. repeat split. Qed.

(** C4, as amended.  Selecting an evaluation is authorized exactly when the
    caller is an admin, the evaluation's author ([faculty_id]) or the
    student who owns the submission: the author sees it, and a caller who is
    none of the three does not, whatever Assignment edges the caller
    holds. *)
Theorem C4_evaluation_select_by_author (d : db) (uid : uuid) (ev : evaluation) :
  Authorize d uid SELECT (REvaluation ev)
  = is_admin d uid || Nat.eqb (ev_faculty_id ev) uid
    || owns_submission d uid (ev_submission_id ev).
Proof.
  rewrite Authorize_select_evaluation. apply evaluations_select_plain.
Qed.

(* ===================================================================== *)
(** ** Enrollment *)
(* ===================================================================== *)

(** C9.  Under the final policy catalogue an Enrollment row may be inserted
    exactly when the caller is the row's student or an admin, and deleted
    exactly when the caller is an admin; so a student who is not an admin may
    enroll themself.  Under the first migration alone the insert was for
    admins only. *)
Theorem C9_enrollment_insert_delete
  (d : db) (uid : uuid) (ss : student_subject) :
  Authorize d uid INSERT (RStudentSubject ss)
  = Nat.eqb (ss_student_id ss) uid || is_admin d uid
  /\ Authorize d uid DELETE (RStudentSubject ss) = is_admin d uid
  /\ Authorize_v1 d uid INSERT (RStudentSubject ss) = is_admin d uid
  /\ (is_admin d uid = false -> ss_student_id ss = uid ->
      Authorize d uid INSERT (RStudentSubject ss) = true
      /\ Authorize_v1 d uid INSERT (RStudentSubject ss) = false).
Proof.
  rewrite Authorize_insert_student_subject, Authorize_delete_student_subject,
    Authorize_v1_insert_student_subject.
  unfold student_subjects_insert_v2, student_subjects_delete,
    student_subjects_insert_v1.
  repeat split; try assumption.
  subst. rewrite Nat.eqb_refl. reflexivity.
Qed.

Lemma C9_enrollment_insert_delete_witness :
  let ss := mk_student_subject 31 Scenario.stu2 10 in
  is_admin Scenario.base Scenario.stu2 = false
  /\ ss_student_id ss = Scenario.stu2
  /\ Authorize Scenario.base Scenario.stu2 INSERT (RStudentSubject ss) = true
  /\ Authorize_v1 Scenario.base Scenario.stu2 INSERT (RStudentSubject ss)
     = false.
Proof.
  intros ss. split; [reflexivity|]. split; [reflexivity|].
  apply (proj2 (proj2 (proj2 (C9_enrollment_insert_delete
           Scenario.base Scenario.stu2 ss)))); reflexivity.
Defined.

(** The catalogue after both migrations has one policy per name and table:
    no [CREATE POLICY] met an existing name. *)
Lemma policy_names_distinct :
  NoDup (map pol_name policies).
Proof.
  cbn. repeat constructor; cbn; intuition discriminate.
Qed.

(* ===================================================================== *)
(** ** Submission status: who can move it *)
(* ===================================================================== *)

Lemma filter_all {A : Type} (f : A -> bool) (l : list A) :
  (forall x, In x l -> f x = true) -> filter f l = l.
Proof.
  induction l as [|a l IH]; simpl; intros H; [reflexivity|].
  rewrite (H a (or_introl eq_refl)), IH; auto.
Qed.

Lemma filter_none {A : Type} (f : A -> bool) (l : list A) :
  (forall x, In x l -> f x = false) -> filter f l = [].
Proof.
  induction l as [|a l IH]; simpl; intros H; [reflexivity|].
  rewrite (H a (or_introl eq_refl)), IH; auto.
Qed.

Lemma filter_map_if {A : Type} (p hit : A -> bool) (s : A -> A) (l : list A) :
  (forall x, In x l -> hit x = true -> p x = false /\ p (s x) = false) ->
  filter p (map (fun x => if hit x then s x else x) l) = filter p l.
Proof.
  induction l as [|a l IH]; simpl; intros H; [reflexivity|].
  rewrite IH by auto.
  destruct (hit a) eqn:E; [|reflexivity].
  destruct (H a (or_introl eq_refl) E) as [-> ->]. reflexivity.
Qed.

Lemma submissions_update_not_admin (d : db) (uid : uuid) (es : submission) :
  is_admin d uid = false ->
  Authorize d uid UPDATE (RSubmission es) = true -> es_student_id es = uid.
Proof.
  intros Hadm H. rewrite Authorize_update_submission in H.
  unfold submissions_update in H. rewrite Hadm in H. simpl in H.
  apply Nat.eqb_eq. exact H.
Qed.

Lemma update_submissions_rows (d d' : db) (uid : uuid)
  (w : submission -> bool) (s : submission -> submission) :
  update_submissions d uid w s = Ok d' ->
  d' = set_experiment_submissions d
         (map (fun es => if w es && Authorize d uid SELECT (RSubmission es)
                            && Authorize d uid UPDATE (RSubmission es)
                         then s es else es)
              (experiment_submissions d))
  /\ forallb (fun es => Authorize d uid UPDATE (RSubmission es))
       (map s (filter (fun es => w es
                                 && Authorize d uid SELECT (RSubmission es)
                                 && Authorize d uid UPDATE (RSubmission es))
                      (experiment_submissions d))) = true.
Proof.
  unfold update_submissions. intros H.
  destruct (forallb (fun es => Authorize d uid UPDATE (RSubmission es)) _)
    eqn:E1; simpl in H; [|discriminate].
  destruct (negb (forallb (fun es => status_check (es_status es)) _));
    [discriminate|].
  destruct (negb (ids_unique _ && pairs_unique _)); [discriminate|].
  destruct (negb (forallb _ _)); [discriminate|].
  inversion H. split; reflexivity.
Qed.

Lemma update_submissions_others (d d' : db) (uid : uuid)
  (w : submission -> bool) (s : submission -> submission) :
  is_admin d uid = false ->
  update_submissions d uid w s = Ok d' ->
  others_submissions d' uid = others_submissions d uid.
Proof.
  intros Hadm H. apply update_submissions_rows in H. destruct H as [-> Hnew].
  unfold others_submissions. simpl.
  apply filter_map_if. intros es Hin Hhit.
  rewrite forallb_forall in Hnew.
  assert (Authorize d uid UPDATE (RSubmission (s es)) = true) as Hs.
  { apply Hnew. apply in_map. apply filter_In. auto. }
  apply andb_true_iff in Hhit. destruct Hhit as [_ Hu].
  apply (submissions_update_not_admin _ _ _ Hadm) in Hu.
  apply (submissions_update_not_admin _ _ _ Hadm) in Hs.
  rewrite Hu, Hs, Nat.eqb_refl. auto.
Qed.

Lemma insert_submission_others (d d' : db) (uid : uuid) (es : submission) :
  insert_submission d uid es = Ok d' ->
  others_submissions d' uid = others_submissions d uid.
Proof.
  unfold insert_submission. intros H.
  destruct (Authorize d uid INSERT (RSubmission es)) eqn:E; simpl in H;
    [|discriminate].
  repeat match type of H with
  | (if ?c then _ else _) = _ => destruct c; [discriminate|]
  end.
  inversion H. unfold others_submissions. simpl.
  rewrite filter_app. simpl.
  rewrite Authorize_insert_submission in E. unfold submissions_insert in E.
  rewrite E. simpl. apply app_nil_r.
Qed.

Lemma no_delete_policy_on_submissions (d : db) (uid : uuid) (es : submission) :
  Authorize d uid DELETE (RSubmission es) = false.
Proof. reflexivity. Qed.

Lemma delete_experiment_policy (d : db) (uid : uuid) (e : experiment) :
  Authorize d uid DELETE (RExperiment e) = is_admin d uid.
Proof. cbn. apply orb_false_r. Qed.

Lemma delete_subject_policy (d : db) (uid : uuid) (s : subject) :
  Authorize d uid DELETE (RSubject s) = is_admin d uid.
Proof. cbn. apply orb_false_r. Qed.

Lemma api_delete_submissions_rows (d : db) (uid : uuid)
  (w : submission -> bool) :
  experiment_submissions (api_delete_submissions d uid w)
  = experiment_submissions d.
Proof.
  unfold api_delete_submissions, delete_submissions_where. simpl.
  apply filter_all. intros es _.
  rewrite no_delete_policy_on_submissions, andb_false_r. reflexivity.
Qed.

Lemma api_delete_experiments_rows (d : db) (uid : uuid)
  (w : experiment -> bool) :
  is_admin d uid = false ->
  experiment_submissions (api_delete_experiments d uid w)
  = experiment_submissions d.
Proof.
  intros Hadm. unfold api_delete_experiments, delete_experiments_where,
    delete_submissions_where. simpl.
  rewrite (filter_none _ (experiments d)).
  - apply filter_all. reflexivity.
  - intros e _. rewrite delete_experiment_policy, Hadm. apply andb_false_r.
Qed.

Lemma api_delete_subjects_rows (d : db) (uid : uuid) (w : subject -> bool) :
  is_admin d uid = false ->
  experiment_submissions (api_delete_subjects d uid w)
  = experiment_submissions d.
Proof.
  intros Hadm. unfold api_delete_subjects, delete_subjects_where,
    delete_faculty_subjects_where, delete_student_subjects_where,
    delete_experiments_where, delete_submissions_where. simpl.
  rewrite (filter_none _ (subjects d)).
  - simpl. rewrite (filter_none _ (experiments d)) by reflexivity.
    apply filter_all. reflexivity.
  - intros s _. rewrite delete_subject_policy, Hadm. apply andb_false_r.
Qed.

Lemma submitCode_others (d : db) (uid : uuid) (e : option experiment)
  (code lang : string) (new_id : uuid) :
  is_admin d uid = false ->
  others_submissions (fst (submitCode d (Some uid) e code lang new_id)) uid
  = others_submissions d uid.
Proof.
  intros Hadm. unfold submitCode. destruct e as [e|]; [|reflexivity].
  destruct (maybeSingle _) as [ex|].
  - destruct (update_submissions _ _ _ _) eqn:E; simpl; [|reflexivity].
    eapply update_submissions_others; eassumption.
  - destruct (insert_submission _ _ _) eqn:E; simpl; [|reflexivity].
    eapply insert_submission_others; eassumption.
Qed.

Lemma update_evaluations_rows (d d' : db) (uid : uuid)
  (w : evaluation -> bool) (s : evaluation -> evaluation) :
  update_evaluations d uid w s = Ok d' ->
  d' = set_evaluations d
         (map (fun ev => if w ev && Authorize d uid SELECT (REvaluation ev)
                            && Authorize d uid UPDATE (REvaluation ev)
                         then s ev else ev)
              (evaluations d)).
Proof.
  unfold update_evaluations. intros H.
  repeat match type of H with
  | (if ?c then _ else _) = _ => destruct c; [discriminate|]
  end.
  inversion H. reflexivity.
Qed.

Lemma insert_evaluation_rows (d d' : db) (uid : uuid) (ev : evaluation) :
  insert_evaluation d uid ev = Ok d' ->
  d' = set_evaluations d (evaluations d ++ [ev])
  /\ marks_check (ev_marks ev) = true
  /\ mem (ev_submission_id ev) (map ev_submission_id (evaluations d)) = false.
Proof.
  unfold insert_evaluation. intros H.
  destruct (negb (Authorize d uid INSERT (REvaluation ev))); [discriminate|].
  destruct (marks_check (ev_marks ev)); simpl in H; [|discriminate].
  destruct (mem (ev_id ev) _); [discriminate|].
  destruct (mem (ev_submission_id ev) _); [discriminate|].
  destruct (negb _); [discriminate|].
  inversion H. auto.
Qed.

Lemma flip_status_others (d : db) (uid sid : uuid) :
  is_admin d uid = false ->
  others_submissions (flip_status d uid sid) uid = others_submissions d uid.
Proof.
  intros Hadm. unfold flip_status.
  destruct (update_submissions _ _ _ _) eqn:E; [|reflexivity].
  eapply update_submissions_others; eassumption.
Qed.

Lemma submitEvaluation_others (d : db) (uid : uuid) (sel : option submission)
  (marks feedback : string) (new_id : uuid) :
  is_admin d uid = false ->
  others_submissions
    (fst (submitEvaluation d (Some uid) sel marks feedback new_id)) uid
  = others_submissions d uid.
Proof.
  intros Hadm. unfold submitEvaluation. destruct sel as [sel|]; [|reflexivity].
  destruct (parseInt marks) as [m|]; [|reflexivity].
  destruct (_ || _); [reflexivity|].
  destruct (String.eqb _ _); [reflexivity|].
  match goal with
  | |- context [match ?w with Ok _ => _ | Err _ => _ end] =>
      destruct w as [d1|] eqn:E; [|reflexivity]
  end.
  simpl.
  assert (d1 = set_evaluations d (evaluations d1)) as Hd1.
  { destruct (maybeSingle _).
    - apply update_evaluations_rows in E. rewrite E. reflexivity.
    - apply insert_evaluation_rows in E. destruct E as [-> _]. reflexivity. }
  rewrite flip_status_others.
  - rewrite Hd1. reflexivity.
  - rewrite Hd1. exact Hadm.
Qed.

Lemma map_map_if_same {A B : Type} (f : A -> B) (hit : A -> bool) (s : A -> A)
  (l : list A) :
  (forall x, f (s x) = f x) ->
  map f (map (fun x => if hit x then s x else x) l) = map f l.
Proof.
  intros H. rewrite map_map. apply map_ext. intros x.
  destruct (hit x); auto.
Qed.

Lemma ids_unique_cons (a : uuid) (l : list uuid) :
  ids_unique (a :: l) = negb (mem a l) && ids_unique l.
Proof. reflexivity. Qed.

Lemma ids_unique_inj {A : Type} (f : A -> uuid) (l : list A) (a b : A) :
  ids_unique (map f l) = true -> In a l -> In b l -> f a = f b -> a = b.
Proof.
  induction l as [|x l IH]; simpl map; intros U Ha Hb E; [destruct Ha|].
  rewrite ids_unique_cons in U. apply andb_true_iff in U. destruct U as [U1 U2].
  apply negb_true_iff in U1.
  assert (forall y, In y l -> f y <> f x) as Hfresh.
  { intros y Hy Ey.
    assert (mem (f x) (map f l) = true) by (apply mem_map_In; eauto).
    congruence. }
  destruct Ha as [Ha|Ha], Hb as [Hb|Hb]; subst.
  - reflexivity.
  - exfalso. apply (Hfresh b Hb). auto.
  - exfalso. apply (Hfresh a Ha). auto.
  - auto.
Qed.

Lemma find_map_same_key (k : uuid) (g : submission -> submission)
  (l : list submission) :
  (forall es, es_id (g es) = es_id es) ->
  find (fun es => Nat.eqb (es_id es) k) (map g l)
  = option_map g (find (fun es => Nat.eqb (es_id es) k) l).
Proof.
  intros Hg. induction l as [|a l IH]; simpl; [reflexivity|].
  rewrite Hg. destruct (Nat.eqb (es_id a) k); [reflexivity|exact IH].
Qed.

Lemma find_by_key_unique (l : list submission) (ex : submission) :
  ids_unique (map es_id l) = true -> In ex l ->
  find (fun es => Nat.eqb (es_id es) (es_id ex)) l = Some ex.
Proof.
  intros U Hin.
  destruct (find (fun es => Nat.eqb (es_id es) (es_id ex)) l) as [es|] eqn:E.
  - apply find_some in E. destruct E as [Hes E]. apply Nat.eqb_eq in E.
    f_equal. eapply ids_unique_inj; eauto.
  - apply (find_none _ _ E) in Hin. rewrite Nat.eqb_refl in Hin. discriminate.
Qed.

(** A resubmission by the owner goes through whenever the keys of the table
    hold, and leaves the row with status 'submitted'. *)
Lemma resubmission_goes_through (d : db) (u : uuid) (ex : submission)
  (code lang : string) :
  submissions_consistent d = true ->
  In ex (experiment_submissions d) ->
  es_student_id ex = u ->
  Authorize d u SELECT (RSubmission ex) = true ->
  exists d',
    update_submissions d u (fun es => Nat.eqb (es_id es) (es_id ex))
      (resubmit code lang) = Ok d'
    /\ In (resubmit code lang ex) (experiment_submissions d')
    /\ status_of d' (es_id ex) = Some "submitted".
Proof.
  intros Hc Hin Hown Hsel.
  unfold submissions_consistent in Hc.
  apply andb_true_iff in Hc. destruct Hc as [Hc Hfk].
  apply andb_true_iff in Hc. destruct Hc as [Hids Hpairs].
  set (hit := fun es => Nat.eqb (es_id es) (es_id ex)
                        && Authorize d u SELECT (RSubmission es)
                        && Authorize d u UPDATE (RSubmission es)).
  assert (hit ex = true) as Hhit.
  { unfold hit. rewrite Nat.eqb_refl, Hsel, Authorize_update_submission.
    unfold submissions_update. rewrite Hown, Nat.eqb_refl.
    simpl. apply orb_true_r. }
  eexists. split; [|split].
  - unfold update_submissions. fold hit.
    rewrite (map_map_if_same es_id) by reflexivity.
    rewrite (map_map_if_same
               (fun es => (es_experiment_id es, es_student_id es)))
      by reflexivity.
    rewrite Hids, Hpairs. simpl.
    assert (forallb (fun es => Authorize d u UPDATE (RSubmission es))
              (map (resubmit code lang) (filter hit (experiment_submissions d)))
            = true) as ->.
    { apply forallb_forall. intros es Hes. apply in_map_iff in Hes.
      destruct Hes as [es0 [<- Hes0]]. apply filter_In in Hes0.
      destruct Hes0 as [_ H0]. unfold hit in H0.
      apply andb_true_iff in H0. destruct H0 as [_ H0].
      rewrite Authorize_update_submission in *. exact H0. }
    assert (forallb (fun es => status_check (es_status es))
              (map (resubmit code lang) (filter hit (experiment_submissions d)))
            = true) as ->.
    { apply forallb_forall. intros es Hes. apply in_map_iff in Hes.
      destruct Hes as [es0 [<- _]]. reflexivity. }
    assert (forallb (fun es =>
                mem (es_experiment_id es) (map ex_id (experiments d))
                && mem (es_student_id es) (auth_users d))
              (map (resubmit code lang) (filter hit (experiment_submissions d)))
            = true) as ->.
    { apply forallb_forall. intros es Hes. apply in_map_iff in Hes.
      destruct Hes as [es0 [<- Hes0]]. apply filter_In in Hes0.
      destruct Hes0 as [Hes0 _]. rewrite forallb_forall in Hfk.
      apply (Hfk es0 Hes0). }
    simpl. reflexivity.
  - cbn [experiment_submissions set_experiment_submissions].
    apply in_map_iff. exists ex. fold (hit ex). rewrite Hhit. auto.
  - unfold status_of.
    cbn [experiment_submissions set_experiment_submissions].
    rewrite (find_map_same_key (es_id ex)
               (fun es => if hit es then resubmit code lang es else es))
      by (intros es; destruct (hit es); reflexivity).
    rewrite (find_by_key_unique _ _ Hids Hin).
    cbn [option_map]. rewrite Hhit. reflexivity.
Qed.

(** When an assigned faculty member grades, the second write of
    [submitEvaluation] touches no row ([submissions_update] lets only the
    admin and the owning student through) and the status stays 'submitted';
    it becomes 'evaluated' when the admin grades. *)
Lemma status_after_grading :
  status_of Scenario.graded_by_fac1 50 = Some "submitted"
  /\ status_of Scenario.graded_by_admin 50 = Some "evaluated".
Proof. split; reflexivity. Qed.

(** C2, counterexample.  The admin has graded [sub1] and its status is
    'evaluated'; the owning student, who is not an admin, submits again and
    the status is back to 'submitted'. *)
Lemma C2_resubmission_resets_evaluated :
  status_of Scenario.graded_by_admin 50 = Some "evaluated"
  /\ is_admin Scenario.graded_by_admin Scenario.stu1 = false
  /\ submitCode Scenario.graded_by_admin (Some Scenario.stu1)
       (Some Scenario.exp1) "print(2)" "python" 51
     = (run Scenario.graded_by_admin Scenario.stu1
          (SubmitCode (Some Scenario.exp1) "print(2)" "python" 51),
        Success "Submission updated!")
  /\ status_of (run Scenario.graded_by_admin Scenario.stu1
                  (SubmitCode (Some Scenario.exp1) "print(2)" "python" 51)) 50
     = Some "submitted".
Proof. repeat split. Qed.

(** C2, as amended.  No write by a caller who is neither an admin nor the
    owning student changes a submission, so such a caller never moves an
    'evaluated' status back to 'submitted'.  The owning student's
    resubmission (an update of code and language on the existing
    submission) succeeds and sets the status to 'submitted', whatever it was
    before. *)
Theorem C2_status_moved_only_by_owner_or_admin (d : db) (uid : uuid) :
  (forall rq : request,
      is_admin d uid = false ->
      others_submissions (run d uid rq) uid = others_submissions d uid)
  /\ (forall (e : experiment) (code lang : string) (new_id : uuid)
             (ex : submission),
         submissions_consistent d = true ->
         select_submissions d uid
           (fun es => Nat.eqb (es_student_id es) uid
                      && Nat.eqb (es_experiment_id es) (ex_id e)) = [ex] ->
         exists d',
           submitCode d (Some uid) (Some e) code lang new_id
           = (d', Success "Submission updated!")
           /\ In (resubmit code lang ex) (experiment_submissions d')
           /\ status_of d' (es_id ex) = Some "submitted").
Proof.
  split.
  - intros rq Hadm. destruct rq; simpl.
    + destruct (insert_submission d uid es) eqn:E; simpl; [|reflexivity].
      eapply insert_submission_others; eassumption.
    + destruct (update_submissions d uid where_ set) eqn:E; simpl;
        [|reflexivity].
      eapply update_submissions_others; eassumption.
    + unfold others_submissions. rewrite api_delete_submissions_rows.
      reflexivity.
    + unfold others_submissions.
      rewrite api_delete_experiments_rows by assumption. reflexivity.
    + unfold others_submissions.
      rewrite api_delete_subjects_rows by assumption. reflexivity.
    + apply submitCode_others. assumption.
    + apply submitEvaluation_others. assumption.
  - intros e code lang new_id ex Hc Hsel.
    assert (In ex (select_submissions d uid
              (fun es => Nat.eqb (es_student_id es) uid
                         && Nat.eqb (es_experiment_id es) (ex_id e)))) as Hin
      by (rewrite Hsel; left; reflexivity).
    unfold select_submissions in Hin. apply filter_In in Hin.
    destruct Hin as [Hin Hp]. apply andb_true_iff in Hp.
    destruct Hp as [Hw Hs]. apply andb_true_iff in Hw. destruct Hw as [Hown _].
    apply Nat.eqb_eq in Hown.
    destruct (resubmission_goes_through d uid ex code lang Hc Hin Hown Hs)
      as [d' [Hu [H1 H2]]].
    exists d'. unfold submitCode. rewrite Hsel. simpl. rewrite Hu. auto.
Qed.

Lemma C2_status_moved_only_by_owner_or_admin_witness :
  (is_admin Scenario.graded_by_admin Scenario.fac2 = false
   /\ others_submissions
        (run Scenario.graded_by_admin Scenario.fac2
           (UpdateSubmissions (fun _ => true) (resubmit "" "c")))
        Scenario.fac2
      = others_submissions Scenario.graded_by_admin Scenario.fac2)
  /\ (submissions_consistent Scenario.graded_by_admin = true
      /\ exists d',
           submitCode Scenario.graded_by_admin (Some Scenario.stu1)
             (Some Scenario.exp1) "print(2)" "python" 51
           = (d', Success "Submission updated!")
           /\ In (resubmit "print(2)" "python" (mark_evaluated Scenario.sub1))
                 (experiment_submissions d')
           /\ status_of d' 50 = Some "submitted").
Proof.
  split.
  - split; [reflexivity|].
    apply (proj1 (C2_status_moved_only_by_owner_or_admin
                    Scenario.graded_by_admin Scenario.fac2)).
    reflexivity.
  - split; [reflexivity|].
    apply (proj2 (C2_status_moved_only_by_owner_or_admin
                    Scenario.graded_by_admin Scenario.stu1)
             Scenario.exp1 "print(2)" "python" 51
             (mark_evaluated Scenario.sub1)); reflexivity.
Defined.

(* ===================================================================== *)
(** ** Evaluation creation: one row per submission, marks within range *)
(* ===================================================================== *)

Lemma flip_status_evaluations (d : db) (u sid : uuid) :
  evaluations (flip_status d u sid) = evaluations d.
Proof.
  unfold flip_status.
  destruct (update_submissions _ _ _ _) eqn:E; [|reflexivity].
  apply update_submissions_rows in E. destruct E as [-> _]. reflexivity.
Qed.

(** What a call of [submitEvaluation] does to the store: nothing unless it
    reports success; on success the marks parsed from the form are within
    range, and either one row was appended for a submission that had none,
    or rows were regraded in place. *)
Lemma submitEvaluation_effect (d : db) (user : option uuid)
  (sel : submission) (marks feedback : string) (new_id : uuid) :
  let r := submitEvaluation d user (Some sel) marks feedback new_id in
  (is_success (snd r) = false -> fst r = d)
  /\ (is_success (snd r) = true ->
      exists u m,
        user = Some u /\ parseInt marks = Some m /\ (0 <= m <= 100)%Z
        /\ ((mem (es_id sel) (map ev_submission_id (evaluations d)) = false
             /\ evaluations (fst r)
                = (evaluations d
                   ++ [mk_evaluation new_id (es_id sel) u (Some m)
                                     (Some (trim feedback))])%list)
            \/ exists hit : evaluation -> bool,
                 evaluations (fst r)
                 = map (fun ev => if hit ev then regrade m feedback ev else ev)
                       (evaluations d))).
Proof.
  unfold submitEvaluation.
  destruct user as [u|]; [|split; [reflexivity|discriminate]].
  destruct (parseInt marks) as [m|]; [|split; [reflexivity|discriminate]].
  destruct (m <? 0)%Z eqn:Elo; [split; [reflexivity|discriminate]|].
  destruct (100 <? m)%Z eqn:Ehi; [split; [reflexivity|discriminate]|].
  destruct (String.eqb (trim feedback) "");
    [split; [reflexivity|discriminate]|].
  cbn [orb].
  apply Z.ltb_ge in Elo, Ehi.
  destruct (maybeSingle _) as [ex|].
  - destruct (update_evaluations _ _ _ _) as [d1|] eqn:E; simpl;
      [|split; [reflexivity|discriminate]].
    split; [discriminate|]. intros _. exists u, m.
    repeat split; try assumption. right.
    apply update_evaluations_rows in E. rewrite flip_status_evaluations, E.
    eexists. reflexivity.
  - destruct (insert_evaluation _ _ _) as [d1|] eqn:E; simpl;
      [|split; [reflexivity|discriminate]].
    split; [discriminate|]. intros _. exists u, m.
    repeat split; try assumption. left.
    apply insert_evaluation_rows in E. destruct E as [-> [_ Hfresh]].
    rewrite flip_status_evaluations. auto.
Qed.

Lemma evaluations_for_absent (d : db) (sid : uuid) :
  mem sid (map ev_submission_id (evaluations d)) = false <->
  evaluations_for d sid = 0.
Proof.
  unfold evaluations_for, mem. rewrite existsb_map.
  induction (evaluations d) as [|ev l IH]; simpl; [tauto|].
  rewrite (Nat.eqb_sym (ev_submission_id ev) sid).
  destruct (Nat.eqb sid (ev_submission_id ev)); simpl.
  - split; discriminate.
  - exact IH.
Qed.

Lemma regrade_keeps_count (m : Z) (feedback : string)
  (hit : evaluation -> bool) (sid : uuid) (l : list evaluation) :
  List.length
    (filter (fun ev => Nat.eqb (ev_submission_id ev) sid)
       (map (fun ev => if hit ev then regrade m feedback ev else ev) l))
  = List.length (filter (fun ev => Nat.eqb (ev_submission_id ev) sid) l).
Proof.
  induction l as [|ev l IH]; simpl; [reflexivity|].
  assert (ev_submission_id (if hit ev then regrade m feedback ev else ev)
          = ev_submission_id ev) as -> by (destruct (hit ev); reflexivity).
  destruct (Nat.eqb (ev_submission_id ev) sid); simpl; rewrite IH; reflexivity.
Qed.

Lemma regrade_keeps_keys (m : Z) (feedback : string)
  (hit : evaluation -> bool) (l : list evaluation) :
  map ev_id (map (fun ev => if hit ev then regrade m feedback ev else ev) l)
  = map ev_id l.
Proof. apply map_map_if_same. reflexivity. Qed.

(** One call never takes the number of rows of a submission above one, and
    takes it from zero to one exactly when it succeeds. *)
Lemma submitEvaluation_count (d : db) (user : option uuid) (sel : submission)
  (marks feedback : string) (new_id : uuid) :
  let r := submitEvaluation d user (Some sel) marks feedback new_id in
  (evaluations_for d (es_id sel) <= 1 ->
   evaluations_for (fst r) (es_id sel) <= 1)
  /\ (evaluations_for d (es_id sel) = 0 -> is_success (snd r) = true ->
      evaluations_for (fst r) (es_id sel) = 1)
  /\ (evaluations_for d (es_id sel) = 1 ->
      evaluations_for (fst r) (es_id sel) = 1
      /\ map ev_id (evaluations (fst r)) = map ev_id (evaluations d)).
Proof.
  intros r.
  destruct (submitEvaluation_effect d user sel marks feedback new_id)
    as [Hfail Hok]. fold r in Hfail, Hok.
  destruct (is_success (snd r)) eqn:Es.
  - destruct (Hok eq_refl) as [u [m [_ [_ [_ [[Hfresh Hrows]|[hit Hrows]]]]]]].
    + apply evaluations_for_absent in Hfresh.
      assert (evaluations_for (fst r) (es_id sel) = 1) as H1.
      { unfold evaluations_for in *. rewrite Hrows, filter_app, length_app.
        rewrite Hfresh. simpl. rewrite Nat.eqb_refl. reflexivity. }
      repeat split; intros; try lia.
    + assert (evaluations_for (fst r) (es_id sel)
              = evaluations_for d (es_id sel)) as H1.
      { unfold evaluations_for. rewrite Hrows. apply regrade_keeps_count. }
      rewrite H1, Hrows, regrade_keeps_keys.
      repeat split; intros; try lia.
      (* a regrade cannot create the first row *)
      exfalso.
      unfold r, submitEvaluation in Es, Hrows.
      destruct user as [u'|]; [|discriminate].
      destruct (parseInt marks) as [m'|]; [|discriminate].
      destruct (_ || _); [discriminate|].
      destruct (String.eqb _ _); [discriminate|].
      assert (maybeSingle (select_evaluations d u'
                (fun ev => Nat.eqb (ev_submission_id ev) (es_id sel))) = None)
        as Hnone.
      { unfold select_evaluations.
        rewrite (filter_none _ (evaluations d)); [reflexivity|].
        intros ev Hev.
        match goal with H : evaluations_for d _ = 0 |- _ =>
          apply evaluations_for_absent in H; unfold mem in H;
          rewrite existsb_map in H;
          apply (proj1 (existsb_false_iff _ _)) with (x := ev) in H;
          [|exact Hev]
        end.
        rewrite Nat.eqb_sym. rewrite H. reflexivity. }
      rewrite Hnone in Es, Hrows.
      destruct (insert_evaluation _ _ _) as [d1|] eqn:E; [|discriminate].
      apply insert_evaluation_rows in E. destruct E as [E _].
      simpl in Hrows. rewrite flip_status_evaluations, E in Hrows.
      simpl in Hrows.
      apply (f_equal (@List.length evaluation)) in Hrows.
      rewrite length_app, length_map in Hrows. simpl in Hrows. lia.
  - rewrite (Hfail eq_refl).
    repeat split; intros; try discriminate; try lia; try assumption.
Qed.

(** Each of the two writes on [evaluations] keeps the rows of a submission
    at one at most, whatever other requests run in between. *)
Lemma writes_keep_one_row (d d' : db) (uid sid : uuid) :
  evaluations_for d sid <= 1 ->
  (forall ev, insert_evaluation d uid ev = Ok d' ->
              evaluations_for d' sid <= 1)
  /\ (forall w m feedback,
        update_evaluations d uid w (regrade m feedback) = Ok d' ->
        evaluations_for d' sid = evaluations_for d sid).
Proof.
  intros H. split.
  - intros ev E. apply insert_evaluation_rows in E.
    destruct E as [-> [_ Hfresh]]. unfold evaluations_for in *. simpl.
    rewrite filter_app, length_app. simpl.
    destruct (Nat.eqb (ev_submission_id ev) sid) eqn:Es; simpl; [|lia].
    apply Nat.eqb_eq in Es. subst sid.
    apply evaluations_for_absent in Hfresh. unfold evaluations_for in Hfresh.
    lia.
  - intros w m feedback E. apply update_evaluations_rows in E. rewrite E.
    unfold evaluations_for. simpl. apply regrade_keeps_count.
Qed.

(** *** The second creation, caller by caller *)

Lemma ids_unique_snoc (l : list uuid) (a : uuid) :
  ids_unique l = true -> mem a l = false -> ids_unique (l ++ [a]) = true.
Proof.
  induction l as [|x l IH]; intros U Hm; [reflexivity|].
  change ((x :: l) ++ [a])%list with (x :: (l ++ [a]))%list.
  rewrite ids_unique_cons in U. rewrite ids_unique_cons.
  apply andb_true_iff in U. destruct U as [U1 U2].
  apply negb_true_iff in U1.
  unfold mem in Hm. simpl in Hm. apply orb_false_iff in Hm.
  destruct Hm as [Hx Hm].
  apply andb_true_iff. split.
  - apply negb_true_iff. unfold mem in U1. unfold mem.
    rewrite existsb_app. apply orb_false_iff. split; [exact U1|].
    simpl. rewrite orb_false_r, Nat.eqb_sym. exact Hx.
  - apply IH; assumption.
Qed.

(** In a table with a key, a filter that pins the key down selects the row
    that carries it, or nothing. *)
Lemma filter_keyed {A : Type} (f : A -> uuid) (h : A -> bool) (l : list A)
  (a : A) :
  ids_unique (map f l) = true -> In a l ->
  (forall x, In x l -> h x = true -> f x = f a) ->
  filter h l = if h a then [a] else [].
Proof.
  induction l as [|x l IH]; intros U Hin Hk; [destruct Hin|].
  simpl map in U. rewrite ids_unique_cons in U.
  apply andb_true_iff in U. destruct U as [U1 U2].
  apply negb_true_iff in U1.
  assert (forall y, In y l -> f y <> f x) as Hfresh.
  { intros y Hy Ey.
    assert (mem (f x) (map f l) = true) by (apply mem_map_In; eauto).
    congruence. }
  destruct Hin as [->|Hin].
  - simpl. rewrite (filter_none h l).
    + destruct (h a); reflexivity.
    + intros y Hy. destruct (h y) eqn:E; [|reflexivity].
      exfalso. apply (Hfresh y Hy). apply Hk; [right; exact Hy|exact E].
  - simpl. assert (h x = false) as ->.
    { destruct (h x) eqn:E; [|reflexivity].
      exfalso. apply (Hfresh a Hin). symmetry.
      apply Hk; [left; reflexivity|exact E]. }
    apply IH; [exact U2|exact Hin|]. intros y Hy. apply Hk. right. exact Hy.
Qed.

Lemma insert_evaluation_checks (d d' : db) (uid : uuid) (ev : evaluation) :
  insert_evaluation d uid ev = Ok d' ->
  mem (ev_id ev) (map ev_id (evaluations d)) = false
  /\ mem (ev_submission_id ev) (map es_id (experiment_submissions d)) = true
  /\ mem (ev_faculty_id ev) (auth_users d) = true.
Proof.
  unfold insert_evaluation. intros H.
  destruct (negb (Authorize d uid INSERT (REvaluation ev))); [discriminate|].
  destruct (negb (marks_check (ev_marks ev))); [discriminate|].
  destruct (mem (ev_id ev) _); [discriminate|].
  destruct (mem (ev_submission_id ev) (map ev_submission_id _));
    [discriminate|].
  destruct (mem (ev_submission_id ev) _); [|discriminate].
  destruct (mem (ev_faculty_id ev) _); [|discriminate].
  auto.
Qed.

Lemma flip_status_frame (d : db) (u sid : uuid) :
  auth_users (flip_status d u sid) = auth_users d
  /\ map es_id (experiment_submissions (flip_status d u sid))
     = map es_id (experiment_submissions d).
Proof.
  unfold flip_status.
  destruct (update_submissions _ _ _ _) eqn:E; [|split; reflexivity].
  apply update_submissions_rows in E. destruct E as [-> _].
  split; [reflexivity|].
  cbn [experiment_submissions set_experiment_submissions].
  apply map_map_if_same. reflexivity.
Qed.

(** The first creation for a submission that has no evaluation, when it
    succeeds: the row that was inserted, and the checks it passed. *)
Lemma first_creation (d : db) (user : option uuid) (sel : submission)
  (marks feedback : string) (new_id : uuid) :
  let r := submitEvaluation d user (Some sel) marks feedback new_id in
  evaluations_for d (es_id sel) = 0 -> is_success (snd r) = true ->
  exists a m,
    user = Some a
    /\ evaluations (fst r)
       = (evaluations d
          ++ [mk_evaluation new_id (es_id sel) a (Some m)
                            (Some (trim feedback))])%list
    /\ mem new_id (map ev_id (evaluations d)) = false
    /\ mem (es_id sel) (map ev_submission_id (evaluations d)) = false
    /\ mem (es_id sel) (map es_id (experiment_submissions (fst r))) = true
    /\ mem a (auth_users (fst r)) = true.
Proof.
  intros r H0 Hs. unfold r, submitEvaluation in *.
  destruct user as [a|]; [|discriminate].
  destruct (parseInt marks) as [m|]; [|discriminate].
  destruct (_ || _); [discriminate|].
  destruct (String.eqb _ _); [discriminate|].
  assert (maybeSingle (select_evaluations d a
            (fun ev => Nat.eqb (ev_submission_id ev) (es_id sel))) = None)
    as Hnone.
  { unfold select_evaluations.
    rewrite (filter_none _ (evaluations d)); [reflexivity|].
    intros ev Hev.
    apply evaluations_for_absent in H0. unfold mem in H0.
    rewrite existsb_map in H0.
    apply (proj1 (existsb_false_iff _ _)) with (x := ev) in H0; [|exact Hev].
    rewrite Nat.eqb_sym. rewrite H0. reflexivity. }
  rewrite Hnone in *.
  destruct (insert_evaluation _ _ _) as [d1|] eqn:E; [|discriminate].
  pose proof (insert_evaluation_checks _ _ _ _ E) as [C1 [C2 C3]].
  apply insert_evaluation_rows in E. destruct E as [-> [_ C4]].
  cbn [ev_id ev_submission_id ev_faculty_id] in *.
  exists a, m. cbn [fst].
  destruct (flip_status_frame
              (set_evaluations d
                 (evaluations d
                  ++ [mk_evaluation new_id (es_id sel) a (Some m)
                                    (Some (trim feedback))]))
              a (es_id sel)) as [F1 F2].
  rewrite flip_status_evaluations, F1, F2.
  repeat split; assumption.
Qed.

(** The author of the row, or an admin: the update goes through and
    rewrites the row of the submission, and no other. *)
Lemma update_by_author_or_admin (d : db) (u : uuid) (ev0 : evaluation)
  (m : Z) (feedback : string) :
  ids_unique (map ev_id (evaluations d)) = true ->
  ids_unique (map ev_submission_id (evaluations d)) = true ->
  In ev0 (evaluations d) ->
  mem (ev_submission_id ev0) (map es_id (experiment_submissions d)) = true ->
  mem (ev_faculty_id ev0) (auth_users d) = true ->
  (0 <= m <= 100)%Z ->
  is_admin d u || Nat.eqb (ev_faculty_id ev0) u = true ->
  update_evaluations d u (fun ev => Nat.eqb (ev_id ev) (ev_id ev0))
    (regrade m feedback)
  = Ok (set_evaluations d
          (map (fun ev =>
                  if Nat.eqb (ev_submission_id ev) (ev_submission_id ev0)
                  then regrade m feedback ev else ev)
               (evaluations d))).
Proof.
  intros Hk1 Hk2 Hin Hfk1 Hfk2 Hm Hcan.
  set (hit := fun ev => Nat.eqb (ev_id ev) (ev_id ev0)
                        && Authorize d u SELECT (REvaluation ev)
                        && Authorize d u UPDATE (REvaluation ev)).
  assert (Authorize d u UPDATE (REvaluation ev0) = true) as Hup
    by (rewrite Authorize_update_evaluation; exact Hcan).
  assert (Authorize d u SELECT (REvaluation ev0) = true) as Hsee.
  { rewrite Authorize_select_evaluation. apply evaluations_update_visible.
    exact Hcan. }
  assert (forall ev, In ev (evaluations d) ->
            hit ev = Nat.eqb (ev_submission_id ev) (ev_submission_id ev0))
    as Hhit.
  { intros ev Hev. unfold hit.
    destruct (Nat.eqb (ev_id ev) (ev_id ev0)) eqn:E1.
    - apply Nat.eqb_eq in E1.
      assert (ev = ev0) as ->
        by (apply (ids_unique_inj ev_id (evaluations d)); assumption).
      rewrite Hsee, Hup, Nat.eqb_refl. reflexivity.
    - simpl. symmetry. apply Nat.eqb_neq. intros E2.
      assert (ev = ev0) as E
        by (apply (ids_unique_inj ev_submission_id (evaluations d));
            assumption).
      rewrite E, Nat.eqb_refl in E1. discriminate. }
  assert (filter hit (evaluations d) = [ev0]) as Hnews.
  { rewrite (filter_keyed ev_id hit (evaluations d) ev0 Hk1 Hin).
    - rewrite (Hhit ev0 Hin), Nat.eqb_refl. reflexivity.
    - intros x _ Hx. unfold hit in Hx.
      apply andb_true_iff in Hx. destruct Hx as [Hx _].
      apply andb_true_iff in Hx. destruct Hx as [Hx _].
      apply Nat.eqb_eq. exact Hx. }
  unfold update_evaluations. fold hit.
  rewrite (map_map_if_same ev_id) by reflexivity.
  rewrite (map_map_if_same ev_submission_id) by reflexivity.
  rewrite Hk1, Hk2, Hnews.
  cbn [map forallb regrade ev_marks ev_submission_id ev_faculty_id
       marks_check].
  rewrite Authorize_update_evaluation. unfold evaluations_update.
  change (ev_faculty_id (regrade m feedback ev0)) with (ev_faculty_id ev0).
  rewrite Hcan, Hfk1, Hfk2.
  assert ((0 <=? m)%Z && (m <=? 100)%Z = true) as ->
    by (apply andb_true_iff; split; apply Z.leb_le; lia).
  cbn [andb negb].
  f_equal. f_equal. apply map_ext_in. intros ev Hev.
  fold (hit ev). rewrite (Hhit ev Hev). reflexivity.
Qed.

(** Anybody else who can see the row: the update touches nothing, and
    reports no error. *)
Lemma update_by_other (d : db) (u : uuid) (ev0 : evaluation)
  (m : Z) (feedback : string) :
  ids_unique (map ev_id (evaluations d)) = true ->
  ids_unique (map ev_submission_id (evaluations d)) = true ->
  In ev0 (evaluations d) ->
  is_admin d u || Nat.eqb (ev_faculty_id ev0) u = false ->
  update_evaluations d u (fun ev => Nat.eqb (ev_id ev) (ev_id ev0))
    (regrade m feedback)
  = Ok (set_evaluations d (evaluations d)).
Proof.
  intros Hk1 Hk2 Hin Hcan.
  set (hit := fun ev => Nat.eqb (ev_id ev) (ev_id ev0)
                        && Authorize d u SELECT (REvaluation ev)
                        && Authorize d u UPDATE (REvaluation ev)).
  assert (forall ev, In ev (evaluations d) -> hit ev = false) as Hhit.
  { intros ev Hev. unfold hit.
    destruct (Nat.eqb (ev_id ev) (ev_id ev0)) eqn:E1; [|reflexivity].
    apply Nat.eqb_eq in E1.
    assert (ev = ev0) as ->
      by (apply (ids_unique_inj ev_id (evaluations d)); assumption).
    rewrite Authorize_update_evaluation. unfold evaluations_update.
    rewrite Hcan. apply andb_false_r. }
  unfold update_evaluations. fold hit.
  rewrite (map_map_if_same ev_id) by reflexivity.
  rewrite (map_map_if_same ev_submission_id) by reflexivity.
  rewrite Hk1, Hk2, (filter_none hit (evaluations d) Hhit).
  cbn [map forallb andb negb].
  f_equal. f_equal.
  transitivity (map (fun ev => ev) (evaluations d)); [|apply map_id].
  apply map_ext_in. intros ev Hev.
  fold (hit ev). rewrite (Hhit ev Hev). reflexivity.
Qed.

(** A caller who cannot see the row goes to the insert: refused by the
    policy, or else by a key. *)
Lemma insert_meets_key (d : db) (u : uuid) (ev0 : evaluation) (new_id : uuid)
  (m : Z) (feedback : option string) :
  In ev0 (evaluations d) -> (0 <= m <= 100)%Z ->
  insert_evaluation d u
    (mk_evaluation new_id (ev_submission_id ev0) u (Some m) feedback)
  = Err (if Authorize d u INSERT
              (REvaluation
                 (mk_evaluation new_id (ev_submission_id ev0) u (Some m)
                                feedback))
         then UniqueViolation else RlsViolation).
Proof.
  intros Hin Hm. unfold insert_evaluation.
  destruct (Authorize d u INSERT _); [|reflexivity].
  cbn [negb ev_marks ev_id ev_submission_id marks_check].
  assert ((0 <=? m)%Z && (m <=? 100)%Z = true) as ->
    by (apply andb_true_iff; split; apply Z.leb_le; lia).
  cbn [negb].
  destruct (mem new_id _); [reflexivity|].
  assert (mem (ev_submission_id ev0)
            (map ev_submission_id (evaluations d)) = true) as ->
    by (apply mem_map_In; eauto).
  reflexivity.
Qed.

(** A creation for a submission that already has its evaluation [ev0], with
    a form that passes the page's validation.  What happens is decided by
    the caller: the author of [ev0] or an admin rewrites it in place; the
    student who owns the submission is told of a success although no row
    is written; anybody else is refused, with a duplicate key when assigned
    to the subject of the submission and by the policy otherwise. *)
Lemma second_creation (d : db) (sel : submission) (ev0 : evaluation)
  (u : uuid) (marks feedback : string) (m : Z) (new_id : uuid) :
  ids_unique (map ev_id (evaluations d)) = true ->
  ids_unique (map ev_submission_id (evaluations d)) = true ->
  In ev0 (evaluations d) ->
  ev_submission_id ev0 = es_id sel ->
  mem (ev_submission_id ev0) (map es_id (experiment_submissions d)) = true ->
  mem (ev_faculty_id ev0) (auth_users d) = true ->
  parseInt marks = Some m -> (0 <= m <= 100)%Z -> trim feedback <> "" ->
  let r := submitEvaluation d (Some u) (Some sel) marks feedback new_id in
  if is_admin d u || Nat.eqb (ev_faculty_id ev0) u
  then snd r = Success "Evaluation submitted successfully!"
       /\ evaluations (fst r)
          = map (fun ev => if Nat.eqb (ev_submission_id ev) (es_id sel)
                           then regrade m feedback ev else ev)
                (evaluations d)
  else if owns_submission d u (es_id sel)
  then snd r = Success "Evaluation submitted successfully!"
       /\ evaluations (fst r) = evaluations d
  else r = (d, Failed (if existsb (is_faculty_for_subject d u)
                            (chain_subjects d (es_id sel))
                       then UniqueViolation else RlsViolation)).
Proof.
  intros Hk1 Hk2 Hin Hsid Hfk1 Hfk2 Hp Hm Hfb r.
  assert (select_evaluations d u
            (fun ev => Nat.eqb (ev_submission_id ev) (es_id sel))
          = if Authorize d u SELECT (REvaluation ev0) then [ev0] else [])
    as Hsel.
  { unfold select_evaluations.
    rewrite (filter_keyed ev_submission_id _ (evaluations d) ev0 Hk2 Hin).
    - rewrite Hsid, Nat.eqb_refl. reflexivity.
    - intros x _ Hx. apply andb_true_iff in Hx. destruct Hx as [Hx _].
      apply Nat.eqb_eq in Hx. congruence. }
  assert (Authorize d u SELECT (REvaluation ev0)
          = is_admin d u || Nat.eqb (ev_faculty_id ev0) u
            || owns_submission d u (es_id sel)) as Hvis.
  { rewrite Authorize_select_evaluation, evaluations_select_plain, Hsid.
    reflexivity. }
  unfold r, submitEvaluation. rewrite Hp.
  assert ((m <? 0)%Z = false) as -> by (apply Z.ltb_ge; lia).
  assert ((100 <? m)%Z = false) as -> by (apply Z.ltb_ge; lia).
  apply String.eqb_neq in Hfb. rewrite Hfb. cbn [orb].
  rewrite Hsel, Hvis.
  destruct (is_admin d u || Nat.eqb (ev_faculty_id ev0) u) eqn:Ecan.
  - cbn [orb maybeSingle].
    rewrite (update_by_author_or_admin d u ev0 m feedback)
      by assumption.
    cbn [fst snd]. split; [reflexivity|].
    rewrite flip_status_evaluations, Hsid. reflexivity.
  - cbn [orb].
    destruct (owns_submission d u (es_id sel)) eqn:Eown.
    + cbn [maybeSingle].
      rewrite (update_by_other d u ev0 m feedback) by assumption.
      cbn [fst snd]. split; [reflexivity|].
      rewrite flip_status_evaluations. reflexivity.
    + cbn [maybeSingle]. rewrite <- Hsid.
      rewrite (insert_meets_key d u ev0 new_id m _ Hin Hm).
      rewrite Authorize_insert_evaluation, evaluations_insert_plain.
      cbn [ev_faculty_id ev_submission_id].
      apply orb_false_iff in Ecan. destruct Ecan as [-> _].
      rewrite Nat.eqb_refl. reflexivity.
Qed.

(** C5, counterexample.  [fac1] has created the evaluation of [sub1].  A
    second creation by [stu1], the student who owns the submission, reports
    success and leaves the row as it was: no Conflict, and nothing updated.
    A second creation by [fac2], who is not assigned to the subject, fails
    with a row-level-security violation, not with a Conflict. *)
Lemma C5_second_attempt_neither_conflict_nor_update :
  let r1 := submitEvaluation Scenario.base (Some Scenario.fac1)
              (Some Scenario.sub1) "85" "Good" 60 in
  let by_owner := submitEvaluation (fst r1) (Some Scenario.stu1)
                    (Some Scenario.sub1) "100" "Perfect" 61 in
  let by_other := submitEvaluation (fst r1) (Some Scenario.fac2)
                    (Some Scenario.sub1) "70" "Late" 61 in
  snd r1 = Success "Evaluation submitted successfully!"
  /\ evaluations (fst r1)
     = [mk_evaluation 60 50 Scenario.fac1 (Some 85%Z) (Some "Good")]
  /\ snd by_owner = Success "Evaluation submitted successfully!"
  /\ evaluations (fst by_owner) = evaluations (fst r1)
  /\ by_other = (fst r1, Failed RlsViolation).
Proof. repeat split. Qed.

(** C5, as amended.  Two evaluation creations for the same submission never
    leave two rows keyed by it, and leave exactly one as soon as one of them
    succeeds.  When the first succeeds, the second adds no row and, unless
    it reports success, leaves the store as it was.  What the second does
    with a form that passes the validation is decided by its caller: an
    admin or the author of the row rewrites it in place with the new marks
    and feedback; the student who owns the submission gets the success
    message while the row stays as it was; any other caller fails, with a
    duplicate key (Conflict) when assigned to the subject of the submission
    and with a row-level-security violation otherwise. *)
Theorem C5_one_evaluation_per_submission
  (d : db) (sel : submission)
  (u1 : option uuid) (marks1 feedback1 : string) (id1 : uuid)
  (u2 : option uuid) (marks2 feedback2 : string) (id2 : uuid) :
  let r1 := submitEvaluation d u1 (Some sel) marks1 feedback1 id1 in
  let r2 := submitEvaluation (fst r1) u2 (Some sel) marks2 feedback2 id2 in
  (evaluations_for d (es_id sel) <= 1 ->
   evaluations_for (fst r1) (es_id sel) <= 1
   /\ evaluations_for (fst r2) (es_id sel) <= 1)
  /\ (evaluations_for d (es_id sel) = 0 ->
      is_success (snd r1) || is_success (snd r2) = true ->
      evaluations_for (fst r2) (es_id sel) = 1)
  /\ (evaluations_for d (es_id sel) = 0 -> is_success (snd r1) = true ->
      evaluations_for (fst r1) (es_id sel) = 1
      /\ map ev_id (evaluations (fst r2)) = map ev_id (evaluations (fst r1))
      /\ (is_success (snd r2) = false -> fst r2 = fst r1))
  /\ (ids_unique (map ev_id (evaluations d)) = true ->
      ids_unique (map ev_submission_id (evaluations d)) = true ->
      evaluations_for d (es_id sel) = 0 -> is_success (snd r1) = true ->
      exists ev0,
        evaluations (fst r1) = (evaluations d ++ [ev0])%list
        /\ ev_submission_id ev0 = es_id sel
        /\ u1 = Some (ev_faculty_id ev0)
        /\ forall u m,
             u2 = Some u -> parseInt marks2 = Some m -> (0 <= m <= 100)%Z ->
             trim feedback2 <> "" ->
             if is_admin (fst r1) u || Nat.eqb (ev_faculty_id ev0) u
             then snd r2 = Success "Evaluation submitted successfully!"
                  /\ evaluations (fst r2)
                     = (evaluations d ++ [regrade m feedback2 ev0])%list
             else if owns_submission (fst r1) u (es_id sel)
             then snd r2 = Success "Evaluation submitted successfully!"
                  /\ evaluations (fst r2) = evaluations (fst r1)
             else r2 = (fst r1,
                        Failed (if existsb (is_faculty_for_subject (fst r1) u)
                                     (chain_subjects (fst r1) (es_id sel))
                                then UniqueViolation else RlsViolation))).
Proof.
  intros r1 r2.
  destruct (submitEvaluation_count d u1 sel marks1 feedback1 id1)
    as [A1 [B1 _]]. fold r1 in A1, B1.
  destruct (submitEvaluation_count (fst r1) u2 sel marks2 feedback2 id2)
    as [A2 [B2 K2]]. fold r2 in A2, B2, K2.
  destruct (submitEvaluation_effect d u1 sel marks1 feedback1 id1)
    as [F1 _]. fold r1 in F1.
  destruct (submitEvaluation_effect (fst r1) u2 sel marks2 feedback2 id2)
    as [F2 _]. fold r2 in F2.
  split; [|split; [|split]].
  - intros H. split; auto.
  - intros H0 Hs. destruct (is_success (snd r1)) eqn:E1.
    + apply K2. apply B1; auto.
    + simpl in Hs. apply B2; [|exact Hs]. rewrite (F1 eq_refl). exact H0.
  - intros H0 Hs. specialize (B1 H0 Hs). destruct (K2 B1) as [K2a K2b].
    repeat split; assumption.
  - intros Hk1 Hk2 H0 Hs.
    destruct (first_creation d u1 sel marks1 feedback1 id1 H0 Hs)
      as [a [m1 [Hu [Hev [C1 [C2 [C3 C4]]]]]]]. fold r1 in Hev, C3, C4.
    set (ev0 := mk_evaluation id1 (es_id sel) a (Some m1)
                              (Some (trim feedback1))) in *.
    exists ev0. split; [exact Hev|]. split; [reflexivity|].
    split; [exact Hu|].
    intros u m -> Hp Hm Hfb.
    assert (ids_unique (map ev_id (evaluations (fst r1))) = true) as Hk1'.
    { rewrite Hev, map_app. apply ids_unique_snoc; assumption. }
    assert (ids_unique (map ev_submission_id (evaluations (fst r1))) = true)
      as Hk2'.
    { rewrite Hev, map_app. apply ids_unique_snoc; assumption. }
    assert (In ev0 (evaluations (fst r1))) as Hin.
    { rewrite Hev. apply in_or_app. right. left. reflexivity. }
    pose proof (second_creation (fst r1) sel ev0 u marks2 feedback2 m id2
                  Hk1' Hk2' Hin eq_refl C3 C4 Hp Hm Hfb) as H.
    cbv zeta in H. fold r2 in H.
    destruct (is_admin (fst r1) u || Nat.eqb (ev_faculty_id ev0) u);
      [|exact H].
    destruct H as [H1 H2]. split; [exact H1|].
    rewrite H2, Hev, map_app. f_equal.
    + transitivity (map (fun ev => ev) (evaluations d)); [|apply map_id].
      apply map_ext_in. intros ev Hin'.
      assert (Nat.eqb (ev_submission_id ev) (es_id sel) = false) as ->;
        [|reflexivity].
      unfold mem in C2. rewrite existsb_map in C2.
      rewrite Nat.eqb_sym.
      exact (proj1 (existsb_false_iff _ _) C2 ev Hin').
    + cbn [map ev_submission_id ev0]. unfold ev0 at 1.
      cbn [ev_submission_id]. rewrite Nat.eqb_refl. reflexivity.
Qed.

Lemma C5_one_evaluation_per_submission_witness :
  (evaluations_for Scenario.base 50 = 0
   /\ evaluations_for Scenario.graded_by_fac1 50 = 1
   /\ evaluations_for
        (fst (submitEvaluation Scenario.graded_by_fac1 (Some Scenario.fac1)
                (Some Scenario.sub1) "90" "Better" 61)) 50 = 1)
  /\ evaluations
       (fst (submitEvaluation Scenario.graded_by_fac1 (Some Scenario.fac1)
               (Some Scenario.sub1) "90" "Better" 61))
     = [mk_evaluation 60 50 Scenario.fac1 (Some 90%Z) (Some "Better")].
Proof.
  destruct (C5_one_evaluation_per_submission
              Scenario.base Scenario.sub1
              (Some Scenario.fac1) "85" "Good" 60
              (Some Scenario.fac1) "90" "Better" 61) as [_ [H2 [H3 H4]]].
  split.
  - split; [reflexivity|]. split.
    + exact (proj1 (H3 eq_refl eq_refl)).
    + exact (H2 eq_refl eq_refl).
  - destruct (H4 eq_refl eq_refl eq_refl eq_refl) as [ev0 [Hev [_ [_ H]]]].
    assert (trim "Better" <> "") as Hfb by discriminate.
    assert (0 <= 90 <= 100)%Z as Hm by lia.
    specialize (H Scenario.fac1 90%Z eq_refl eq_refl Hm Hfb).
    vm_compute in Hev. injection Hev as Hev. subst ev0.
    exact (proj2 H).
Defined.

(** A second creation by a caller who cannot see the existing evaluation
    goes to the insert and meets the key on [submission_id]. *)
Lemma second_creation_conflict :
  submitEvaluation Scenario.reassigned (Some Scenario.fac2)
    (Some Scenario.sub1) "70" "Late" 61
  = (Scenario.reassigned, Failed UniqueViolation).
Proof. reflexivity. Qed.

(** A second creation by the author regrades the row in place. *)
Lemma second_creation_regrades :
  evaluations
    (fst (submitEvaluation Scenario.graded_by_fac1 (Some Scenario.fac1)
            (Some Scenario.sub1) "90" "Better" 61))
  = [mk_evaluation 60 50 Scenario.fac1 (Some 90%Z) (Some "Better")].
Proof. reflexivity. Qed.

(** The store refuses out-of-range marks on its own. *)
Lemma insert_evaluation_out_of_range (d : db) (uid : uuid) (ev : evaluation) :
  marks_check (ev_marks ev) = false ->
  exists e, insert_evaluation d uid ev = Err e.
Proof.
  intros H. destruct (insert_evaluation d uid ev) as [d'|e] eqn:E.
  - apply insert_evaluation_rows in E. destruct E as [_ [E _]]. congruence.
  - exists e. reflexivity.
Qed.




(** The boundary marks end to end: an assigned faculty member grades with 0
    and with 100, and the row is stored with those marks. *)
Lemma boundary_marks_stored :
  submitEvaluation Scenario.base (Some Scenario.fac1) (Some Scenario.sub1)
    "0" "Poor" 60
  = (set_evaluations Scenario.base
       [mk_evaluation 60 50 Scenario.fac1 (Some 0%Z) (Some "Poor")],
     Success "Evaluation submitted successfully!")
  /\ submitEvaluation Scenario.base (Some Scenario.fac1) (Some Scenario.sub1)
       "100" "Perfect" 60
     = (set_evaluations Scenario.base
          [mk_evaluation 60 50 Scenario.fac1 (Some 100%Z) (Some "Perfect")],
        Success "Evaluation submitted successfully!").
Proof. split; reflexivity. Qed.

(* ===================================================================== *)
(** ** Provisioning *)
(* ===================================================================== *)

Lemma cast_app_role_label (s : string) (r : option app_role) :
  cast_app_role (Some s) = Ok r -> exists r', r = Some r' /\ role_label r' = s.
Proof.
  unfold cast_app_role.
  destruct (String.eqb s "admin") eqn:E1;
    [apply String.eqb_eq in E1; intros H; inversion H; subst; eauto|].
  destruct (String.eqb s "faculty") eqn:E2;
    [apply String.eqb_eq in E2; intros H; inversion H; subst; eauto|].
  destruct (String.eqb s "student") eqn:E3;
    [apply String.eqb_eq in E3; intros H; inversion H; subst; eauto|].
  discriminate.
Qed.

Lemma fresh_identity_has_no_profile (d : db) (id : uuid) :
  ref_integrity d = true -> mem id (auth_users d) = false ->
  forall p, In p (profiles d) -> Nat.eqb (p_id p) id = false.
Proof.
  intros Hri Hfresh p Hp. unfold ref_integrity in Hri.
  repeat (apply andb_true_iff in Hri; destruct Hri as [Hri ?]).
  rewrite forallb_forall in Hri. specialize (Hri p Hp).
  destruct (Nat.eqb (p_id p) id) eqn:E; [|reflexivity].
  apply Nat.eqb_eq in E. congruence.
Qed.

(** The three labels are the ones the cast to [app_role] accepts, and the
    three codes the ones the CHECK of [profiles.department] accepts. *)
Lemma listed_role_is_cast (NEW : new_user) :
  absent_or_one_of ["admin"; "faculty"; "student"]
    (get_text (raw_user_meta_data NEW) "role") = true ->
  role_well_formed NEW = true.
Proof.
  unfold role_well_formed, cast_app_role, absent_or_one_of.
  destruct (get_text (raw_user_meta_data NEW) "role") as [s|]; [|reflexivity].
  cbn [existsb].
  destruct (String.eqb s "admin"); [reflexivity|].
  destruct (String.eqb s "faculty"); [reflexivity|].
  destruct (String.eqb s "student"); [reflexivity|].
  discriminate.
Qed.

Lemma listed_department_is_checked (NEW : new_user) :
  absent_or_one_of ["CSE"; "IT"; "AIDS"]
    (get_text (raw_user_meta_data NEW) "department") = true ->
  department_well_formed NEW = true.
Proof.
  unfold department_well_formed, department_check, absent_or_one_of.
  destruct (get_text (raw_user_meta_data NEW) "department") as [s|];
    [|reflexivity].
  cbn [existsb].
  destruct (String.eqb s "CSE"); [reflexivity|].
  destruct (String.eqb s "IT"); [reflexivity|].
  destruct (String.eqb s "AIDS"); [reflexivity|].
  discriminate.
Qed.

(** C7, counterexample.  An identity whose metadata asks for a role outside
    the enum, or a department outside the CHECK list, makes the trigger
    raise: no Principal record is written (and the identity is not
    created). *)
Lemma C7_unknown_role_or_department_rejected :
  on_auth_user_created Scenario.base
    (mk_new_user 7 (Some [("role", Some "teacher")]))
  = Err InvalidEnumValue
  /\ on_auth_user_created Scenario.base
       (mk_new_user 7 (Some [("role", Some "student");
                             ("department", Some "MECH")]))
     = Err CheckViolation.
Proof. split; reflexivity. Qed.

(** C7, as amended.  For every identity-creation event whose requested role,
    when present, is one of admin, faculty, student and whose department,
    when present, is one of CSE, IT, AIDS, the trigger inserts exactly one
    Principal record for the new identity; its role is the requested role
    when present and student otherwise, and its department is the event's
    department when present and 'CSE' otherwise. *)
Theorem C7_provisioning (d : db) (NEW : new_user) :
  ref_integrity d = true ->
  mem (nu_id NEW) (auth_users d) = false ->
  absent_or_one_of ["admin"; "faculty"; "student"]
    (get_text (raw_user_meta_data NEW) "role") = true ->
  absent_or_one_of ["CSE"; "IT"; "AIDS"]
    (get_text (raw_user_meta_data NEW) "department") = true ->
  exists d' p,
    on_auth_user_created d NEW = Ok d'
    /\ profiles d' = (profiles d ++ [p])%list
    /\ profiles_of d' (nu_id NEW) = [p]
    /\ p_id p = nu_id NEW
    /\ (forall s, get_text (raw_user_meta_data NEW) "role" = Some s ->
                  role_label (p_role p) = s)
    /\ (get_text (raw_user_meta_data NEW) "role" = None -> p_role p = student)
    /\ (forall s, get_text (raw_user_meta_data NEW) "department" = Some s ->
                  p_department p = Some s)
    /\ (get_text (raw_user_meta_data NEW) "department" = None ->
        p_department p = Some "CSE").
Proof.
  intros Hri Hfresh Hrole Hdep.
  apply listed_role_is_cast in Hrole.
  apply listed_department_is_checked in Hdep.
  pose proof (fresh_identity_has_no_profile d (nu_id NEW) Hri Hfresh) as Hnone.
  unfold on_auth_user_created, handle_new_user. rewrite Hfresh.
  unfold role_well_formed in Hrole.
  destruct (cast_app_role (get_text (raw_user_meta_data NEW) "role"))
    as [r|] eqn:Ecast; [|discriminate].
  unfold insert_profile_definer.
  cbn [p_department p_id profiles auth_users].
  assert (department_check
            (Some (COALESCE (get_text (raw_user_meta_data NEW) "department")
                            "CSE")) = true) as ->.
  { unfold department_well_formed in Hdep.
    destruct (get_text (raw_user_meta_data NEW) "department");
      [exact Hdep|reflexivity]. }
  assert (mem (nu_id NEW) (map p_id (profiles d)) = false) as ->.
  { unfold mem. rewrite existsb_map. apply existsb_false_iff.
    intros p Hp. rewrite Nat.eqb_sym. auto. }
  assert (mem (nu_id NEW) (auth_users d ++ [nu_id NEW]) = true) as ->.
  { apply mem_In. apply in_or_app. right. left. reflexivity. }
  cbn [negb].
  eexists. eexists. split; [reflexivity|].
  cbn [profiles set_profiles p_id p_role p_department].
  split; [reflexivity|]. split.
  { unfold profiles_of, set_profiles. cbn [profiles]. rewrite filter_app.
    rewrite (filter_none _ (profiles d)) by exact Hnone.
    simpl. rewrite Nat.eqb_refl. reflexivity. }
  split; [reflexivity|].
  repeat split.
  - intros s Hs. rewrite Hs in Ecast.
    apply cast_app_role_label in Ecast. destruct Ecast as [r' [-> Hl]].
    exact Hl.
  - intros Hs. rewrite Hs in Ecast. inversion Ecast. reflexivity.
  - intros s Hs. rewrite Hs. reflexivity.
  - intros Hs. rewrite Hs. reflexivity.
Qed.

Lemma C7_provisioning_witness :
  let NEW := mk_new_user 7 (Some [("full_name", Some "New Hire");
                                  ("role", Some "faculty")]) in
  exists d' p,
    on_auth_user_created Scenario.base NEW = Ok d'
    /\ profiles_of d' 7 = [p]
    /\ p_role p = faculty
    /\ p_department p = Some "CSE".
Proof.
  intros NEW.
  destruct (C7_provisioning Scenario.base NEW eq_refl eq_refl eq_refl eq_refl)
    as [d' [p [H1 [_ [H3 [_ [H5 [_ [_ H8]]]]]]]]].
  exists d', p. split; [exact H1|]. split; [exact H3|]. split.
  - specialize (H5 "faculty" eq_refl). destruct (p_role p);
      [discriminate|reflexivity|discriminate].
  - apply H8. reflexivity.
Defined.

(* ===================================================================== *)
(** ** The execute-code proxy *)
(* ===================================================================== *)

Section Proxy.

Import ExecuteCode.

Variable piston : piston_request -> exception + piston_json.

(** C8, at the failing input.  The tag "constructor" is not one of the
    supported languages, yet [LANGUAGE_MAP["constructor"]] is the inherited
    [Object.prototype.constructor], which is truthy: the request is
    forwarded to the sandbox (with neither language nor version) and the
    response is not a 400. *)
Theorem C8_inherited_property_is_forwarded :
  let req := mk_request "POST"
               (BodyObject [("code", JStr "print(1)");
                            ("language", JStr "constructor")]) in
  supported "constructor" = false
  /\ snd (serve piston req)
     = [mk_piston_request None None "main" (JStr "print(1)") (JStr "")
                          10000 10000]
  /\ status (fst (serve piston req)) <> 400.
Proof.
  intros req. split; [reflexivity|].
  unfold req, serve. cbn.
  destruct (piston _) as [e|[|reply|]]; cbn; split;
    (reflexivity || discriminate).
Qed.

(** What does hold: a request without truthy [code] and [language] is
    answered 400 and not forwarded ... *)
Lemma serve_missing_field (m : string) (fields : list (string * jsval)) :
  String.eqb m "OPTIONS" = false ->
  truthy (get_field fields "code") = false
  \/ truthy (get_field fields "language") = false ->
  serve piston (mk_request m (BodyObject fields))
  = (mk_response 400 (ErrorMessage "Code and language are required"), []).
Proof.
  intros Hm H. unfold serve. cbn [method req_body]. rewrite Hm.
  destruct H as [-> | ->]; [reflexivity|].
  rewrite orb_true_r. reflexivity.
Qed.

(** ... so is a tag that is neither a key of the table nor a property name
    of [Object.prototype] ... *)
Lemma serve_unknown_tag (m : string) (fields : list (string * jsval))
  (tag : string) :
  String.eqb m "OPTIONS" = false ->
  truthy (get_field fields "code") = true ->
  get_field fields "language" = JStr tag ->
  tag <> "" ->
  LANGUAGE_MAP_get (toLowerCase tag) = Absent ->
  serve piston (mk_request m (BodyObject fields))
  = (mk_response 400 (ErrorMessage ("Unsupported language: " ++ tag)), []).
Proof.
  intros Hm Hc Hl Ht Hget. unfold serve. cbn [method req_body].
  rewrite Hm, Hc, Hl. cbn [truthy negb orb].
  apply String.eqb_neq in Ht. rewrite Ht. cbn [negb].
  rewrite Hget. reflexivity.
Qed.

(** ... and whatever is forwarded had a truthy [code] and a string tag that
    is a key of the table or a property name of [Object.prototype]. *)
Lemma forwarded_only_if (req : request) :
  forwarded piston req = true ->
  exists fields tag,
    req_body req = BodyObject fields
    /\ truthy (get_field fields "code") = true
    /\ get_field fields "language" = JStr tag
    /\ (supported tag = true
        \/ In (toLowerCase tag) Object_prototype).
Proof.
  unfold forwarded, serve.
  destruct (String.eqb (method req) "OPTIONS"); [discriminate|].
  destruct (req_body req) as [| |fields|] eqn:Eb; try discriminate.
  - destruct (truthy (get_field fields "code")) eqn:Ec; [|discriminate].
    destruct (get_field fields "language") as [| | | |tag|] eqn:El;
      try discriminate;
      try (cbn [truthy negb orb];
           match goal with
           | |- context [if ?c then _ else _] => destruct c; discriminate
           end).
    cbn [truthy negb orb].
    destruct (negb (String.eqb tag "")); [|discriminate]. cbn [negb].
    intros H. exists fields, tag.
    split; [reflexivity|]. split; [exact Ec|]. split; [exact El|].
    unfold supported. unfold LANGUAGE_MAP_get in H.
    destruct (find _ LANGUAGE_MAP) as [[k cfg]|] eqn:Ef.
    + left. apply find_some in Ef. apply existsb_exists.
      exists (k, cfg). exact Ef.
    + right.
      destruct (existsb (String.eqb (toLowerCase tag)) Object_prototype)
        eqn:Eo; [|discriminate].
      apply existsb_exists in Eo. destruct Eo as [x [Hx Ex]].
      apply String.eqb_eq in Ex. subst. exact Hx.
Qed.

End Proxy.

(* ===================================================================== *)
(** ** Cascading deletes and referential integrity *)
(* ===================================================================== *)

Lemma forallb_and {A : Type} (f g : A -> bool) (l : list A) :
  forallb (fun x => f x && g x) l = true
  <-> (forall x, In x l -> f x = true) /\ (forall x, In x l -> g x = true).
Proof.
  rewrite forallb_forall. split.
  - intros H. split; intros x Hx; specialize (H x Hx);
      apply andb_true_iff in H; tauto.
  - intros [H1 H2] x Hx. rewrite (H1 x Hx), (H2 x Hx). reflexivity.
Qed.

Lemma ref_integrity_RI (d : db) : ref_integrity d = true <-> RI d.
Proof.
  unfold ref_integrity, RI.
  rewrite !andb_true_iff, !forallb_and, !forallb_forall. tauto.
Qed.

(** A child row that the cascade left in place still has its parent. *)
Lemma parent_survives {P : Type} (pk : P -> uuid) (del : P -> bool)
  (ps : list P) (k : uuid) :
  mem k (map pk ps) = true ->
  mem k (map pk (filter del ps)) = false ->
  mem k (map pk (filter (fun p => negb (del p)) ps)) = true.
Proof.
  intros Hin Hgone. apply mem_map_In in Hin. destruct Hin as [p [Hp E]].
  apply mem_map_In. exists p. split; [|exact E].
  apply filter_In. split; [exact Hp|].
  destruct (del p) eqn:Ed; [|reflexivity].
  assert (mem k (map pk (filter del ps)) = true).
  { apply mem_map_In. exists p. split; [|exact E]. apply filter_In. auto. }
  congruence.
Qed.

Lemma user_survives (del : uuid -> bool) (us : list uuid) (k : uuid) :
  mem k us = true ->
  mem k (filter del us) = false ->
  mem k (filter (fun u => negb (del u)) us) = true.
Proof.
  intros Hin Hgone. apply mem_In in Hin. apply mem_In.
  apply filter_In. split; [exact Hin|].
  destruct (del k) eqn:Ed; [|reflexivity].
  assert (mem k (filter del us) = true)
    by (apply mem_In; apply filter_In; auto).
  congruence.
Qed.

(** The tables after each delete, spelled out. *)

Lemma delete_evaluations_tables (P : evaluation -> bool) (d : db) :
  let d' := delete_evaluations_where P d in
  auth_users d' = auth_users d /\ profiles d' = profiles d
  /\ subjects d' = subjects d /\ experiments d' = experiments d
  /\ student_subjects d' = student_subjects d
  /\ faculty_subjects d' = faculty_subjects d
  /\ experiment_submissions d' = experiment_submissions d
  /\ evaluations d' = filter (fun ev => negb (P ev)) (evaluations d).
Proof. repeat split. Qed.

Lemma delete_submissions_tables (P : submission -> bool) (d : db) :
  let d' := delete_submissions_where P d in
  auth_users d' = auth_users d /\ profiles d' = profiles d
  /\ subjects d' = subjects d /\ experiments d' = experiments d
  /\ student_subjects d' = student_subjects d
  /\ faculty_subjects d' = faculty_subjects d
  /\ experiment_submissions d'
     = filter (fun es => negb (P es)) (experiment_submissions d)
  /\ evaluations d'
     = filter (fun ev => negb (mem (ev_submission_id ev)
                 (map es_id (filter P (experiment_submissions d)))))
              (evaluations d).
Proof. repeat split. Qed.

Lemma delete_experiments_tables (P : experiment -> bool) (d : db) :
  let d' := delete_experiments_where P d in
  let gone_e := map ex_id (filter P (experiments d)) in
  let gone_es :=
    map es_id (filter (fun es => mem (es_experiment_id es) gone_e)
                      (experiment_submissions d)) in
  auth_users d' = auth_users d /\ profiles d' = profiles d
  /\ subjects d' = subjects d
  /\ experiments d' = filter (fun e => negb (P e)) (experiments d)
  /\ student_subjects d' = student_subjects d
  /\ faculty_subjects d' = faculty_subjects d
  /\ experiment_submissions d'
     = filter (fun es => negb (mem (es_experiment_id es) gone_e))
              (experiment_submissions d)
  /\ evaluations d'
     = filter (fun ev => negb (mem (ev_submission_id ev) gone_es))
              (evaluations d).
Proof. repeat split. Qed.

Lemma delete_subjects_tables (P : subject -> bool) (d : db) :
  let d' := delete_subjects_where P d in
  let gone_s := map sj_id (filter P (subjects d)) in
  let gone_e :=
    map ex_id (filter (fun e => mem (ex_subject_id e) gone_s)
                      (experiments d)) in
  let gone_es :=
    map es_id (filter (fun es => mem (es_experiment_id es) gone_e)
                      (experiment_submissions d)) in
  auth_users d' = auth_users d /\ profiles d' = profiles d
  /\ subjects d' = filter (fun s => negb (P s)) (subjects d)
  /\ experiments d'
     = filter (fun e => negb (mem (ex_subject_id e) gone_s)) (experiments d)
  /\ student_subjects d'
     = filter (fun ss => negb (mem (ss_subject_id ss) gone_s))
              (student_subjects d)
  /\ faculty_subjects d'
     = filter (fun fs => negb (mem (fs_subject_id fs) gone_s))
              (faculty_subjects d)
  /\ experiment_submissions d'
     = filter (fun es => negb (mem (es_experiment_id es) gone_e))
              (experiment_submissions d)
  /\ evaluations d'
     = filter (fun ev => negb (mem (ev_submission_id ev) gone_es))
              (evaluations d).
Proof. repeat split. Qed.

Lemma delete_student_subjects_tables (P : student_subject -> bool) (d : db) :
  let d' := delete_student_subjects_where P d in
  auth_users d' = auth_users d /\ profiles d' = profiles d
  /\ subjects d' = subjects d /\ experiments d' = experiments d
  /\ student_subjects d'
     = filter (fun ss => negb (P ss)) (student_subjects d)
  /\ faculty_subjects d' = faculty_subjects d
  /\ experiment_submissions d' = experiment_submissions d
  /\ evaluations d' = evaluations d.
Proof. repeat split. Qed.

Lemma delete_faculty_subjects_tables (P : faculty_subject -> bool) (d : db) :
  let d' := delete_faculty_subjects_where P d in
  auth_users d' = auth_users d /\ profiles d' = profiles d
  /\ subjects d' = subjects d /\ experiments d' = experiments d
  /\ student_subjects d' = student_subjects d
  /\ faculty_subjects d'
     = filter (fun fs => negb (P fs)) (faculty_subjects d)
  /\ experiment_submissions d' = experiment_submissions d
  /\ evaluations d' = evaluations d.
Proof. repeat split. Qed.

Lemma delete_profiles_tables (P : profile -> bool) (d : db) :
  let d' := delete_profiles_where P d in
  auth_users d' = auth_users d
  /\ profiles d' = filter (fun p => negb (P p)) (profiles d)
  /\ subjects d' = subjects d /\ experiments d' = experiments d
  /\ student_subjects d' = student_subjects d
  /\ faculty_subjects d' = faculty_subjects d
  /\ experiment_submissions d' = experiment_submissions d
  /\ evaluations d' = evaluations d.
Proof. repeat split. Qed.

Lemma delete_users_tables (P : uuid -> bool) (d : db) :
  let d' := delete_users_where P d in
  let gone := filter P (auth_users d) in
  let gone_es :=
    map es_id (filter (fun es => mem (es_student_id es) gone)
                      (experiment_submissions d)) in
  auth_users d' = filter (fun u => negb (P u)) (auth_users d)
  /\ profiles d'
     = filter (fun p => negb (mem (p_id p) gone)) (profiles d)
  /\ subjects d' = subjects d /\ experiments d' = experiments d
  /\ student_subjects d'
     = filter (fun ss => negb (mem (ss_student_id ss) gone))
              (student_subjects d)
  /\ faculty_subjects d'
     = filter (fun fs => negb (mem (fs_faculty_id fs) gone))
              (faculty_subjects d)
  /\ experiment_submissions d'
     = filter (fun es => negb (mem (es_student_id es) gone))
              (experiment_submissions d)
  /\ evaluations d'
     = filter (fun ev => negb (mem (ev_faculty_id ev) gone))
         (filter (fun ev => negb (mem (ev_submission_id ev) gone_es))
                 (evaluations d)).
Proof. repeat split. Qed.

Ltac surviving_row :=
  let x := fresh "x" in
  let Hx := fresh "Hx" in
  intros x Hx;
  repeat match type of Hx with
  | In _ (filter _ _) =>
      let H := fresh "Hkeep" in
      apply filter_In in Hx; destruct Hx as [Hx H];
      apply negb_true_iff in H
  end;
  first [ solve [auto]
        | apply parent_survives; solve [auto]
        | apply user_survives; solve [auto] ].

(** With the tables of [d'] given by the eight equations [T], referential
    integrity of [d] carries over to [d']. *)
Ltac carry_RI T :=
  let d' := fresh "d'" in
  cbv zeta in T;
  match type of T with
  | auth_users ?x = _ /\ _ => set (d' := x) in *
  end;
  destruct T as [T1 [T2 [T3 [T4 [T5 [T6 [T7 T8]]]]]]];
  unfold RI; rewrite T1, T2, T3, T4, T5, T6, T7, T8;
  repeat split; surviving_row.

Lemma run_delete_RI (op : delete_op) (d : db) : RI d -> RI (run_delete op d).
Proof.
  intros [R1 [R2 [R3 [R4 [R5 [R6 [R7 [R8 [R9 R10]]]]]]]]].
  destruct op; unfold run_delete.
  - pose proof (delete_users_tables P d) as T. carry_RI T.
  - pose proof (delete_profiles_tables P d) as T. carry_RI T.
  - pose proof (delete_subjects_tables P d) as T. carry_RI T.
  - pose proof (delete_experiments_tables P d) as T. carry_RI T.
  - pose proof (delete_student_subjects_tables P d) as T. carry_RI T.
  - pose proof (delete_faculty_subjects_tables P d) as T. carry_RI T.
  - pose proof (delete_submissions_tables P d) as T. carry_RI T.
  - pose proof (delete_evaluations_tables P d) as T. carry_RI T.
Qed.

(** ** Evaluation insert and an unresolved chain *)

Lemma chain_unresolved_no_submission (d : db) (sid : uuid) :
  ref_integrity d = true -> chain_subjects d sid = [] ->
  mem sid (map es_id (experiment_submissions d)) = false.
Proof.
  intros Hri Hchain. apply ref_integrity_RI in Hri.
  destruct Hri as [_ [_ [_ [_ [_ [_ [R7 _]]]]]]].
  destruct (mem sid (map es_id (experiment_submissions d))) eqn:E;
    [|reflexivity].
  apply mem_map_In in E. destruct E as [es [Hes E]].
  specialize (R7 es Hes). apply mem_map_In in R7. destruct R7 as [e [He Ee]].
  assert (In (ex_subject_id e) (chain_subjects d sid)) as Hin.
  { unfold chain_subjects. apply in_flat_map. exists es. split.
    - apply filter_In. split; [exact Hes|]. apply Nat.eqb_eq. exact E.
    - apply in_map. apply filter_In. split; [exact He|].
      apply Nat.eqb_eq. exact Ee. }
  rewrite Hchain in Hin. destruct Hin.
Qed.

(** C1.  Inserting an evaluation is authorized exactly when the caller is an
    admin, or is the evaluation's named faculty and holds an Assignment edge
    to a subject reached by resolving the chain
    Evaluation -> Submission -> Experiment -> Subject.  When the chain cannot
    be resolved the insert is denied: the policy refuses every caller who is
    not an admin, and in a store whose foreign keys hold the INSERT fails
    for every caller, the admin included. *)
Theorem C1_evaluation_insert_resolves_chain
  (d : db) (uid : uuid) (ev : evaluation) :
  Authorize d uid INSERT (REvaluation ev)
  = is_admin d uid
    || (Nat.eqb (ev_faculty_id ev) uid
        && existsb (is_faculty_for_subject d uid)
                   (chain_subjects d (ev_submission_id ev)))
  /\ (is_admin d uid = false ->
      chain_subjects d (ev_submission_id ev) = [] ->
      Authorize d uid INSERT (REvaluation ev) = false)
  /\ (ref_integrity d = true ->
      chain_subjects d (ev_submission_id ev) = [] ->
      exists e, insert_evaluation d uid ev = Err e).
Proof.
  rewrite Authorize_insert_evaluation, evaluations_insert_plain.
  split; [reflexivity|]. split.
  - intros Hadm Hchain. rewrite Hadm, Hchain. simpl. apply andb_false_r.
  - intros Hri Hchain.
    pose proof (chain_unresolved_no_submission d _ Hri Hchain) as Hfk.
    unfold insert_evaluation. rewrite Hfk. cbn [andb negb].
    repeat match goal with
    | |- exists e, (if ?c then _ else _) = _ => destruct c; [eauto|]
    end.
    eauto.
Qed.

Lemma C1_evaluation_insert_resolves_chain_witness :
  let ev := mk_evaluation 60 999 Scenario.fac1 (Some 50%Z) (Some "late") in
  (is_admin Scenario.base Scenario.fac1 = false
   /\ chain_subjects Scenario.base (ev_submission_id ev) = []
   /\ Authorize Scenario.base Scenario.fac1 INSERT (REvaluation ev) = false)
  /\ (ref_integrity Scenario.base = true
      /\ exists e, insert_evaluation Scenario.base Scenario.adm
                     (mk_evaluation 60 999 Scenario.adm (Some 50%Z)
                                    (Some "late")) = Err e).
Proof.
  intros ev. split.
  - split; [reflexivity|]. split; [reflexivity|].
    apply (proj1 (proj2 (C1_evaluation_insert_resolves_chain
                           Scenario.base Scenario.fac1 ev))); reflexivity.
  - split; [reflexivity|].
    apply (proj2 (proj2 (C1_evaluation_insert_resolves_chain
                           Scenario.base Scenario.adm
                           (mk_evaluation 60 999 Scenario.adm (Some 50%Z)
                                          (Some "late"))))); reflexivity.
Defined.

(** For an admin the policy does not look at the chain: with a submission
    key that resolves to nothing the policy passes, and it is the foreign
    key on [submission_id] that refuses the row. *)
Lemma admin_insert_with_unresolved_chain :
  let ev := mk_evaluation 60 999 Scenario.adm (Some 50%Z) (Some "late") in
  chain_subjects Scenario.base (ev_submission_id ev) = []
  /\ Authorize Scenario.base Scenario.adm INSERT (REvaluation ev) = true
  /\ insert_evaluation Scenario.base Scenario.adm ev = Err ForeignKeyViolation.
Proof. repeat split. Qed.

(** ** Deleting a subject *)

Lemma gone_subject (d : db) (id : uuid) :
  mem id (map sj_id (subjects d)) = true ->
  mem id (map sj_id (filter (fun s => Nat.eqb (sj_id s) id) (subjects d)))
  = true.
Proof.
  intros H. apply mem_map_In in H. destruct H as [s [Hs E]].
  apply mem_map_In. exists s. split; [|exact E].
  apply filter_In. split; [exact Hs|]. apply Nat.eqb_eq. exact E.
Qed.

Lemma not_in_filter {A : Type} (f : A -> bool) (l : list A) (x : A) :
  f x = false -> ~ In x (filter f l).
Proof. intros H Hin. apply filter_In in Hin. destruct Hin. congruence. Qed.

(** Rows that do not hang under the deleted subject are left alone. *)
Lemma delete_subject_keeps_other_experiments (d : db) (id : uuid)
  (e : experiment) :
  In e (experiments d) -> ex_subject_id e <> id ->
  In e (experiments (delete_subject id d)).
Proof.
  intros He Hne. unfold delete_subject.
  destruct (delete_subjects_tables (fun s => Nat.eqb (sj_id s) id) d)
    as [_ [_ [_ [T4 _]]]].
  rewrite T4. apply filter_In. split; [exact He|]. apply negb_true_iff.
  destruct (mem (ex_subject_id e) _) eqn:E; [|reflexivity].
  apply mem_map_In in E. destruct E as [s [Hs E]].
  apply filter_In in Hs. destruct Hs as [_ Hs]. apply Nat.eqb_eq in Hs.
  congruence.
Qed.

(** C10.  Deleting an existing subject removes it, every experiment it
    owns, every submission under those experiments, every evaluation under
    those submissions and every enrollment and assignment edge that
    references it; and a delete on any table, with its cascades, leaves no
    row referencing a missing parent. *)
Theorem C10_subject_delete_cascades (d : db) (id : uuid) :
  mem id (map sj_id (subjects d)) = true ->
  let d' := delete_subject id d in
  (forall s, In s (subjects d') -> sj_id s <> id)
  /\ (forall e, ex_subject_id e = id -> ~ In e (experiments d'))
  /\ (forall e es,
        In e (experiments d) -> ex_subject_id e = id ->
        es_experiment_id es = ex_id e -> ~ In es (experiment_submissions d'))
  /\ (forall e es ev,
        In e (experiments d) -> ex_subject_id e = id ->
        In es (experiment_submissions d) -> es_experiment_id es = ex_id e ->
        ev_submission_id ev = es_id es -> ~ In ev (evaluations d'))
  /\ (forall ss, ss_subject_id ss = id -> ~ In ss (student_subjects d'))
  /\ (forall fs, fs_subject_id fs = id -> ~ In fs (faculty_subjects d'))
  /\ (ref_integrity d = true ->
      ref_integrity d' = true
      /\ forall op : delete_op, ref_integrity (run_delete op d) = true).
Proof.
  intros Hex d'. pose proof (gone_subject d id Hex) as Hgone.
  assert (forall e, In e (experiments d) -> ex_subject_id e = id ->
            mem (ex_id e)
              (map ex_id
                 (filter (fun e0 => mem (ex_subject_id e0)
                     (map sj_id (filter (fun s => Nat.eqb (sj_id s) id)
                                        (subjects d))))
                   (experiments d))) = true) as Hexp.
  { intros e He E. apply mem_map_In. exists e. split; [|reflexivity].
    apply filter_In. split; [exact He|]. rewrite E. exact Hgone. }
  unfold d', delete_subject.
  destruct (delete_subjects_tables (fun s => Nat.eqb (sj_id s) id) d)
    as [_ [_ [T3 [T4 [T5 [T6 [T7 T8]]]]]]].
  rewrite T3, T4, T5, T6, T7, T8.
  split; [|split; [|split; [|split; [|split; [|split]]]]].
  - intros s Hs E. apply filter_In in Hs. destruct Hs as [_ Hs].
    apply Nat.eqb_eq in E. rewrite E in Hs. discriminate.
  - intros e E. apply not_in_filter. rewrite E, Hgone. reflexivity.
  - intros e es He E Ees. apply not_in_filter.
    rewrite Ees, (Hexp e He E). reflexivity.
  - intros e es ev He E Hes Ees Eev. apply not_in_filter.
    apply negb_false_iff. apply mem_map_In. exists es.
    split; [|symmetry; exact Eev].
    apply filter_In. split; [exact Hes|]. rewrite Ees. exact (Hexp e He E).
  - intros ss E. apply not_in_filter. rewrite E, Hgone. reflexivity.
  - intros fs E. apply not_in_filter. rewrite E, Hgone. reflexivity.
  - intros Hri. apply ref_integrity_RI in Hri. split.
    + apply ref_integrity_RI.
      exact (run_delete_RI
               (DeleteSubjects (fun s => Nat.eqb (sj_id s) id)) d Hri).
    + intros op. apply ref_integrity_RI. apply run_delete_RI. exact Hri.
Qed.

Lemma C10_subject_delete_cascades_witness :
  mem 10 (map sj_id (subjects Scenario.graded_by_fac1)) = true
  /\ ref_integrity Scenario.graded_by_fac1 = true
  /\ ref_integrity (delete_subject 10 Scenario.graded_by_fac1) = true
  /\ ~ In Scenario.exp1
          (experiments (delete_subject 10 Scenario.graded_by_fac1)).
Proof.
  split; [reflexivity|]. split; [reflexivity|].
  destruct (C10_subject_delete_cascades Scenario.graded_by_fac1 10 eq_refl)
    as [_ [H2 [_ [_ [_ [_ H7]]]]]].
  split.
  - exact (proj1 (H7 eq_refl)).
  - apply H2. reflexivity.
Defined.

(** The cascade on the scenario store: deleting subject 10 takes the
    experiment, the submission, the evaluation and both edges with it, and
    leaves subject 11 with its experiment and its assignment. *)
Lemma delete_subject_scenario :
  delete_subject 10 Scenario.graded_by_fac1
  = mk_db (auth_users Scenario.base) (profiles Scenario.base)
          [Scenario.CS102] [Scenario.exp2] []
          [mk_faculty_subject 41 Scenario.fac2 11] [] [].
Proof. reflexivity. Qed.

(* ===================================================================== *)
(** * Further properties of the policies, the pages and the proxy *)
(* ===================================================================== *)

(** ** Who sees a submission *)

(** X1.  A submission is visible to the admin, to the student who owns it,
    and to a caller who holds an Assignment edge to the subject of an
    experiment row the submission points to; to nobody else, whatever other
    subjects the caller is assigned to. *)
Theorem submission_select_by_assignment
  (d : db) (uid : uuid) (es : submission) :
  Authorize d uid SELECT (RSubmission es) = true
  <-> is_admin d uid = true
      \/ es_student_id es = uid
      \/ exists e fs,
           In e (experiments d) /\ In fs (faculty_subjects d)
           /\ ex_id e = es_experiment_id es
           /\ fs_subject_id fs = ex_subject_id e
           /\ fs_faculty_id fs = uid.
Proof.
  rewrite Authorize_select_submission, submissions_select_plain.
  rewrite !orb_true_iff, Nat.eqb_eq, existsb_exists. split.
  - intros [[H|H]|[e [He H]]]; [tauto|tauto|].
    right. right. apply andb_true_iff in H. destruct H as [H1 H2].
    apply Nat.eqb_eq in H1. apply is_faculty_for_subject_iff in H2.
    destruct H2 as [fs [Hfs [F1 F2]]]. exists e, fs. auto.
  - intros [H|[H|[e [fs [He [Hfs [E1 [E2 E3]]]]]]]]; [tauto|tauto|].
    right. exists e. split; [exact He|].
    rewrite E1, Nat.eqb_refl. simpl.
    apply is_faculty_for_subject_iff. exists fs. auto.
Qed.

(** ** Enrollment edges grant nothing *)

(** X2.  No policy consults the Enrollment table: replacing it by any other
    list of edges changes no authorization decision, and whether a
    submission insert goes through does not depend on it.  In particular a
    student can submit for an experiment of a subject they are not enrolled
    in. *)
Theorem enrollment_grants_nothing
  (d : db) (edges : list student_subject) (uid : uuid) :
  (forall (c : command) (r : row),
      Authorize (set_student_subjects d edges) uid c r = Authorize d uid c r)
  /\ (forall es : submission,
        is_ok (insert_submission (set_student_subjects d edges) uid es)
        = is_ok (insert_submission d uid es)).
Proof.
  assert (forall (c : command) (r : row),
            Authorize (set_student_subjects d edges) uid c r
            = Authorize d uid c r) as HA.
  { intros c r. destruct r, c; reflexivity. }
  split; [exact HA|].
  intros es. unfold insert_submission. rewrite HA.
  cbn [set_student_subjects experiment_submissions experiments auth_users].
  repeat match goal with
  | |- context [if ?c then _ else _] => destruct c; [reflexivity|]
  end.
  reflexivity.
Qed.

(** A student with no enrollment at all submits for an experiment. *)
Example unenrolled_student_submits :
  is_student_for_subject Scenario.base Scenario.stu2 10 = false
  /\ snd (submitCode Scenario.base (Some Scenario.stu2) (Some Scenario.exp1)
            "print(2)" "python" 51)
     = Success "Code submitted for evaluation!".
Proof. split; reflexivity. Qed.

(** ** Assignment edges: created once, effective at once *)

Lemma Authorize_insert_experiment (d : db) (uid : uuid) (e : experiment) :
  Authorize d uid INSERT (RExperiment e) = experiments_insert d uid e.
Proof. cbn. apply orb_false_r. Qed.

Lemma Authorize_update_experiment (d : db) (uid : uuid) (e : experiment) :
  Authorize d uid UPDATE (RExperiment e) = experiments_update d uid e.
Proof. cbn. apply orb_false_r. Qed.

Lemma Authorize_insert_faculty_subject (d : db) (uid : uuid)
  (fs : faculty_subject) :
  Authorize d uid INSERT (RFacultySubject fs) = is_admin d uid.
Proof. cbn. apply orb_false_r. Qed.

Lemma Authorize_delete_faculty_subject (d : db) (uid : uuid)
  (fs : faculty_subject) :
  Authorize d uid DELETE (RFacultySubject fs) = is_admin d uid.
Proof. cbn. apply orb_false_r. Qed.

Lemma Authorize_select_faculty_subject (d : db) (uid : uuid)
  (fs : faculty_subject) :
  Authorize d uid SELECT (RFacultySubject fs)
  = faculty_subjects_select d uid fs.
Proof. cbn. apply orb_false_r. Qed.

Lemma insert_faculty_subject_rows (d d' : db) (uid : uuid)
  (fs : faculty_subject) :
  insert_faculty_subject d uid fs = Ok d' ->
  d' = set_faculty_subjects d (faculty_subjects d ++ [fs])
  /\ is_admin d uid = true
  /\ is_faculty_for_subject d (fs_faculty_id fs) (fs_subject_id fs) = false
  /\ mem (fs_faculty_id fs) (auth_users d) = true
  /\ mem (fs_subject_id fs) (map sj_id (subjects d)) = true.
Proof.
  unfold insert_faculty_subject. rewrite Authorize_insert_faculty_subject.
  intros H.
  destruct (is_admin d uid); [|discriminate]. cbn [negb] in H.
  destruct (mem (fs_id fs) _); [discriminate|].
  destruct (existsb _ (faculty_subjects d)) eqn:Edup; [discriminate|].
  destruct (mem (fs_faculty_id fs) (auth_users d)); [|discriminate].
  destruct (mem (fs_subject_id fs) _); [|discriminate].
  inversion H. repeat split. exact Edup.
Qed.

Lemma handleAssign_assigned (d d' : db) (uid : uuid)
  (f s : option uuid) (new_id : uuid) :
  handleAssign d uid f s new_id = (d', Assigned) ->
  exists f' s',
    f = Some f' /\ s = Some s'
    /\ insert_faculty_subject d uid (mk_faculty_subject new_id f' s') = Ok d'.
Proof.
  unfold handleAssign. destruct f as [f'|]; [|discriminate].
  destruct s as [s'|]; [|discriminate].
  destruct (insert_faculty_subject _ _ _) as [d1|e] eqn:E.
  - intros H. inversion H. subst. eauto.
  - destruct e; discriminate.
Qed.

(** When the admin removes an edge by key, the edge is gone and the others
    stay. *)
Lemma handleRemove_by_admin (d : db) (uid id : uuid) :
  is_admin d uid = true ->
  faculty_subjects (handleRemove d uid id)
  = filter (fun fs => negb (Nat.eqb (fs_id fs) id)) (faculty_subjects d)
  /\ profiles (handleRemove d uid id) = profiles d.
Proof.
  intros Hadm. split; [|reflexivity].
  unfold handleRemove, api_delete_faculty_subjects,
    delete_faculty_subjects_where. cbn [faculty_subjects].
  apply filter_ext. intros fs.
  rewrite Authorize_select_faculty_subject, Authorize_delete_faculty_subject.
  unfold faculty_subjects_select. rewrite Hadm. simpl.
  rewrite !andb_true_r. reflexivity.
Qed.

(** X3.  Once the admin has assigned a faculty member (who is not an admin)
    to a subject, that member may create and edit the subject's experiments
    and insert evaluations, under their own name, for submissions to them;
    before the assignment they could not, and after the admin removes the
    edge they cannot any more: the policies read the edge on every call. *)
Theorem assignment_effective_at_once
  (d d' : db) (uid f s new_id : uuid) :
  handleAssign d uid (Some f) (Some s) new_id = (d', Assigned) ->
  is_admin d f = false ->
  (forall e, ex_subject_id e = s ->
     Authorize d f INSERT (RExperiment e) = false)
  /\ (forall e, ex_subject_id e = s ->
        Authorize d' f INSERT (RExperiment e) = true
        /\ Authorize d' f UPDATE (RExperiment e) = true)
  /\ (forall e es ev,
        In e (experiments d) -> ex_subject_id e = s ->
        In es (experiment_submissions d) -> es_experiment_id es = ex_id e ->
        ev_submission_id ev = es_id es -> ev_faculty_id ev = f ->
        Authorize d' f INSERT (REvaluation ev) = true)
  /\ (forall e, ex_subject_id e = s ->
        Authorize (handleRemove d' uid new_id) f INSERT (RExperiment e)
        = false).
Proof.
  intros H Hf. apply handleAssign_assigned in H.
  destruct H as [f' [s' [Ef [Es H]]]]. inversion Ef. inversion Es. subst f' s'.
  apply insert_faculty_subject_rows in H.
  destruct H as [-> [Hadm [Hnone _]]]. cbn [fs_faculty_id fs_subject_id] in Hnone.
  assert (is_faculty_for_subject
            (set_faculty_subjects d
               (faculty_subjects d ++ [mk_faculty_subject new_id f s])) f s
          = true) as Hnow.
  { unfold is_faculty_for_subject. cbn [faculty_subjects set_faculty_subjects].
    rewrite existsb_app. simpl. rewrite !Nat.eqb_refl. apply orb_true_r. }
  split; [|split; [|split]].
  - intros e E. rewrite Authorize_insert_experiment.
    unfold experiments_insert. rewrite Hf, E, Hnone. reflexivity.
  - intros e E.
    rewrite Authorize_insert_experiment, Authorize_update_experiment.
    unfold experiments_insert, experiments_update. rewrite E, Hnow.
    split; apply orb_true_r.
  - intros e es ev He E Hes Ees Eev Efac.
    apply evaluation_insert_rows. right. split; [exact Efac|].
    exists es, e, (mk_faculty_subject new_id f s).
    cbn [experiment_submissions experiments faculty_subjects
         set_faculty_subjects fs_subject_id fs_faculty_id].
    repeat split; auto.
    apply in_or_app. right. left. reflexivity.
  - intros e E.
    destruct (handleRemove_by_admin
                (set_faculty_subjects d
                   (faculty_subjects d ++ [mk_faculty_subject new_id f s]))
                uid new_id Hadm) as [Hrows Hprof].
    rewrite Authorize_insert_experiment. unfold experiments_insert.
    unfold is_admin, is_faculty_for_subject. rewrite Hrows, Hprof.
    cbn [profiles faculty_subjects set_faculty_subjects].
    fold (is_admin d f). rewrite Hf. cbn [orb].
    rewrite existsb_filter. apply existsb_false_iff. intros fs Hfs.
    apply in_app_or in Hfs. destruct Hfs as [Hfs|[<-|[]]].
    + unfold is_faculty_for_subject in Hnone. rewrite E.
      rewrite (proj1 (existsb_false_iff _ _) Hnone fs Hfs).
      apply andb_false_r.
    + cbn [fs_id]. rewrite Nat.eqb_refl. reflexivity.
Qed.

Lemma assignment_effective_at_once_witness :
  let d' := fst (handleAssign Scenario.base Scenario.adm (Some Scenario.fac2)
                   (Some 10) 43) in
  Authorize Scenario.base Scenario.fac2 INSERT
    (RExperiment (mk_experiment 22 10 "Loops" None None)) = false
  /\ Authorize d' Scenario.fac2 INSERT
       (RExperiment (mk_experiment 22 10 "Loops" None None)) = true
  /\ Authorize (handleRemove d' Scenario.adm 43) Scenario.fac2 INSERT
       (RExperiment (mk_experiment 22 10 "Loops" None None)) = false.
Proof.
  intros d'.
  destruct (assignment_effective_at_once Scenario.base d' Scenario.adm
              Scenario.fac2 10 43 eq_refl eq_refl) as [H1 [H2 [_ H4]]].
  split; [exact (H1 (mk_experiment 22 10 "Loops" None None) eq_refl)|].
  split.
  - exact (proj1 (H2 (mk_experiment 22 10 "Loops" None None) eq_refl)).
  - exact (H4 (mk_experiment 22 10 "Loops" None None) eq_refl).
Defined.

(** X4.  An Assignment edge is created once: after a successful assignment
    of a faculty member to a subject, assigning the same pair again, under
    any key, is answered "Already assigned" and leaves the store as it
    is. *)
Theorem assignment_created_once
  (d d' : db) (uid f s id1 id2 : uuid) :
  handleAssign d uid (Some f) (Some s) id1 = (d', Assigned) ->
  handleAssign d' uid (Some f) (Some s) id2 = (d', AlreadyAssigned)
  /\ List.length
       (filter (fun fs => Nat.eqb (fs_faculty_id fs) f
                          && Nat.eqb (fs_subject_id fs) s)
               (faculty_subjects d')) = 1.
Proof.
  intros H. apply handleAssign_assigned in H.
  destruct H as [f' [s' [Ef [Es H]]]]. inversion Ef. inversion Es. subst f' s'.
  apply insert_faculty_subject_rows in H.
  destruct H as [-> [Hadm [Hnone _]]].
  cbn [fs_faculty_id fs_subject_id] in Hnone. split.
  - unfold handleAssign, insert_faculty_subject.
    rewrite Authorize_insert_faculty_subject.
    change (is_admin (set_faculty_subjects d _) uid) with (is_admin d uid).
    rewrite Hadm. cbn [negb].
    destruct (mem (fs_id (mk_faculty_subject id2 f s)) _); [reflexivity|].
    cbn [faculty_subjects set_faculty_subjects fs_faculty_id fs_subject_id].
    rewrite existsb_app. simpl. rewrite !Nat.eqb_refl, orb_true_r.
    reflexivity.
  - cbn [faculty_subjects set_faculty_subjects]. rewrite filter_app.
    unfold is_faculty_for_subject in Hnone.
    rewrite (filter_none _ (faculty_subjects d))
      by (apply existsb_false_iff; exact Hnone).
    simpl. rewrite !Nat.eqb_refl. reflexivity.
Qed.

Lemma assignment_created_once_witness :
  let d' := fst (handleAssign Scenario.base Scenario.adm (Some Scenario.fac2)
                   (Some 10) 43) in
  handleAssign d' Scenario.adm (Some Scenario.fac2) (Some 10) 44
  = (d', AlreadyAssigned).
Proof.
  intros d'.
  exact (proj1 (assignment_created_once Scenario.base d' Scenario.adm
                  Scenario.fac2 10 43 44 eq_refl)).
Defined.

(** ** Enrolling: the multi-row insert *)

Lemma Authorize_set_student_subjects (d : db) (edges : list student_subject)
  (uid : uuid) (c : command) (r : row) :
  Authorize (set_student_subjects d edges) uid c r = Authorize d uid c r.
Proof. destruct r, c; reflexivity. Qed.

(** What a multi-row insert that went through has done, and what it has
    checked on the way. *)
Lemma insert_student_subject_rows_ok (rows : list student_subject) :
  forall (d d' : db) (uid : uuid),
    insert_student_subject_rows d uid rows = Ok d' ->
    d' = set_student_subjects d (student_subjects d ++ rows)
    /\ (forall ss, In ss rows ->
          Authorize d uid INSERT (RStudentSubject ss) = true
          /\ existsb (same_pair ss) (student_subjects d) = false)
    /\ NoDup (map (fun ss => (ss_student_id ss, ss_subject_id ss)) rows).
Proof.
  induction rows as [|ss rest IH]; intros d d' uid H; simpl in H.
  - inversion H. subst. split.
    + rewrite app_nil_r. destruct d'; reflexivity.
    + split; [intros ss []|constructor].
  - destruct (Authorize d uid INSERT (RStudentSubject ss)) eqn:EA;
      [|discriminate]. cbn [negb] in H.
    destruct (mem (ss_id ss) _); [discriminate|].
    destruct (existsb _ (student_subjects d)) eqn:Edup; [discriminate|].
    apply IH in H. destruct H as [-> [Hrows Hnodup]].
    cbn [student_subjects set_student_subjects] in *.
    split; [|split].
    + unfold set_student_subjects. cbn. rewrite <- app_assoc. reflexivity.
    + intros x [<-|Hx]; [split; [exact EA|exact Edup]|].
      destruct (Hrows x Hx) as [HA Hd]. split.
      * rewrite Authorize_set_student_subjects in HA. exact HA.
      * rewrite existsb_app in Hd. apply orb_false_iff in Hd. tauto.
    + simpl. constructor; [|exact Hnodup].
      intros Hin. apply in_map_iff in Hin. destruct Hin as [x [Ex Hx]].
      destruct (Hrows x Hx) as [_ Hd]. rewrite existsb_app in Hd.
      apply orb_false_iff in Hd. destruct Hd as [_ Hd]. simpl in Hd.
      unfold same_pair in Hd. inversion Ex as [[E1 E2]].
      rewrite E1, E2, !Nat.eqb_refl in Hd. discriminate.
Qed.

Lemma insert_student_subjects_ok (d d' : db) (uid : uuid)
  (rows : list student_subject) :
  insert_student_subjects d uid rows = Ok d' ->
  d' = set_student_subjects d (student_subjects d ++ rows)
  /\ (forall ss, In ss rows ->
        Authorize d uid INSERT (RStudentSubject ss) = true
        /\ existsb (same_pair ss) (student_subjects d) = false
        /\ mem (ss_student_id ss) (auth_users d) = true
        /\ mem (ss_subject_id ss) (map sj_id (subjects d)) = true)
  /\ NoDup (map (fun ss => (ss_student_id ss, ss_subject_id ss)) rows).
Proof.
  unfold insert_student_subjects. intros H.
  destruct (insert_student_subject_rows d uid rows) as [d1|] eqn:E;
    [|discriminate].
  destruct (forallb _ rows) eqn:Efk; [|discriminate].
  inversion H. subst d1.
  apply insert_student_subject_rows_ok in E. destruct E as [E1 [E2 E3]].
  split; [exact E1|]. split; [|exact E3].
  intros ss Hss. destruct (E2 ss Hss) as [HA Hd].
  rewrite forallb_forall in Efk. specialize (Efk ss Hss).
  apply andb_true_iff in Efk. tauto.
Qed.

Lemma enrollment_rows_pairs (gen : nat -> uuid) (pairs : list (uuid * uuid)) :
  forall k,
    map (fun ss => (ss_student_id ss, ss_subject_id ss))
        (enrollment_rows gen k pairs) = pairs.
Proof.
  induction pairs as [|[a b] rest IH]; intros k; simpl; [reflexivity|].
  rewrite IH. reflexivity.
Qed.

Lemma enrollment_rows_In (gen : nat -> uuid) (pairs : list (uuid * uuid))
  (a b : uuid) :
  forall k, In (a, b) pairs ->
    exists ss, In ss (enrollment_rows gen k pairs)
               /\ ss_student_id ss = a /\ ss_subject_id ss = b.
Proof.
  induction pairs as [|[a' b'] rest IH]; intros k Hin; [destruct Hin|].
  simpl. destruct Hin as [E|Hin].
  - inversion E. subst. eexists. split; [left; reflexivity|]. auto.
  - destruct (IH (S k) Hin) as [ss [H1 H2]]. exists ss. auto.
Qed.

Lemma year_is_not_a_column (d : db) (u : uuid) (where_ : profile -> bool)
  (set : profile -> profile) :
  postgrest_update_profiles d u ["year"; "department"] where_ set
  = ApiErr (UnknownColumn "year").
Proof. reflexivity. Qed.

(** X5.  The enrollment page.  The profile update it sends first names a
    column [year] that [profiles] does not have, so it is refused and the
    department picked on the page is never saved.  The enrollment itself is
    one statement: when the page reports success, every selected subject
    has an Enrollment edge of the caller, in the order selected, and no two
    selected subjects were the same; when it does not, the store is left as
    it was. *)
Theorem enrollment_page_all_or_nothing
  (d : db) (u : uuid) (year department : string)
  (selectedSubjects : list uuid) (gen : nat -> uuid) :
  let r := SubjectEnrollment_handleSubmit d (Some u) year department
             selectedSubjects gen in
  profiles (fst r) = profiles d
  /\ (is_success (snd r) = false -> fst r = d)
  /\ (is_success (snd r) = true ->
      student_subjects (fst r)
      = (student_subjects d
         ++ enrollment_rows gen 0
              (map (fun s => (u, s)) selectedSubjects))%list
      /\ NoDup selectedSubjects
      /\ forall s, In s selectedSubjects ->
           is_student_for_subject d u s = false
           /\ is_student_for_subject (fst r) u s = true).
Proof.
  intros r. unfold r, SubjectEnrollment_handleSubmit.
  destruct selectedSubjects as [|s0 rest];
    [split; [reflexivity|split; [reflexivity|discriminate]]|].
  rewrite year_is_not_a_column.
  set (sel := s0 :: rest).
  destruct (insert_student_subjects d u _) as [d'|e] eqn:E;
    cbn [fst snd is_success];
    [|split; [reflexivity|split; [reflexivity|discriminate]]].
  apply insert_student_subjects_ok in E. destruct E as [-> [Hrows Hnodup]].
  split; [reflexivity|]. split; [discriminate|]. intros _.
  split; [reflexivity|]. split.
  - rewrite enrollment_rows_pairs in Hnodup.
    apply NoDup_map_inv in Hnodup. exact Hnodup.
  - intros s Hs.
    destruct (enrollment_rows_In gen (map (fun s => (u, s)) sel) u s 0)
      as [ss [Hss [E1 E2]]]; [apply in_map; exact Hs|].
    destruct (Hrows ss Hss) as [_ [Hd _]]. split.
    + unfold is_student_for_subject. unfold same_pair in Hd.
      rewrite E1, E2 in Hd. exact Hd.
    + unfold is_student_for_subject.
      cbn [student_subjects set_student_subjects].
      apply existsb_exists. exists ss. split.
      * apply in_or_app. right. exact Hss.
      * rewrite E1, E2, !Nat.eqb_refl. reflexivity.
Qed.

(** X6.  Enrolling again fails as a whole: when one of the selected
    subjects already has an Enrollment edge of the caller, the page reports
    a failure and none of the other selected subjects is enrolled either. *)
Theorem enrollment_page_conflict
  (d : db) (u : uuid) (year department : string)
  (selectedSubjects : list uuid) (gen : nat -> uuid) (s : uuid) :
  In s selectedSubjects ->
  is_student_for_subject d u s = true ->
  exists e,
    SubjectEnrollment_handleSubmit d (Some u) year department
      selectedSubjects gen = (d, Failed e).
Proof.
  intros Hs Hen.
  unfold SubjectEnrollment_handleSubmit.
  destruct selectedSubjects as [|s0 rest]; [destruct Hs|].
  rewrite year_is_not_a_column.
  destruct (insert_student_subjects d u _) as [d'|e] eqn:E; [|eauto].
  exfalso. apply insert_student_subjects_ok in E.
  destruct E as [_ [Hrows _]].
  destruct (enrollment_rows_In gen (map (fun x => (u, x)) (s0 :: rest)) u s 0)
    as [ss [Hss [E1 E2]]]; [apply in_map; exact Hs|].
  destruct (Hrows ss Hss) as [_ [Hd _]].
  unfold same_pair in Hd. rewrite E1, E2 in Hd.
  unfold is_student_for_subject in Hen. congruence.
Qed.

Lemma enrollment_page_all_or_nothing_witness :
  let r := SubjectEnrollment_handleSubmit Scenario.base (Some Scenario.stu2)
             "2" "IT" [10; 11] (fun k => 31 + k) in
  is_success (snd r) = true
  /\ student_subjects (fst r)
     = [mk_student_subject 30 Scenario.stu1 10;
        mk_student_subject 31 Scenario.stu2 10;
        mk_student_subject 32 Scenario.stu2 11]
  /\ profiles (fst r) = profiles Scenario.base.
Proof.
  intros r. split; [reflexivity|].
  destruct (enrollment_page_all_or_nothing Scenario.base Scenario.stu2
              "2" "IT" [10; 11] (fun k => 31 + k)) as [H1 [_ H3]].
  split; [exact (proj1 (H3 eq_refl))|exact H1].
Defined.

Lemma enrollment_page_conflict_witness :
  exists e,
    SubjectEnrollment_handleSubmit Scenario.base (Some Scenario.stu1)
      "2" "CSE" [11; 10] (fun k => 31 + k) = (Scenario.base, Failed e).
Proof.
  apply (enrollment_page_conflict Scenario.base Scenario.stu1 "2" "CSE"
           [11; 10] (fun k => 31 + k) 10).
  - right. left. reflexivity.
  - reflexivity.
Defined.

(** ** Selections and the pasted id list *)

Lemma mem_filter_neq (id : uuid) (l : list uuid) :
  mem id (filter (fun s => negb (Nat.eqb s id)) l) = false.
Proof.
  unfold mem. rewrite existsb_filter. apply existsb_false_iff. intros x _.
  rewrite (Nat.eqb_sym id x). destruct (Nat.eqb x id); reflexivity.
Qed.

(** X7.  Toggling an id in a selection flips its membership and nothing
    else: the other ids stay in or out as they were, a selection without
    repetitions stays without repetitions, and toggling twice an id that
    was not selected gives the selection back. *)
Theorem toggle_flips_membership (id : uuid) (prev : list uuid) :
  mem id (toggle id prev) = negb (mem id prev)
  /\ (forall x, x <> id -> (In x (toggle id prev) <-> In x prev))
  /\ (NoDup prev -> NoDup (toggle id prev))
  /\ (mem id prev = false -> toggle id (toggle id prev) = prev).
Proof.
  unfold toggle. destruct (mem id prev) eqn:E.
  - split; [apply mem_filter_neq|]. split; [|split; [|discriminate]].
    + intros x Hx. rewrite filter_In. split; [tauto|].
      intros H. split; [exact H|]. apply negb_true_iff.
      apply Nat.eqb_neq. exact Hx.
    + intros H. apply NoDup_filter. exact H.
  - assert (mem id (prev ++ [id]) = true) as Hin
      by (apply mem_In; apply in_or_app; right; left; reflexivity).
    split; [exact Hin|]. split; [|split].
    + intros x Hx. rewrite in_app_iff. simpl. split; [|tauto].
      intros [H|[H|[]]]; [exact H|congruence].
    + intros H. apply NoDup_app; try assumption.
      * constructor; [intros []|constructor].
      * intros a Ha [<-|[]]. apply mem_In in Ha. congruence.
    + intros _. rewrite Hin. rewrite filter_app. simpl.
      rewrite Nat.eqb_refl. simpl. rewrite app_nil_r.
      apply filter_all. intros x Hx. apply negb_true_iff.
      destruct (Nat.eqb x id) eqn:Ex; [|reflexivity].
      apply Nat.eqb_eq in Ex. subst. apply mem_In in Hx. congruence.
Qed.

Lemma toggle_flips_membership_witness :
  NoDup (toggle 11 [10; 11; 12])
  /\ toggle 13 (toggle 13 [10; 11; 12]) = [10; 11; 12].
Proof.
  destruct (toggle_flips_membership 11 [10; 11; 12]) as [_ [_ [H3 _]]].
  destruct (toggle_flips_membership 13 [10; 11; 12]) as [_ [_ [_ H4]]].
  split.
  - apply H3. repeat constructor; simpl; intuition discriminate.
  - apply H4. reflexivity.
Defined.

Lemma split_not_nil (s : string) : split s <> [].
Proof.
  destruct s as [|c r]; simpl; [discriminate|].
  destruct (is_separator c); [discriminate|].
  destruct (split r); discriminate.
Qed.

Lemma split_no_separator (s : string) :
  no_separator s = true -> split s = [s].
Proof.
  induction s as [|c r IH]; simpl; [reflexivity|].
  intros H. apply andb_true_iff in H. destruct H as [Hc Hr].
  apply negb_true_iff in Hc. rewrite Hc, (IH Hr). reflexivity.
Qed.

Lemma split_app_separator (a r : string) (sep : ascii) :
  no_separator a = true -> is_separator sep = true ->
  split (a ++ String sep r) = a :: split r.
Proof.
  intros Ha Hsep. induction a as [|c a IH]; simpl.
  - rewrite Hsep. reflexivity.
  - simpl in Ha. apply andb_true_iff in Ha. destruct Ha as [Hc Ha].
    apply negb_true_iff in Hc. rewrite Hc, (IH Ha). reflexivity.
Qed.

Lemma split_pieces (s : string) :
  forall p, In p (split s) -> no_separator p = true.
Proof.
  induction s as [|c r IH]; simpl.
  - intros p [<-|[]]. reflexivity.
  - destruct (is_separator c) eqn:Ec.
    + intros p [<-|Hp]; [reflexivity|auto].
    + destruct (split r) as [|h t] eqn:Er.
      * intros p [<-|[]]. simpl. rewrite Ec. reflexivity.
      * intros p [<-|Hp].
        -- simpl. rewrite Ec. simpl. apply IH. left. reflexivity.
        -- apply IH. right. exact Hp.
Qed.

Lemma trim_start_no_separator (s : string) :
  no_separator s = true -> no_separator (trim_start s) = true.
Proof.
  induction s as [|c r IH]; simpl; [reflexivity|].
  intros H. destruct (is_ws c); [|exact H].
  apply andb_true_iff in H. apply IH. tauto.
Qed.

Lemma trim_end_no_separator (s : string) :
  no_separator s = true -> no_separator (trim_end s) = true.
Proof.
  induction s as [|c r IH]; simpl; [reflexivity|].
  intros H. apply andb_true_iff in H. destruct H as [Hc Hr].
  specialize (IH Hr). destruct (trim_end r) as [|c' r'].
  - destruct (is_ws c); [reflexivity|]. simpl. rewrite Hc. reflexivity.
  - simpl. rewrite Hc. exact IH.
Qed.

Lemma trim_end_idempotent (s : string) : trim_end (trim_end s) = trim_end s.
Proof.
  induction s as [|c r IH]; simpl; [reflexivity|].
  destruct (trim_end r) as [|c' r'] eqn:E.
  - destruct (is_ws c) eqn:Ec; [reflexivity|]. simpl. rewrite Ec. reflexivity.
  - simpl. simpl in IH. rewrite IH. reflexivity.
Qed.

Lemma trim_start_head (s : string) :
  match trim_start s with
  | EmptyString => True
  | String c _ => is_ws c = false
  end.
Proof.
  induction s as [|c r IH]; simpl; [exact I|].
  destruct (is_ws c) eqn:E; [exact IH|exact E].
Qed.

Lemma trim_start_of_trim_end (t : string) :
  match t with EmptyString => True | String c _ => is_ws c = false end ->
  trim_start (trim_end t) = trim_end t.
Proof.
  destruct t as [|c r]; simpl; [reflexivity|]. intros Hc.
  destruct (trim_end r); [rewrite Hc|]; simpl; rewrite Hc; reflexivity.
Qed.

Lemma trim_idempotent (s : string) : trim (trim s) = trim s.
Proof.
  unfold trim.
  rewrite (trim_start_of_trim_end (trim_start s) (trim_start_head s)).
  apply trim_end_idempotent.
Qed.

(** X8.  The pasted id list.  Every entry that comes out of the parse is
    clean: not empty, with no white space at either end, and free of commas
    and line breaks (blank entries and padding are dropped).  And the parse
    undoes the comma-joined list: joining clean ids with commas and parsing
    gives the ids back, in order. *)
Theorem parse_ids_clean_and_round_trip :
  (forall csvText : string, forallb clean_id (parse_ids csvText) = true)
  /\ (forall ids : list string,
        forallb clean_id ids = true ->
        parse_ids (String.concat "," ids) = ids).
Proof.
  split.
  - intros csv. apply forallb_forall. intros s Hs.
    unfold parse_ids in Hs. apply filter_In in Hs. destruct Hs as [Hs Hne].
    apply in_map_iff in Hs. destruct Hs as [p [<- Hp]].
    unfold clean_id. rewrite Hne, trim_idempotent, String.eqb_refl. simpl.
    unfold trim. apply trim_end_no_separator, trim_start_no_separator.
    apply (split_pieces csv). exact Hp.
  - induction ids as [|x xs IH]; [reflexivity|].
    intros H. simpl in H. apply andb_true_iff in H. destruct H as [Hx Hxs].
    unfold clean_id in Hx. apply andb_true_iff in Hx. destruct Hx as [Hx Hsep].
    apply andb_true_iff in Hx. destruct Hx as [Hne Htrim].
    apply String.eqb_eq in Htrim.
    destruct xs as [|y ys].
    + simpl. unfold parse_ids. rewrite (split_no_separator x Hsep).
      simpl. rewrite Htrim, Hne. reflexivity.
    + change (String.concat "," (x :: y :: ys))
        with (x ++ String ","%char (String.concat "," (y :: ys))).
      unfold parse_ids.
      rewrite (split_app_separator x _ ","%char Hsep eq_refl).
      simpl map. simpl filter. rewrite Htrim, Hne.
      f_equal. apply (IH Hxs).
Qed.

Lemma parse_ids_clean_and_round_trip_witness :
  parse_ids (String.concat "," ["21cs001"; "21cs002"; "21cs017"])
  = ["21cs001"; "21cs002"; "21cs017"].
Proof.
  apply (proj2 parse_ids_clean_and_round_trip). reflexivity.
Defined.

Example parse_ids_examples :
  parse_ids (" a1 , b2" ++ String (ascii_of_nat 10) "c3,, ")
  = ["a1"; "b2"; "c3"]
  /\ parse_ids "" = [].
Proof. split; reflexivity. Qed.

(** ** Bulk enrollment *)

Lemma all_some_map_Some {A : Type} (l : list A) :
  all_some (map Some l) = Some l.
Proof.
  induction l as [|a l IH]; simpl; [reflexivity|]. rewrite IH. reflexivity.
Qed.

Lemma all_some_Some {A : Type} (l : list (option A)) (xs : list A) :
  all_some l = Some xs -> l = map Some xs.
Proof.
  revert xs. induction l as [|[a|] l IH]; simpl; intros xs H.
  - inversion H. reflexivity.
  - destruct (all_some l) as [ys|]; [|discriminate].
    inversion H. simpl. rewrite (IH ys eq_refl). reflexivity.
  - discriminate.
Qed.

Lemma all_some_None {A : Type} (l : list (option A)) :
  In None l -> all_some l = None.
Proof.
  induction l as [|[a|] l IH]; simpl; intros H.
  - destruct H.
  - destruct H as [H|H]; [discriminate|]. rewrite (IH H). reflexivity.
  - reflexivity.
Qed.

Section BulkEnrollFacts.

Variable uuid_in : string -> option uuid.

Lemma handleBulkEnroll_cases
  (d : db) (uid : uuid) (mode : enroll_mode) (csvText : string)
  (selectedStudents : list uuid) (subject_id : uuid) (gen : nat -> uuid) :
  handleBulkEnroll uuid_in d uid mode csvText selectedStudents
    (Some subject_id) gen
  = match bulk_ids uuid_in mode csvText selectedStudents with
    | [] => (d, BulkRejected "No students selected")
    | _ :: _ =>
        match all_some (bulk_ids uuid_in mode csvText selectedStudents) with
        | None => (d, BulkFailed InvalidUuid)
        | Some students =>
            match insert_student_subjects d uid
                    (enrollment_rows gen 0
                       (map (fun s => (s, subject_id)) students)) with
            | Ok d' =>
                (d', BulkEnrolled
                       (List.length
                          (bulk_ids uuid_in mode csvText selectedStudents)))
            | Err e => (d, BulkFailed (Pg e))
            end
        end
    end.
Proof. reflexivity. Qed.

(** X9.  Bulk enrollment is one statement.  When the tab reports
    "n student(s) enrolled", n is the number of ids sent, each of them has
    got an Enrollment edge to the chosen subject, in the order sent, and no
    id was sent twice; in every other case no edge has been added. *)
Theorem bulk_enroll_all_or_nothing
  (d : db) (uid : uuid) (mode : enroll_mode) (csvText : string)
  (selectedStudents : list uuid) (subject_id : uuid) (gen : nat -> uuid) :
  let r := handleBulkEnroll uuid_in d uid mode csvText selectedStudents
             (Some subject_id) gen in
  (forall n, snd r = BulkEnrolled n ->
     exists students,
       bulk_ids uuid_in mode csvText selectedStudents = map Some students
       /\ n = List.length students
       /\ student_subjects (fst r)
          = (student_subjects d
             ++ enrollment_rows gen 0
                  (map (fun st => (st, subject_id)) students))%list
       /\ NoDup students
       /\ forall st, In st students ->
            is_student_for_subject d st subject_id = false
            /\ is_student_for_subject (fst r) st subject_id = true)
  /\ ((forall n, snd r <> BulkEnrolled n) -> fst r = d).
Proof.
  intros r. unfold r. rewrite handleBulkEnroll_cases.
  destruct (bulk_ids uuid_in mode csvText selectedStudents) as [|i0 irest] eqn:Eids;
    [split; [discriminate|reflexivity]|].
  destruct (all_some (i0 :: irest)) as [students|] eqn:Eall;
    [|split; [discriminate|reflexivity]].
  destruct (insert_student_subjects d uid _) as [d'|e] eqn:E;
    cbn [fst snd]; [|split; [discriminate|reflexivity]].
  split; [|intros H; exfalso; eapply H; reflexivity].
  intros n Hn. inversion Hn as [Hlen]. clear Hn.
  apply all_some_Some in Eall.
  apply insert_student_subjects_ok in E. destruct E as [-> [Hrows Hnodup]].
  exists students. split; [exact Eall|]. split.
  - change (S (List.length irest)) with (List.length (i0 :: irest)).
    rewrite Eall, length_map. reflexivity.
  - split; [reflexivity|]. split.
    + rewrite enrollment_rows_pairs in Hnodup.
      apply NoDup_map_inv in Hnodup. exact Hnodup.
    + intros st Hst.
      destruct (enrollment_rows_In gen
                  (map (fun x => (x, subject_id)) students) st subject_id 0)
        as [ss [Hss [E1 E2]]]; [apply (in_map (fun x => (x, subject_id))); exact Hst|].
      destruct (Hrows ss Hss) as [_ [Hd _]]. split.
      * unfold is_student_for_subject. unfold same_pair in Hd.
        rewrite E1, E2 in Hd. exact Hd.
      * unfold is_student_for_subject.
        cbn [student_subjects set_student_subjects].
        apply existsb_exists. exists ss. split.
        -- apply in_or_app. right. exact Hss.
        -- rewrite E1, E2, !Nat.eqb_refl. reflexivity.
Qed.

(** X10.  What makes a bulk enrollment fail as a whole, with no edge added:
    a caller who is not an admin and ticks any student but themself; a
    pasted entry that is not a UUID; a student on the list who is already
    enrolled in the subject. *)
Theorem bulk_enroll_refused
  (d : db) (uid : uuid) (mode : enroll_mode) (csvText : string)
  (selectedStudents : list uuid) (subject_id : uuid) (gen : nat -> uuid) :
  let r := handleBulkEnroll uuid_in d uid mode csvText selectedStudents
             (Some subject_id) gen in
  (forall st, is_admin d uid = false ->
     In (Some st) (bulk_ids uuid_in mode csvText selectedStudents) -> st <> uid ->
     exists e, r = (d, BulkFailed e))
  /\ (In None (bulk_ids uuid_in mode csvText selectedStudents) ->
      r = (d, BulkFailed InvalidUuid))
  /\ (forall st,
        In (Some st) (bulk_ids uuid_in mode csvText selectedStudents) ->
        is_student_for_subject d st subject_id = true ->
        exists e, r = (d, BulkFailed e)).
Proof.
  intros r. unfold r. rewrite handleBulkEnroll_cases.
  assert (forall st,
            In (Some st) (bulk_ids uuid_in mode csvText selectedStudents) ->
            (forall d' students,
               bulk_ids uuid_in mode csvText selectedStudents = map Some students ->
               insert_student_subjects d uid
                 (enrollment_rows gen 0
                    (map (fun s => (s, subject_id)) students)) = Ok d' ->
               False) ->
            exists e,
              match bulk_ids uuid_in mode csvText selectedStudents with
              | [] => (d, BulkRejected "No students selected")
              | _ :: _ =>
                  match all_some (bulk_ids uuid_in mode csvText selectedStudents) with
                  | Some students =>
                      match insert_student_subjects d uid
                              (enrollment_rows gen 0
                                 (map (fun s => (s, subject_id)) students)) with
                      | Ok d' =>
                          (d', BulkEnrolled
                                 (List.length
                                    (bulk_ids uuid_in mode csvText selectedStudents)))
                      | Err e => (d, BulkFailed (Pg e))
                      end
                  | None => (d, BulkFailed InvalidUuid)
                  end
              end = (d, BulkFailed e)) as Hcase.
  { intros st Hin Hno.
    destruct (bulk_ids uuid_in mode csvText selectedStudents) as [|i0 irest] eqn:Eids;
      [destruct Hin|].
    destruct (all_some (i0 :: irest)) as [students|] eqn:Eall; [|eauto].
    destruct (insert_student_subjects d uid _) as [d'|e] eqn:E; [|eauto].
    exfalso. apply (Hno d' students); [|exact E].
    apply all_some_Some. exact Eall. }
  split; [|split].
  - intros st Hadm Hin Hne. apply (Hcase st Hin).
    intros d' students Eids E. apply insert_student_subjects_ok in E.
    destruct E as [_ [Hrows _]].
    rewrite Eids in Hin. apply in_map_iff in Hin.
    destruct Hin as [st' [Est Hst]]. inversion Est. subst st'.
    destruct (enrollment_rows_In gen
                (map (fun s => (s, subject_id)) students) st subject_id 0)
      as [ss [Hss [E1 E2]]]; [apply (in_map (fun x => (x, subject_id))); exact Hst|].
    destruct (Hrows ss Hss) as [HA _].
    rewrite Authorize_insert_student_subject in HA.
    unfold student_subjects_insert_v2 in HA. rewrite Hadm, E1 in HA.
    rewrite orb_false_r in HA. apply Nat.eqb_eq in HA. congruence.
  - intros Hin.
    destruct (bulk_ids uuid_in mode csvText selectedStudents) as [|i0 irest] eqn:Eids;
      [destruct Hin|].
    rewrite (all_some_None _ Hin). reflexivity.
  - intros st Hin Hen. apply (Hcase st Hin).
    intros d' students Eids E. apply insert_student_subjects_ok in E.
    destruct E as [_ [Hrows _]].
    rewrite Eids in Hin. apply in_map_iff in Hin.
    destruct Hin as [st' [Est Hst]]. inversion Est. subst st'.
    destruct (enrollment_rows_In gen
                (map (fun s => (s, subject_id)) students) st subject_id 0)
      as [ss [Hss [E1 E2]]]; [apply (in_map (fun x => (x, subject_id))); exact Hst|].
    destruct (Hrows ss Hss) as [_ [Hd _]].
    unfold same_pair in Hd. rewrite E1, E2 in Hd.
    unfold is_student_for_subject in Hen. congruence.
Qed.

End BulkEnrollFacts.

Lemma bulk_enroll_all_or_nothing_witness :
  let r := handleBulkEnroll (fun _ => None) Scenario.base Scenario.adm
             select_mode "" [Scenario.stu2] (Some 11) (fun k => 31 + k) in
  snd r = BulkEnrolled 1
  /\ is_student_for_subject (fst r) Scenario.stu2 11 = true.
Proof.
  intros r. split; [reflexivity|].
  destruct (proj1 (bulk_enroll_all_or_nothing (fun _ => None) Scenario.base
                     Scenario.adm select_mode "" [Scenario.stu2] 11
                     (fun k => 31 + k)) 1 eq_refl)
    as [students [Hids [_ [_ [_ Hall]]]]].
  destruct students as [|st [|st' rest]]; try discriminate.
  inversion Hids. subst st.
  exact (proj2 (Hall Scenario.stu2 (or_introl eq_refl))).
Defined.

Lemma bulk_enroll_refused_witness :
  (exists e,
     handleBulkEnroll (fun _ => None) Scenario.base Scenario.stu1
       select_mode "" [Scenario.stu1; Scenario.stu2] (Some 11)
       (fun k => 31 + k) = (Scenario.base, BulkFailed e))
  /\ handleBulkEnroll (fun _ => None) Scenario.base Scenario.adm
       csv_mode "21cs001, 21cs002" [] (Some 11) (fun k => 31 + k)
     = (Scenario.base, BulkFailed InvalidUuid).
Proof.
  split.
  - apply (proj1 (bulk_enroll_refused (fun _ => None) Scenario.base
                    Scenario.stu1 select_mode ""
                    [Scenario.stu1; Scenario.stu2] 11 (fun k => 31 + k))
             Scenario.stu2).
    + reflexivity.
    + right. left. reflexivity.
    + discriminate.
  - apply (proj1 (proj2 (bulk_enroll_refused (fun _ => None) Scenario.base
                           Scenario.adm csv_mode "21cs001, 21cs002" [] 11
                           (fun k => 31 + k)))).
    left. reflexivity.
Defined.

(** ** Submitting code: one row per student and experiment *)

Lemma insert_submission_rows (d d' : db) (uid : uuid) (es : submission) :
  insert_submission d uid es = Ok d' ->
  d' = set_experiment_submissions d (experiment_submissions d ++ [es])
  /\ es_student_id es = uid
  /\ submissions_for d (es_experiment_id es) (es_student_id es) = 0
  /\ mem (es_experiment_id es) (map ex_id (experiments d)) = true
  /\ mem (es_student_id es) (auth_users d) = true.
Proof.
  unfold insert_submission. rewrite Authorize_insert_submission.
  unfold submissions_insert. intros H.
  destruct (Nat.eqb (es_student_id es) uid) eqn:Eown; [|discriminate].
  cbn [negb] in H.
  destruct (negb (status_check _)); [discriminate|].
  destruct (mem (es_id es) _); [discriminate|].
  destruct (existsb _ (experiment_submissions d)) eqn:Edup; [discriminate|].
  destruct (mem (es_experiment_id es) _); [|discriminate].
  destruct (mem (es_student_id es) _); [|discriminate].
  inversion H. apply Nat.eqb_eq in Eown. repeat split; try assumption.
  unfold submissions_for. rewrite (filter_none _ (experiment_submissions d));
    [reflexivity|].
  apply existsb_false_iff. exact Edup.
Qed.

Lemma resubmit_keeps_count (code lang : string) (hit : submission -> bool)
  (e u : uuid) (l : list submission) :
  List.length
    (filter (fun es => Nat.eqb (es_experiment_id es) e
                       && Nat.eqb (es_student_id es) u)
       (map (fun es => if hit es then resubmit code lang es else es) l))
  = List.length
      (filter (fun es => Nat.eqb (es_experiment_id es) e
                         && Nat.eqb (es_student_id es) u) l).
Proof.
  induction l as [|es l IH]; simpl; [reflexivity|].
  assert (forall x, (if hit x then resubmit code lang x else x) = x
                    \/ (if hit x then resubmit code lang x else x)
                       = resubmit code lang x) as Hc
    by (intros x; destruct (hit x); auto).
  destruct (Hc es) as [-> | ->]; cbn [resubmit es_experiment_id es_student_id];
    destruct (_ && _); simpl; rewrite IH; reflexivity.
Qed.

Lemma maybeSingle_Some {A : Type} (l : list A) (x : A) :
  maybeSingle l = Some x -> l = [x].
Proof.
  destruct l as [|a [|b r]]; simpl; intros H; inversion H. reflexivity.
Qed.

(** X11.  Submitting code never leaves a second submission of the same
    student for the same experiment; when the page reports success there is
    exactly one, and it holds the code and the language just submitted with
    status 'submitted'; when it reports a failure the store is as it
    was. *)
Theorem submitCode_one_row
  (d : db) (u : uuid) (e : experiment) (code lang : string) (new_id : uuid) :
  let r := submitCode d (Some u) (Some e) code lang new_id in
  (is_success (snd r) = false -> fst r = d)
  /\ (submissions_for d (ex_id e) u <= 1 ->
      submissions_for (fst r) (ex_id e) u <= 1)
  /\ (is_success (snd r) = true ->
      1 <= submissions_for (fst r) (ex_id e) u
      /\ exists es,
           In es (experiment_submissions (fst r))
           /\ es_experiment_id es = ex_id e /\ es_student_id es = u
           /\ es_code es = Some code /\ es_language es = Some lang
           /\ es_status es = "submitted").
Proof.
  intros r.
  assert (forall d', (exists es,
             In es (experiment_submissions d')
             /\ es_experiment_id es = ex_id e /\ es_student_id es = u
             /\ es_code es = Some code /\ es_language es = Some lang
             /\ es_status es = "submitted") ->
           1 <= submissions_for d' (ex_id e) u) as Hcount.
  { intros d' [es [Hin [E1 [E2 _]]]]. unfold submissions_for.
    assert (In es (filter (fun es => Nat.eqb (es_experiment_id es) (ex_id e)
                                     && Nat.eqb (es_student_id es) u)
                          (experiment_submissions d'))) as Hf.
    { apply filter_In. split; [exact Hin|].
      rewrite E1, E2, !Nat.eqb_refl. reflexivity. }
    destruct (filter _ _); [destruct Hf|simpl; lia]. }
  unfold r, submitCode.
  destruct (maybeSingle _) as [ex|] eqn:Esel.
  - apply maybeSingle_Some in Esel.
    assert (In ex (select_submissions d u
              (fun es => Nat.eqb (es_student_id es) u
                         && Nat.eqb (es_experiment_id es) (ex_id e)))) as Hex
      by (rewrite Esel; left; reflexivity).
    unfold select_submissions in Hex. apply filter_In in Hex.
    destruct Hex as [Hin Hp]. apply andb_true_iff in Hp.
    destruct Hp as [Hw Hvis]. apply andb_true_iff in Hw.
    destruct Hw as [Hown Hexp].
    apply Nat.eqb_eq in Hown. apply Nat.eqb_eq in Hexp.
    destruct (update_submissions _ _ _ _) as [d'|err] eqn:E;
      cbn [fst snd is_success];
      [|split; [reflexivity|split; [auto|discriminate]]].
    apply update_submissions_rows in E. destruct E as [-> _].
    split; [discriminate|].
    assert (exists es,
              In es (experiment_submissions
                       (set_experiment_submissions d
                          (map (fun es =>
                                  if Nat.eqb (es_id es) (es_id ex)
                                     && Authorize d u SELECT (RSubmission es)
                                     && Authorize d u UPDATE (RSubmission es)
                                  then resubmit code lang es else es)
                               (experiment_submissions d))))
              /\ es_experiment_id es = ex_id e /\ es_student_id es = u
              /\ es_code es = Some code /\ es_language es = Some lang
              /\ es_status es = "submitted") as Hrow.
    { exists (resubmit code lang ex). split.
      - cbn [experiment_submissions set_experiment_submissions].
        apply in_map_iff. exists ex. split; [|exact Hin].
        rewrite Nat.eqb_refl, Hvis, Authorize_update_submission.
        unfold submissions_update. rewrite Hown, Nat.eqb_refl, orb_true_r.
        reflexivity.
      - cbn. auto. }
    split.
    + intros H. unfold submissions_for in *.
      cbn [experiment_submissions set_experiment_submissions].
      rewrite resubmit_keeps_count. exact H.
    + intros _. split; [apply Hcount; exact Hrow|exact Hrow].
  - destruct (insert_submission _ _ _) as [d'|err] eqn:E;
      cbn [fst snd is_success];
      [|split; [reflexivity|split; [auto|discriminate]]].
    apply insert_submission_rows in E.
    destruct E as [-> [_ [Hzero _]]].
    cbn [es_experiment_id es_student_id] in Hzero.
    split; [discriminate|].
    assert (submissions_for
              (set_experiment_submissions d
                 (experiment_submissions d
                  ++ [mk_submission new_id (ex_id e) u (Some code) (Some lang)
                                    None "submitted"])) (ex_id e) u = 1) as H1.
    { unfold submissions_for in *.
      cbn [experiment_submissions set_experiment_submissions].
      rewrite filter_app, length_app, Hzero. simpl.
      rewrite !Nat.eqb_refl. reflexivity. }
    split; [intros _; lia|]. intros _. split; [lia|].
    eexists. split.
    + cbn [experiment_submissions set_experiment_submissions].
      apply in_or_app. right. left. reflexivity.
    + cbn. auto.
Qed.

Lemma submitCode_one_row_witness :
  let r := submitCode Scenario.base (Some Scenario.stu1) (Some Scenario.exp1)
             "print(2)" "python" 51 in
  submissions_for Scenario.base 20 Scenario.stu1 = 1
  /\ submissions_for (fst r) 20 Scenario.stu1 <= 1
  /\ 1 <= submissions_for (fst r) 20 Scenario.stu1.
Proof.
  intros r.
  destruct (submitCode_one_row Scenario.base Scenario.stu1 Scenario.exp1
              "print(2)" "python" 51) as [_ [H2 H3]].
  split; [reflexivity|]. split.
  - apply H2. apply Nat.le_refl.
  - exact (proj1 (H3 eq_refl)).
Defined.

(** ** Grading and the status of the submission *)

Lemma map_if_never {A : Type} (hit : A -> bool) (s : A -> A) (l : list A) :
  (forall x, In x l -> hit x = false) ->
  map (fun x => if hit x then s x else x) l = l.
Proof.
  intros H. rewrite <- (map_id l) at 2. apply map_ext_in.
  intros x Hx. rewrite (H x Hx). reflexivity.
Qed.

(** X12.  When the grader is neither an admin nor the student who owns the
    selected submission, [submitEvaluation] changes no submission at all:
    its second write, the one meant to set the status to 'evaluated', is
    filtered out by the update policy without an error, so the status stays
    what it was even though the page reports success. *)
Theorem grading_leaves_submissions
  (d : db) (u : uuid) (sel : submission) (marks feedback : string)
  (new_id : uuid) :
  is_admin d u = false ->
  (forall es, In es (experiment_submissions d) ->
              es_id es = es_id sel -> es_student_id es <> u) ->
  let r := submitEvaluation d (Some u) (Some sel) marks feedback new_id in
  experiment_submissions (fst r) = experiment_submissions d
  /\ status_of (fst r) (es_id sel) = status_of d (es_id sel).
Proof.
  intros Hadm Hnot r.
  assert (experiment_submissions (fst r) = experiment_submissions d) as Hsame.
  { unfold r, submitEvaluation.
    destruct (parseInt marks) as [m|]; [|reflexivity].
    destruct (_ || _); [reflexivity|].
    destruct (String.eqb _ _); [reflexivity|].
    match goal with
    | |- context [match ?w with Ok _ => _ | Err _ => _ end] =>
        destruct w as [d1|] eqn:E; [|reflexivity]
    end.
    cbn [fst].
    assert (d1 = set_evaluations d (evaluations d1)) as Hd1.
    { destruct (maybeSingle _).
      - apply update_evaluations_rows in E. rewrite E. reflexivity.
      - apply insert_evaluation_rows in E. destruct E as [-> _]. reflexivity. }
    unfold flip_status.
    destruct (update_submissions d1 u _ mark_evaluated) as [d2|] eqn:E2;
      [|rewrite Hd1; reflexivity].
    apply update_submissions_rows in E2. destruct E2 as [-> _].
    cbn [experiment_submissions set_experiment_submissions].
    rewrite Hd1. cbn [experiment_submissions set_evaluations].
    apply map_if_never. intros es Hes.
    destruct (Nat.eqb (es_id es) (es_id sel)) eqn:Eid; [|reflexivity].
    apply Nat.eqb_eq in Eid. cbn [andb].
    rewrite Authorize_update_submission. unfold submissions_update.
    change (is_admin (set_evaluations d (evaluations d1)) u)
      with (is_admin d u).
    rewrite Hadm. cbn [orb].
    rewrite (proj2 (Nat.eqb_neq _ _) (Hnot es Hes Eid)).
    apply andb_false_r. }
  split; [exact Hsame|]. unfold status_of. rewrite Hsame. reflexivity.
Qed.

Lemma grading_leaves_submissions_witness :
  let r := submitEvaluation Scenario.base (Some Scenario.fac1)
             (Some Scenario.sub1) "85" "Good" 60 in
  snd r = Success "Evaluation submitted successfully!"
  /\ status_of (fst r) 50 = Some "submitted".
Proof.
  intros r. split; [reflexivity|].
  assert (forall es, In es (experiment_submissions Scenario.base) ->
                     es_id es = es_id Scenario.sub1 ->
                     es_student_id es <> Scenario.fac1) as Hnot.
  { intros es [<-|[]] _. discriminate. }
  exact (eq_trans
           (proj2 (grading_leaves_submissions Scenario.base Scenario.fac1
                     Scenario.sub1 "85" "Good" 60 eq_refl Hnot))
           eq_refl).
Defined.

(** ** Who can become an admin *)

Lemma Authorize_select_profile (d : db) (uid : uuid) (p : profile) :
  Authorize d uid SELECT (RProfile p) = true.
Proof. reflexivity. Qed.

Lemma Authorize_update_profile (d : db) (uid : uuid) (p : profile) :
  Authorize d uid UPDATE (RProfile p) = profiles_update_own d uid p.
Proof. cbn. apply orb_false_r. Qed.

(** X13.  The update policy of [profiles] guards the row, not the column:
    in a store whose profile keys and checks hold, any signed-in caller who
    has a profile can set their own role to admin through the data API, and
    is an admin from then on. *)
Theorem profile_update_self_promotion (d : db) (uid : uuid) (p : profile) :
  profiles_consistent d = true ->
  In p (profiles d) -> p_id p = uid ->
  exists d',
    postgrest_update_profiles d uid ["role"]
      (fun q => Nat.eqb (p_id q) uid) (with_role admin) = ApiOk d'
    /\ is_admin d' uid = true.
Proof.
  intros Hc Hin Hid. unfold profiles_consistent in Hc.
  apply andb_true_iff in Hc. destruct Hc as [Hids Hrows].
  rewrite forallb_forall in Hrows.
  set (hit := fun q => Nat.eqb (p_id q) uid
                       && Authorize d uid SELECT (RProfile q)
                       && Authorize d uid UPDATE (RProfile q)).
  assert (hit p = true) as Hhit.
  { unfold hit. rewrite Authorize_update_profile. unfold profiles_update_own.
    rewrite Hid, Nat.eqb_refl. reflexivity. }
  assert (update_profiles d uid (fun q => Nat.eqb (p_id q) uid)
            (with_role admin)
          = Ok (set_profiles d
                  (map (fun q => if hit q then with_role admin q else q)
                       (profiles d)))) as Hup.
  { unfold update_profiles. fold hit.
    rewrite (map_map_if_same p_id) by reflexivity. rewrite Hids.
    assert (forallb (fun q => Authorize d uid UPDATE (RProfile q))
              (map (with_role admin) (filter hit (profiles d))) = true) as ->.
    { apply forallb_forall. intros q Hq. apply in_map_iff in Hq.
      destruct Hq as [q0 [<- Hq0]]. apply filter_In in Hq0.
      destruct Hq0 as [_ H0]. unfold hit in H0.
      apply andb_true_iff in H0. destruct H0 as [_ H0].
      rewrite Authorize_update_profile in *. exact H0. }
    assert (forallb (fun q => department_check (p_department q))
              (map (with_role admin) (filter hit (profiles d))) = true) as ->.
    { apply forallb_forall. intros q Hq. apply in_map_iff in Hq.
      destruct Hq as [q0 [<- Hq0]]. apply filter_In in Hq0.
      destruct Hq0 as [Hq0 _]. specialize (Hrows q0 Hq0).
      apply andb_true_iff in Hrows. tauto. }
    assert (forallb (fun q => mem (p_id q) (auth_users d))
              (map (with_role admin) (filter hit (profiles d))) = true) as ->.
    { apply forallb_forall. intros q Hq. apply in_map_iff in Hq.
      destruct Hq as [q0 [<- Hq0]]. apply filter_In in Hq0.
      destruct Hq0 as [Hq0 _]. specialize (Hrows q0 Hq0).
      apply andb_true_iff in Hrows. tauto. }
    reflexivity. }
  eexists. split.
  - unfold postgrest_update_profiles. cbn [find existsb profiles_columns].
    change (negb _) with false. cbn [find]. rewrite Hup. reflexivity.
  - unfold is_admin. cbn [profiles set_profiles].
    apply existsb_exists. exists (with_role admin p). split.
    + apply in_map_iff. exists p. rewrite Hhit. auto.
    + cbn. rewrite Hid, Nat.eqb_refl. reflexivity.
Qed.

Lemma profile_update_self_promotion_witness :
  is_admin Scenario.base Scenario.stu1 = false
  /\ exists d',
       postgrest_update_profiles Scenario.base Scenario.stu1 ["role"]
         (fun q => Nat.eqb (p_id q) Scenario.stu1) (with_role admin)
       = ApiOk d'
       /\ is_admin d' Scenario.stu1 = true.
Proof.
  split; [reflexivity|].
  apply (profile_update_self_promotion Scenario.base Scenario.stu1
           (mk_profile Scenario.stu1 (Some "S. One") student (Some "CSE"))).
  - reflexivity.
  - right. right. right. left. reflexivity.
  - reflexivity.
Defined.

(** X14.  The provisioning trigger takes the role from the metadata the
    client sent at sign-up: a new identity whose metadata says role 'admin'
    (with a department of the list, or none) gets a profile that makes it
    an admin at once. *)
Theorem signup_as_admin (d : db) (NEW : new_user) :
  ref_integrity d = true ->
  mem (nu_id NEW) (auth_users d) = false ->
  get_text (raw_user_meta_data NEW) "role" = Some "admin" ->
  department_well_formed NEW = true ->
  exists d',
    on_auth_user_created d NEW = Ok d' /\ is_admin d' (nu_id NEW) = true.
Proof.
  intros Hri Hfresh Hrole Hdep.
  pose proof (fresh_identity_has_no_profile d (nu_id NEW) Hri Hfresh) as Hnone.
  unfold on_auth_user_created, handle_new_user. rewrite Hfresh, Hrole.
  cbn [cast_app_role String.eqb Ascii.eqb Bool.eqb COALESCE].
  unfold insert_profile_definer.
  cbn [p_department p_id profiles auth_users].
  assert (department_check
            (Some (COALESCE (get_text (raw_user_meta_data NEW) "department")
                            "CSE")) = true) as ->.
  { unfold department_well_formed in Hdep.
    destruct (get_text (raw_user_meta_data NEW) "department");
      [exact Hdep|reflexivity]. }
  assert (mem (nu_id NEW) (map p_id (profiles d)) = false) as ->.
  { unfold mem. rewrite existsb_map. apply existsb_false_iff.
    intros p Hp. rewrite Nat.eqb_sym. auto. }
  assert (mem (nu_id NEW) (auth_users d ++ [nu_id NEW]) = true) as ->.
  { apply mem_In. apply in_or_app. right. left. reflexivity. }
  cbn [negb]. eexists. split; [reflexivity|].
  unfold is_admin, set_profiles. cbn [profiles].
  rewrite existsb_app. simpl. rewrite Nat.eqb_refl. apply orb_true_r.
Qed.

Lemma signup_as_admin_witness :
  exists d',
    on_auth_user_created Scenario.base
      (mk_new_user 7 (Some [("role", Some "admin")])) = Ok d'
    /\ is_admin d' 7 = true.
Proof.
  apply (signup_as_admin Scenario.base
           (mk_new_user 7 (Some [("role", Some "admin")])));
    reflexivity.
Defined.

(** ** Deletes by a caller who is not an admin *)

Lemma db_ext (d d' : db) :
  auth_users d' = auth_users d -> profiles d' = profiles d ->
  subjects d' = subjects d -> experiments d' = experiments d ->
  student_subjects d' = student_subjects d ->
  faculty_subjects d' = faculty_subjects d ->
  experiment_submissions d' = experiment_submissions d ->
  evaluations d' = evaluations d ->
  d' = d.
Proof.
  destruct d, d'. simpl. intros. subst. reflexivity.
Qed.

Lemma delete_subjects_where_none (P : subject -> bool) (d : db) :
  (forall s, In s (subjects d) -> P s = false) ->
  delete_subjects_where P d = d.
Proof.
  intros H.
  destruct (delete_subjects_tables P d) as [T1 [T2 [T3 [T4 [T5 [T6 [T7 T8]]]]]]].
  cbv zeta in T4, T5, T6, T7, T8.
  rewrite (filter_none P (subjects d) H) in T4, T5, T6, T7, T8.
  cbn [map mem existsb negb] in T4, T5, T6, T7, T8.
  rewrite (filter_none (fun _ => false) (experiments d)) in T7, T8
    by reflexivity.
  cbn [map mem existsb negb] in T7, T8.
  rewrite (filter_none (fun _ => false) (experiment_submissions d)) in T8
    by reflexivity.
  cbn [map mem existsb negb] in T8.
  apply db_ext; try assumption.
  - rewrite T3. apply filter_all. intros s Hs. rewrite (H s Hs). reflexivity.
  - rewrite T4. apply filter_all. reflexivity.
  - rewrite T5. apply filter_all. reflexivity.
  - rewrite T6. apply filter_all. reflexivity.
  - rewrite T7. apply filter_all. reflexivity.
  - rewrite T8. apply filter_all. reflexivity.
Qed.

(** X15.  For a caller who is not an admin, deleting a subject and removing
    an assignment through the admin tabs change nothing in the store: the
    delete policies filter every row out and the data API reports no error
    (the tab shows its success message all the same). *)
Theorem delete_by_non_admin_changes_nothing (d : db) (uid id : uuid) :
  is_admin d uid = false ->
  handleDelete d uid id = d /\ handleRemove d uid id = d.
Proof.
  intros Hadm. split.
  - unfold handleDelete, api_delete_subjects.
    apply delete_subjects_where_none. intros s _.
    rewrite delete_subject_policy, Hadm. apply andb_false_r.
  - unfold handleRemove, api_delete_faculty_subjects.
    destruct (delete_faculty_subjects_tables
                (fun fs => Nat.eqb (fs_id fs) id
                           && Authorize d uid SELECT (RFacultySubject fs)
                           && Authorize d uid DELETE (RFacultySubject fs)) d)
      as [T1 [T2 [T3 [T4 [T5 [T6 [T7 T8]]]]]]].
    apply db_ext; try assumption.
    rewrite T6. apply filter_all. intros fs _.
    rewrite Authorize_delete_faculty_subject, Hadm, andb_false_r.
    reflexivity.
Qed.

Lemma delete_by_non_admin_changes_nothing_witness :
  handleDelete Scenario.base Scenario.fac1 10 = Scenario.base
  /\ handleRemove Scenario.base Scenario.fac1 40 = Scenario.base.
Proof.
  split.
  - apply (delete_by_non_admin_changes_nothing Scenario.base Scenario.fac1 10).
    reflexivity.
  - apply (delete_by_non_admin_changes_nothing Scenario.base Scenario.fac1 40).
    reflexivity.
Defined.

(** ** Referential integrity is kept by every page *)

Lemma mem_map_app {A : Type} (f : A -> uuid) (k : uuid) (l l' : list A) :
  mem k (map f l) = true -> mem k (map f (l ++ l')) = true.
Proof.
  intros H. apply mem_map_In in H. destruct H as [a [Ha E]].
  apply mem_map_In. exists a. split; [apply in_or_app; left; exact Ha|exact E].
Qed.

Lemma RI_set_student_subjects (d : db) (l : list student_subject) :
  RI d ->
  (forall ss, In ss l ->
     mem (ss_student_id ss) (auth_users d) = true
     /\ mem (ss_subject_id ss) (map sj_id (subjects d)) = true) ->
  RI (set_student_subjects d l).
Proof.
  intros [R1 [R2 [R3 [R4 [R5 [R6 [R7 [R8 [R9 R10]]]]]]]]] H.
  unfold RI, set_student_subjects.
  cbn [auth_users profiles subjects experiments student_subjects
       faculty_subjects experiment_submissions evaluations].
  repeat split; try assumption; intros ss Hss; apply (H ss Hss).
Qed.

Lemma RI_set_faculty_subjects (d : db) (l : list faculty_subject) :
  RI d ->
  (forall fs, In fs l ->
     mem (fs_faculty_id fs) (auth_users d) = true
     /\ mem (fs_subject_id fs) (map sj_id (subjects d)) = true) ->
  RI (set_faculty_subjects d l).
Proof.
  intros [R1 [R2 [R3 [R4 [R5 [R6 [R7 [R8 [R9 R10]]]]]]]]] H.
  unfold RI, set_faculty_subjects.
  cbn [auth_users profiles subjects experiments student_subjects
       faculty_subjects experiment_submissions evaluations].
  repeat split; try assumption; intros fs Hfs; apply (H fs Hfs).
Qed.

Lemma RI_set_evaluations (d : db) (l : list evaluation) :
  RI d ->
  (forall ev, In ev l ->
     mem (ev_submission_id ev) (map es_id (experiment_submissions d)) = true
     /\ mem (ev_faculty_id ev) (auth_users d) = true) ->
  RI (set_evaluations d l).
Proof.
  intros [R1 [R2 [R3 [R4 [R5 [R6 [R7 [R8 [R9 R10]]]]]]]]] H.
  unfold RI, set_evaluations.
  cbn [auth_users profiles subjects experiments student_subjects
       faculty_subjects experiment_submissions evaluations].
  repeat split; try assumption; intros ev Hev; apply (H ev Hev).
Qed.

Lemma RI_set_experiment_submissions (d : db) (l : list submission) :
  RI d ->
  (forall es, In es l ->
     mem (es_experiment_id es) (map ex_id (experiments d)) = true
     /\ mem (es_student_id es) (auth_users d) = true) ->
  (forall k, mem k (map es_id (experiment_submissions d)) = true ->
             mem k (map es_id l) = true) ->
  RI (set_experiment_submissions d l).
Proof.
  intros [R1 [R2 [R3 [R4 [R5 [R6 [R7 [R8 [R9 R10]]]]]]]]] H Hk.
  unfold RI, set_experiment_submissions.
  cbn [auth_users profiles subjects experiments student_subjects
       faculty_subjects experiment_submissions evaluations].
  repeat split; try assumption; try (intros es Hes; apply (H es Hes)).
  intros ev Hev. apply Hk. apply R9. exact Hev.
Qed.

Lemma update_submissions_RI (d d' : db) (u : uuid)
  (w : submission -> bool) (s : submission -> submission) :
  (forall es, es_id (s es) = es_id es
              /\ es_experiment_id (s es) = es_experiment_id es
              /\ es_student_id (s es) = es_student_id es) ->
  RI d -> update_submissions d u w s = Ok d' -> RI d'.
Proof.
  intros Hs R H. apply update_submissions_rows in H. destruct H as [-> _].
  pose proof R as [_ [_ [_ [_ [_ [_ [R7 [R8 _]]]]]]]].
  apply RI_set_experiment_submissions; [exact R| |].
  - intros es Hes. apply in_map_iff in Hes. destruct Hes as [es0 [<- Hes0]].
    destruct (Hs es0) as [_ [E1 E2]].
    destruct (_ && _); [rewrite E1, E2|]; auto.
  - intros k Hk. rewrite map_map_if_same; [exact Hk|].
    intros es. apply (Hs es).
Qed.

Lemma insert_evaluation_fk (d d' : db) (uid : uuid) (ev : evaluation) :
  insert_evaluation d uid ev = Ok d' ->
  mem (ev_submission_id ev) (map es_id (experiment_submissions d)) = true
  /\ mem (ev_faculty_id ev) (auth_users d) = true.
Proof.
  unfold insert_evaluation. intros H.
  repeat match type of H with
  | (if negb (?a && ?b) then _ else _) = _ =>
      destruct a; [destruct b; [auto|discriminate]|discriminate]
  | (if ?c then _ else _) = _ => destruct c; [discriminate|]
  end.
Qed.

Lemma submitCode_RI (d : db) (u : option uuid) (e : option experiment)
  (code lang : string) (new_id : uuid) :
  RI d -> RI (fst (submitCode d u e code lang new_id)).
Proof.
  intros R. unfold submitCode.
  destruct u as [u|]; [|exact R]. destruct e as [e|]; [|exact R].
  destruct (maybeSingle _) as [ex|].
  - destruct (update_submissions _ _ _ _) as [d'|] eqn:E; [|exact R].
    cbn [fst]. eapply update_submissions_RI; [|exact R|exact E].
    intros es. repeat split.
  - destruct (insert_submission _ _ _) as [d'|] eqn:E; [|exact R].
    cbn [fst]. apply insert_submission_rows in E.
    destruct E as [-> [_ [_ [F1 F2]]]].
    pose proof R as [_ [_ [_ [_ [_ [_ [R7 [R8 _]]]]]]]].
    apply RI_set_experiment_submissions; [exact R| |].
    + intros es Hes. apply in_app_or in Hes.
      destruct Hes as [Hes|[<-|[]]]; auto.
    + intros k Hk. apply mem_map_app. exact Hk.
Qed.

Lemma submitEvaluation_RI (d : db) (u : option uuid) (sel : option submission)
  (marks feedback : string) (new_id : uuid) :
  RI d -> RI (fst (submitEvaluation d u sel marks feedback new_id)).
Proof.
  intros R. unfold submitEvaluation.
  destruct u as [u|]; [|exact R]. destruct sel as [sel|]; [|exact R].
  destruct (parseInt marks) as [m|]; [|exact R].
  destruct (_ || _); [exact R|].
  destruct (String.eqb _ _); [exact R|].
  match goal with
  | |- context [match ?w with Ok _ => _ | Err _ => _ end] =>
      destruct w as [d1|] eqn:E; [|exact R]
  end.
  cbn [fst].
  assert (RI d1) as R1.
  { pose proof R as [_ [_ [_ [_ [_ [_ [_ [_ [R9 R10]]]]]]]]].
    destruct (maybeSingle _).
    - apply update_evaluations_rows in E. rewrite E.
      apply RI_set_evaluations; [exact R|].
      intros ev Hev. apply in_map_iff in Hev. destruct Hev as [ev0 [<- Hev0]].
      destruct (_ && _); cbn [regrade ev_submission_id ev_faculty_id]; auto.
    - pose proof (insert_evaluation_fk _ _ _ _ E) as Hfk.
      apply insert_evaluation_rows in E. destruct E as [-> _].
      apply RI_set_evaluations; [exact R|].
      intros ev Hev. apply in_app_or in Hev.
      destruct Hev as [Hev|[<-|[]]]; auto. }
  unfold flip_status.
  destruct (update_submissions d1 u _ mark_evaluated) as [d2|] eqn:E2;
    [|exact R1].
  eapply update_submissions_RI; [|exact R1|exact E2].
  intros es. repeat split.
Qed.

Lemma insert_student_subjects_RI (d d' : db) (uid : uuid)
  (rows : list student_subject) :
  RI d -> insert_student_subjects d uid rows = Ok d' -> RI d'.
Proof.
  intros R H. apply insert_student_subjects_ok in H.
  destruct H as [-> [Hrows _]].
  pose proof R as [_ [_ [R3 [R4 _]]]].
  apply RI_set_student_subjects; [exact R|].
  intros ss Hss. apply in_app_or in Hss. destruct Hss as [Hss|Hss]; [auto|].
  destruct (Hrows ss Hss) as [_ [_ [F1 F2]]]. auto.
Qed.

Section PagesKeepIntegrity.

Variable uuid_in : string -> option uuid.

(** X16.  Whatever a signed-in caller does through the pages (submit code,
    grade, enroll, bulk-enroll, assign, remove an assignment, delete a
    subject), and whether it succeeds or fails, a store in which every
    foreign key has its parent row stays such a store. *)
Theorem pages_keep_referential_integrity
  (d : db) (uid : uuid) (a : page_action) :
  ref_integrity d = true -> ref_integrity (perform uuid_in d uid a) = true.
Proof.
  intros Hri. apply ref_integrity_RI in Hri. apply ref_integrity_RI.
  destruct a; unfold perform.
  - apply submitCode_RI. exact Hri.
  - apply submitEvaluation_RI. exact Hri.
  - unfold SubjectEnrollment_handleSubmit.
    destruct selectedSubjects as [|s0 rest]; [exact Hri|].
    rewrite year_is_not_a_column.
    destruct (insert_student_subjects d uid _) as [d'|] eqn:E; [|exact Hri].
    cbn [fst]. eapply insert_student_subjects_RI; eassumption.
  - destruct selectedSubject as [subject_id|]; [|exact Hri].
    rewrite handleBulkEnroll_cases.
    destruct (bulk_ids _ _ _ _); [exact Hri|].
    destruct (all_some _) as [students|]; [|exact Hri].
    destruct (insert_student_subjects d uid _) as [d'|] eqn:E; [|exact Hri].
    cbn [fst]. eapply insert_student_subjects_RI; eassumption.
  - unfold handleAssign.
    destruct selectedFaculty as [f|]; [|exact Hri].
    destruct selectedSubject as [s|]; [|exact Hri].
    destruct (insert_faculty_subject _ _ _) as [d'|e] eqn:E;
      [|destruct e; exact Hri].
    cbn [fst]. apply insert_faculty_subject_rows in E.
    destruct E as [-> [_ [_ [F1 F2]]]].
    pose proof Hri as [_ [_ [_ [_ [R5 [R6 _]]]]]].
    apply RI_set_faculty_subjects; [exact Hri|].
    intros fs Hfs. apply in_app_or in Hfs.
    destruct Hfs as [Hfs|[<-|[]]]; auto.
  - unfold handleRemove, api_delete_faculty_subjects.
    exact (run_delete_RI (DeleteFacultySubjects _) d Hri).
  - unfold handleDelete, api_delete_subjects.
    exact (run_delete_RI (DeleteSubjects _) d Hri).
Qed.

End PagesKeepIntegrity.

Lemma pages_keep_referential_integrity_witness :
  ref_integrity
    (perform (fun _ => None) Scenario.graded_by_fac1 Scenario.adm
       (DoDeleteSubject 10)) = true.
Proof.
  apply (pages_keep_referential_integrity (fun _ => None)
           Scenario.graded_by_fac1 Scenario.adm (DoDeleteSubject 10)).
  reflexivity.
Defined.

(** ** The progress page *)

Lemma pairs_unique_cons (a b : uuid) (l : list (uuid * uuid)) :
  pairs_unique ((a, b) :: l)
  = negb (existsb (fun q => Nat.eqb (fst q) a && Nat.eqb (snd q) b) l)
    && pairs_unique l.
Proof. reflexivity. Qed.

(** Under the key on (experiment, student), the submissions of one student
    are for distinct experiments. *)
Lemma own_submissions_distinct (u : uuid) (l : list submission) :
  pairs_unique (map (fun es => (es_experiment_id es, es_student_id es)) l)
  = true ->
  NoDup (map es_experiment_id
             (filter (fun es => Nat.eqb (es_student_id es) u) l)).
Proof.
  induction l as [|a l IH]; simpl map at 1; intros H; [constructor|].
  rewrite pairs_unique_cons in H. apply andb_true_iff in H.
  destruct H as [Hfresh Hrest]. apply negb_true_iff in Hfresh.
  simpl. destruct (Nat.eqb (es_student_id a) u) eqn:Ea; [|auto].
  simpl. constructor; [|auto].
  intros Hin. apply in_map_iff in Hin. destruct Hin as [b [Eb Hb]].
  apply filter_In in Hb. destruct Hb as [Hb Hbu].
  apply Nat.eqb_eq in Ea, Hbu.
  rewrite existsb_map in Hfresh.
  apply (proj1 (existsb_false_iff _ _)) with (x := b) in Hfresh; [|exact Hb].
  cbn [fst snd] in Hfresh.
  rewrite Eb, Hbu, Ea, !Nat.eqb_refl in Hfresh. discriminate.
Qed.

(** Rows with distinct keys keep distinct keys when some are left out. *)
Lemma distinct_keys_filter {A : Type} (key : A -> uuid) (keep : A -> bool)
  (rows : list A) :
  NoDup (map key rows) -> NoDup (map key (filter keep rows)).
Proof.
  induction rows as [|row rows IH]; simpl; intros Hnd; [constructor|].
  apply NoDup_cons_iff in Hnd. destruct Hnd as [Hfresh Hnd].
  destruct (keep row); simpl; [|exact (IH Hnd)].
  apply NoDup_cons_iff. split; [|exact (IH Hnd)].
  intros Hin. apply Hfresh. apply in_map_iff in Hin.
  destruct Hin as [other [Ekey Hother]]. apply filter_In in Hother.
  apply in_map_iff. exists other. tauto.
Qed.

Lemma filter_filter_and {A : Type} (p q : A -> bool) (l : list A) :
  filter (fun x => p x && q x) l = filter q (filter p l).
Proof.
  induction l as [|a l IH]; simpl; [reflexivity|].
  destruct (p a); simpl; [destruct (q a)|]; rewrite IH; reflexivity.
Qed.

Lemma disjoint_filters_length {A : Type} (p q : A -> bool) (l : list A) :
  (forall x, p x = true -> q x = false) ->
  List.length (filter p l) + List.length (filter q l) <= List.length l.
Proof.
  intros H. induction l as [|a l IH]; simpl; [lia|].
  destruct (p a) eqn:Ep; [rewrite (H a Ep)|destruct (q a)]; simpl; lia.
Qed.

Lemma totals_le (l : list SubjectWithProgress) :
  (forall sp, In sp l -> submitted sp + evaluated sp <= totalExperiments sp) ->
  forall a b, a <= b ->
    fold_left (fun acc sp => acc + submitted sp + evaluated sp) l a
    <= fold_left (fun acc sp => acc + totalExperiments sp) l b.
Proof.
  induction l as [|x l IH]; simpl; intros H a b Hab; [exact Hab|].
  apply IH; [auto|]. specialize (H x (or_introl eq_refl)). lia.
Qed.

(** X17.  On the progress page no card shows more work done than there is:
    when the key on (experiment, student) holds, for every subject shown
    the submitted and the evaluated submissions together are at most the
    subject's experiments, and so are the totals, so that the "pending"
    figures the page derives by subtraction are never negative. *)
Theorem progress_never_exceeds_total (d : db) (u : uuid) :
  submissions_consistent d = true ->
  let cards := MySubjects_fetchData d (Some u) in
  (forall sp, In sp cards ->
     submitted sp + evaluated sp <= totalExperiments sp)
  /\ totalDone cards <= totalExps cards.
Proof.
  intros Hc cards.
  assert (forall sp, In sp cards ->
            submitted sp + evaluated sp <= totalExperiments sp) as Hcard.
  { unfold submissions_consistent in Hc.
    apply andb_true_iff in Hc. destruct Hc as [Hc _].
    apply andb_true_iff in Hc. destruct Hc as [_ Hpairs].
    intros sp Hsp. unfold cards, MySubjects_fetchData in Hsp.
    destruct (select_student_subjects d u _) as [|en0 ens]; [destruct Hsp|].
    apply in_map_iff in Hsp. destruct Hsp as [sj [<- _]].
    cbn [submitted evaluated totalExperiments].
    match goal with
    | |- List.length (filter _ ?rel) + List.length (filter _ ?rel)
         <= List.length ?exps =>
        assert (List.length rel <= List.length exps) as Hrel;
        [|pose proof (disjoint_filters_length
                        (fun sub => String.eqb (es_status sub) "submitted")
                        (fun sub => String.eqb (es_status sub) "evaluated")
                        rel) as Hd]
    end.
    - rewrite <- (length_map ex_id).
      rewrite <- (length_map es_experiment_id (filter _ _)).
      apply NoDup_incl_length.
      + apply distinct_keys_filter. unfold select_submissions.
        rewrite filter_filter_and. apply distinct_keys_filter.
        apply own_submissions_distinct. exact Hpairs.
      + intros k Hk. apply in_map_iff in Hk. destruct Hk as [sub [<- Hsub]].
        apply filter_In in Hsub. destruct Hsub as [_ Hmem].
        apply mem_In. exact Hmem.
    - assert (forall x : submission,
                String.eqb (es_status x) "submitted" = true ->
                String.eqb (es_status x) "evaluated" = false) as Hdis.
      { intros x Hx. apply String.eqb_eq in Hx. rewrite Hx. reflexivity. }
      specialize (Hd Hdis). lia. }
  split; [exact Hcard|].
  unfold totalDone, totalExps. apply totals_le; [exact Hcard|lia].
Qed.

Lemma progress_never_exceeds_total_witness :
  MySubjects_fetchData Scenario.graded_by_admin (Some Scenario.stu1)
  = [mk_progress 10 "Problem Solving and Python Programming" (Some "CS101")
                 (Some "CSE") 1 0 1]
  /\ totalDone (MySubjects_fetchData Scenario.graded_by_admin
                  (Some Scenario.stu1))
     <= totalExps (MySubjects_fetchData Scenario.graded_by_admin
                     (Some Scenario.stu1)).
Proof.
  split; [reflexivity|].
  apply (proj2 (progress_never_exceeds_total Scenario.graded_by_admin
                  Scenario.stu1 eq_refl)).
Defined.

(** ** The proxy: what it answers and what it forwards *)

Section ProxyFacts.

Import ExecuteCode.

Variable piston : piston_request -> exception + piston_json.

(** X18.  Whatever the request, the proxy answers 200, 400 or 500 and
    forwards at most one request to the sandbox; a 400 means nothing was
    forwarded; a preflight (OPTIONS) request is answered 200 with no body
    and forwards nothing, whatever its body. *)
Theorem serve_status_and_forwarding (req : request) :
  let r := serve piston req in
  (status (fst r) = 200 \/ status (fst r) = 400 \/ status (fst r) = 500)
  /\ List.length (snd r) <= 1
  /\ (status (fst r) = 400 -> snd r = [])
  /\ (method req = "OPTIONS" -> r = (mk_response 200 NoBody, [])).
Proof.
  intros r. unfold r, serve.
  destruct (String.eqb (method req) "OPTIONS") eqn:Em.
  - cbn. repeat split; auto.
  - assert (method req <> "OPTIONS") as Hm by (apply String.eqb_neq; exact Em).
    destruct (req_body req) as [| |fields|];
      try (cbn; repeat split; auto; intros; (discriminate || contradiction)).
    destruct (negb (truthy (get_field fields "code"))
              || negb (truthy (get_field fields "language")));
      [cbn; repeat split; auto; intros; contradiction|].
    destruct (get_field fields "language") as [| | | |tag|];
      try (cbn; repeat split; auto; intros; (discriminate || contradiction)).
    destruct (negb (property_truthy (LANGUAGE_MAP_get (toLowerCase tag))));
      [cbn; repeat split; auto; intros; contradiction|].
    destruct (piston _) as [e|[|reply|]];
      cbn; repeat split; auto; intros; (discriminate || contradiction).
Qed.

Lemma LANGUAGE_MAP_own (key : string) (cfg : lang_config) :
  In (key, cfg) LANGUAGE_MAP -> LANGUAGE_MAP_get key = Own cfg /\ key <> "".
Proof.
  unfold LANGUAGE_MAP. simpl.
  intros [H|[H|[H|[H|[H|[H|[]]]]]]]; inversion H; subst;
    (split; [reflexivity|discriminate]).
Qed.

Lemma toLowerCase_empty (s : string) : toLowerCase s <> "" -> s <> "".
Proof. intros H E. subst. apply H. reflexivity. Qed.

(** X19.  A request with code and a language tag whose lower-case form is
    a key of the table is forwarded once, with the runtime and version of
    that key whatever the case of the tag, the code as the single file, an
    empty stdin when none was given, and both timeouts at 10000.  The file
    is named Main.java only for the tag "java" spelled exactly so: "Java"
    or "JAVA" run the Java runtime on a file named main. *)
Theorem serve_forwards_table_runtime
  (m : string) (fields : list (string * jsval)) (tag : string)
  (cfg : lang_config) :
  String.eqb m "OPTIONS" = false ->
  truthy (get_field fields "code") = true ->
  get_field fields "language" = JStr tag ->
  In (toLowerCase tag, cfg) LANGUAGE_MAP ->
  snd (serve piston (mk_request m (BodyObject fields)))
  = [forwarded_request fields tag cfg]
  /\ (pr_file_name (forwarded_request fields tag cfg) = "Main.java"
      <-> tag = "java").
Proof.
  intros Hm Hc Hl Hin. apply LANGUAGE_MAP_own in Hin.
  destruct Hin as [Hget Hne]. apply toLowerCase_empty in Hne.
  apply String.eqb_neq in Hne. split.
  - unfold serve. cbn [method req_body]. rewrite Hm, Hc, Hl.
    cbn [truthy negb orb]. rewrite Hne. cbn [negb]. rewrite Hget.
    cbn [property_truthy negb]. unfold forwarded_request.
    destruct (piston _) as [e|[|reply|]]; reflexivity.
  - unfold forwarded_request. cbn [pr_file_name].
    destruct (String.eqb tag "java") eqn:E.
    + apply String.eqb_eq in E. tauto.
    + apply String.eqb_neq in E. split; [discriminate|contradiction].
Qed.


End ProxyFacts.

Lemma serve_forwards_table_runtime_witness :
  snd (ExecuteCode.serve ExecuteCode.silent_piston
         (ExecuteCode.mk_request "POST"
            (ExecuteCode.BodyObject
               [("code", ExecuteCode.JStr "class Main {}");
                ("language", ExecuteCode.JStr "Java")])))
  = [ExecuteCode.mk_piston_request (Some "java") (Some "15.0.2") "main"
       (ExecuteCode.JStr "class Main {}") (ExecuteCode.JStr "") 10000 10000].
Proof.
  apply (proj1 (serve_forwards_table_runtime ExecuteCode.silent_piston "POST"
                  [("code", ExecuteCode.JStr "class Main {}");
                   ("language", ExecuteCode.JStr "Java")]
                  "Java" (ExecuteCode.mk_lang_config "java" "15.0.2")
                  eq_refl eq_refl eq_refl
                  (or_intror (or_intror (or_introl eq_refl))))).
Defined.


Lemma serve_status_and_forwarding_witness :
  ExecuteCode.serve ExecuteCode.silent_piston
    (ExecuteCode.mk_request "OPTIONS" ExecuteCode.BodyUnparsable)
  = (ExecuteCode.mk_response 200 ExecuteCode.NoBody, []).
Proof.
  apply (proj2 (proj2 (proj2 (serve_status_and_forwarding
                                ExecuteCode.silent_piston
                                (ExecuteCode.mk_request "OPTIONS"
                                   ExecuteCode.BodyUnparsable))))).
  reflexivity.
Defined.
